(** * Depth-camera conversion engine of gazebo_ros_pkgs

    A shallow embedding of [gazebo_plugins/src/gazebo_ros_depth_camera.cpp]
    (class [GazeboRosDepthCamera]): the subscriber counters that switch the
    sensor on and off, the projection of a depth frame into a point cloud,
    the depth raster encoder and the normals visualizer, followed by the
    properties the specification states about them.

    Conventions.
    - [float] and [double] are IEEE 754 binary32 and binary64 values, as
      [spec_float] of the Standard Library; arithmetic is [SFmul 53 1024]
      and friends, conversions round to nearest even.
    - [uint32_t] and [unsigned int] values are integers of [Z] reduced by
      [wrap32] wherever the source computes with them.
    - An access outside an array, or a conversion the C++ standard leaves
      undefined, makes the modelled function return [None].
    - Functions of libm, tf and tf2 are not part of the file under
      verification; they are parameters of the development. *)

From Stdlib Require Import ZArith Bool Lia String QArith Qabs.
From Stdlib Require Import Floats.SpecFloat.
From stdpp Require Import base option list.

Local Open Scope Z_scope.

(** ** IEEE 754 values *)

Definition float := spec_float.
Definition double := spec_float.

(** A value of the binary32 format. *)
Definition is_float (x : float) : bool := valid_binary 24 128 x.

(** Implicit conversion [float -> double] (exact) and [double -> float]
    (rounding to nearest even). *)
Definition f2d (x : float) : double :=
  match x with
  | S754_finite s m e => binary_round 53 1024 s m e
  | _ => x
  end.

Definition d2f (x : double) : float :=
  match x with
  | S754_finite s m e => binary_round 24 128 s m e
  | _ => x
  end.

(** Conversion of an integer to [double]. *)
Definition Z2d (z : Z) : double := binary_normalize 53 1024 z 0 false.

Definition dmul : double -> double -> double := SFmul 53 1024.
Definition dsub : double -> double -> double := SFsub 53 1024.
Definition ddiv : double -> double -> double := SFdiv 53 1024.

(** [a > b] and [a <= b] on doubles; both are false when an operand is NaN. *)
Definition dgt (a b : double) : bool := SFltb b a.
Definition dle (a b : double) : bool := SFleb a b.

Definition quiet_NaN : float := S754_nan.
Definition float_zero : float := S754_zero false.
Definition d_zero : double := S754_zero false.
Definition d_half : double := S754_finite false 4503599627370496 (-53).
Definition d_two : double := Z2d 2.
Definition d_thousand : double := Z2d 1000.

Definition is_finite (x : spec_float) : bool :=
  match x with S754_zero _ | S754_finite _ _ _ => true | _ => false end.

(** The default of [pointCloudCutoff]: the double nearest to 0.4. *)
Definition default_cutoff : double := S754_finite false 7205759403792794 (-54).

(** ** Machine integers *)

Definition wrap32 (z : Z) : Z := z mod 2 ^ 32.

(** [index++] on an [int]: the increment of [INT_MAX] is undefined. *)
Definition int_succ (index : Z) : option Z :=
  if index <? 2 ^ 31 - 1 then Some (index + 1) else None.

(** ** Arrays *)

Definition read {A} (a : list A) (i : Z) : option A :=
  if (0 <=? i) then a !! Z.to_nat i else None.

Definition write {A} (a : list A) (i : Z) (v : A) : option (list A) :=
  if (0 <=? i) && (i <? Z.of_nat (length a))
  then Some (<[Z.to_nat i := v]> a)
  else None.

(** ** Loops

    [for_loop n k body s] runs [body k], [body (k+1)], ... [n] times:
    the loop [for (uint32_t j = k; j < k + n; j++)]. *)
Fixpoint for_loop {St : Type} (n : nat) (k : Z)
  (body : Z -> St -> option St) (s : St) : option St :=
  match n with
  | O => Some s
  | S n' => s' ← body k s; for_loop n' (k + 1) body s'
  end.

(** ** Messages *)

Record Time := { sec : Z; nsec : Z }.

Record Header := { frame_id : string; stamp : Time }.

(** One point of a [sensor_msgs::PointCloud2] with the fields "xyz" and
    "rgb": three floats and the three colour bytes the helper writes. *)
Record Point := {
  pt_x : float; pt_y : float; pt_z : float;
  pt_r : Z; pt_g : Z; pt_b : Z
}.

Definition zero_point : Point :=
  {| pt_x := float_zero; pt_y := float_zero; pt_z := float_zero;
     pt_r := 0; pt_g := 0; pt_b := 0 |}.

(** The layout fields (width, height, steps) are managed by
    [PointCloud2Modifier] and left out. *)
Record PointCloud2 := {
  pc_header : Header;
  pc_is_dense : bool;
  pc_points : list Point
}.

Inductive Encoding := TYPE_32FC1 | TYPE_16UC1.

(** The byte buffer of a depth image, seen through the pointer the helper
    writes it with. *)
Inductive Raster :=
| Raster32 (px : list float)
| Raster16 (px : list Z).

Record Image := {
  im_header : Header;
  im_height : Z;
  im_width : Z;
  im_is_bigendian : Z;
  im_encoding : Encoding;
  im_step : Z;
  im_data : Raster
}.

(** ** Plugin state *)

Record Counters := {
  point_cloud_connect_count_ : Z;
  normals_connect_count_ : Z;
  depth_image_connect_count_ : Z;
  depth_info_connect_count_ : Z;
  reflectance_connect_count_ : Z;
  image_connect_count_ : Z
}.

(** [parentSensor]: the activity flag, the time of the last measurement
    and the horizontal field of view of its depth camera. *)
Record Sensor := {
  IsActive : bool;
  LastMeasurementTime : Time;
  HFOV : double
}.

Record Config := {
  initialized_ : bool;
  width_ : Z;
  height_ : Z;
  width : Z;
  height : Z;
  frame_name_ : string;
  point_cloud_cutoff_ : double;
  reduce_normals_ : Z;
  use_depth_image_16UC1_format_ : bool
}.

Record State := {
  config : Config;
  parentSensor : Sensor;
  counters : Counters;
  depth_sensor_update_time_ : Time;
  sensor_update_time_ : Time;
  pcd_ : option (list float);
  image_msg_data : list Z;
  point_cloud_msg_ : PointCloud2;
  depth_image_msg_ : Image;
  reflectance_msg_ : Image
}.

Definition set_counters (c : Counters) (st : State) : State :=
  {| config := config st; parentSensor := parentSensor st; counters := c;
     depth_sensor_update_time_ := depth_sensor_update_time_ st;
     sensor_update_time_ := sensor_update_time_ st;
     pcd_ := pcd_ st; image_msg_data := image_msg_data st;
     point_cloud_msg_ := point_cloud_msg_ st;
     depth_image_msg_ := depth_image_msg_ st;
     reflectance_msg_ := reflectance_msg_ st |}.

Definition set_sensor (s : Sensor) (st : State) : State :=
  {| config := config st; parentSensor := s; counters := counters st;
     depth_sensor_update_time_ := depth_sensor_update_time_ st;
     sensor_update_time_ := sensor_update_time_ st;
     pcd_ := pcd_ st; image_msg_data := image_msg_data st;
     point_cloud_msg_ := point_cloud_msg_ st;
     depth_image_msg_ := depth_image_msg_ st;
     reflectance_msg_ := reflectance_msg_ st |}.

Definition set_depth_sensor_update_time (t : Time) (st : State) : State :=
  {| config := config st; parentSensor := parentSensor st;
     counters := counters st;
     depth_sensor_update_time_ := t;
     sensor_update_time_ := sensor_update_time_ st;
     pcd_ := pcd_ st; image_msg_data := image_msg_data st;
     point_cloud_msg_ := point_cloud_msg_ st;
     depth_image_msg_ := depth_image_msg_ st;
     reflectance_msg_ := reflectance_msg_ st |}.

Definition set_sensor_update_time (t : Time) (st : State) : State :=
  {| config := config st; parentSensor := parentSensor st;
     counters := counters st;
     depth_sensor_update_time_ := depth_sensor_update_time_ st;
     sensor_update_time_ := t;
     pcd_ := pcd_ st; image_msg_data := image_msg_data st;
     point_cloud_msg_ := point_cloud_msg_ st;
     depth_image_msg_ := depth_image_msg_ st;
     reflectance_msg_ := reflectance_msg_ st |}.

Definition set_pcd (p : option (list float)) (st : State) : State :=
  {| config := config st; parentSensor := parentSensor st;
     counters := counters st;
     depth_sensor_update_time_ := depth_sensor_update_time_ st;
     sensor_update_time_ := sensor_update_time_ st;
     pcd_ := p; image_msg_data := image_msg_data st;
     point_cloud_msg_ := point_cloud_msg_ st;
     depth_image_msg_ := depth_image_msg_ st;
     reflectance_msg_ := reflectance_msg_ st |}.

Definition set_point_cloud_msg (m : PointCloud2) (st : State) : State :=
  {| config := config st; parentSensor := parentSensor st;
     counters := counters st;
     depth_sensor_update_time_ := depth_sensor_update_time_ st;
     sensor_update_time_ := sensor_update_time_ st;
     pcd_ := pcd_ st; image_msg_data := image_msg_data st;
     point_cloud_msg_ := m;
     depth_image_msg_ := depth_image_msg_ st;
     reflectance_msg_ := reflectance_msg_ st |}.

Definition set_depth_image_msg (m : Image) (st : State) : State :=
  {| config := config st; parentSensor := parentSensor st;
     counters := counters st;
     depth_sensor_update_time_ := depth_sensor_update_time_ st;
     sensor_update_time_ := sensor_update_time_ st;
     pcd_ := pcd_ st; image_msg_data := image_msg_data st;
     point_cloud_msg_ := point_cloud_msg_ st;
     depth_image_msg_ := m;
     reflectance_msg_ := reflectance_msg_ st |}.

Definition set_reflectance_msg (m : Image) (st : State) : State :=
  {| config := config st; parentSensor := parentSensor st;
     counters := counters st;
     depth_sensor_update_time_ := depth_sensor_update_time_ st;
     sensor_update_time_ := sensor_update_time_ st;
     pcd_ := pcd_ st; image_msg_data := image_msg_data st;
     point_cloud_msg_ := point_cloud_msg_ st;
     depth_image_msg_ := depth_image_msg_ st;
     reflectance_msg_ := m |}.

(** ** Scalars of the tf library

    [tfScalar] arithmetic and the libm functions behind [tfSin], [tfCos],
    [tfSqrt] and [acos] are external; they are the methods of a class.
    [tf_of_float] is the conversion of a [float] to [tfScalar]. *)
Class TfScalar (T : Type) := {
  tf_of_float : float -> T;
  tf_zero : T;
  tf_one : T;
  tf_half : T;
  tf_minus_one : T;
  tf_add : T -> T -> T;
  tf_sub : T -> T -> T;
  tf_mul : T -> T -> T;
  tf_div : T -> T -> T;
  tfSqrt : T -> T;
  tfSin : T -> T;
  tfCos : T -> T;
  tfAcos : T -> T;
  tf_eqb : T -> T -> bool
}.

Record Vector3 (T : Type) := { vx : T; vy : T; vz : T }.
Record Quaternion (T : Type) := { qx : T; qy : T; qz : T; qw : T }.

Arguments Build_Vector3 {T} _ _ _.
Arguments vx {T} _.
Arguments vy {T} _.
Arguments vz {T} _.
Arguments Build_Quaternion {T} _ _ _ _.
Arguments qx {T} _.
Arguments qy {T} _.
Arguments qz {T} _.
Arguments qw {T} _.

Section TfMath.
Context {T : Type} {tfs : TfScalar T}.

(** [tf::Vector3::dot], [cross], [length], [isZero]. *)
Definition v_dot (a b : Vector3 T) : T :=
  tf_add (tf_add (tf_mul (vx a) (vx b)) (tf_mul (vy a) (vy b)))
         (tf_mul (vz a) (vz b)).

Definition v_cross (a b : Vector3 T) : Vector3 T :=
  {| vx := tf_sub (tf_mul (vy a) (vz b)) (tf_mul (vz a) (vy b));
     vy := tf_sub (tf_mul (vz a) (vx b)) (tf_mul (vx a) (vz b));
     vz := tf_sub (tf_mul (vx a) (vy b)) (tf_mul (vy a) (vx b)) |}.

Definition v_length (a : Vector3 T) : T := tfSqrt (v_dot a a).

Definition v_isZero (a : Vector3 T) : bool :=
  tf_eqb (vx a) tf_zero && tf_eqb (vy a) tf_zero && tf_eqb (vz a) tf_zero.

(** [tf::Quaternion::getIdentity], [setRotation], [length], [normalize]. *)
Definition q_identity : Quaternion T :=
  {| qx := tf_zero; qy := tf_zero; qz := tf_zero; qw := tf_one |}.

Definition q_setRotation (axis : Vector3 T) (angle : T) : Quaternion T :=
  let d := v_length axis in
  let s := tf_div (tfSin (tf_mul angle tf_half)) d in
  {| qx := tf_mul (vx axis) s; qy := tf_mul (vy axis) s;
     qz := tf_mul (vz axis) s; qw := tfCos (tf_mul angle tf_half) |}.

Definition q_length2 (q : Quaternion T) : T :=
  tf_add (tf_add (tf_add (tf_mul (qx q) (qx q)) (tf_mul (qy q) (qy q)))
                 (tf_mul (qz q) (qz q)))
         (tf_mul (qw q) (qw q)).

Definition q_length (q : Quaternion T) : T := tfSqrt (q_length2 q).

Definition q_scale (q : Quaternion T) (s : T) : Quaternion T :=
  {| qx := tf_mul (qx q) s; qy := tf_mul (qy q) s;
     qz := tf_mul (qz q) s; qw := tf_mul (qw q) s |}.

Definition q_normalize (q : Quaternion T) : Quaternion T :=
  q_scale q (tf_div tf_one (q_length q)).

(** The reference axis [tf::Vector3 vector(1.0, 0.0, 0.0)]. *)
Definition reference_axis : Vector3 T :=
  {| vx := tf_one; vy := tf_zero; vz := tf_zero |}.

(** The orientation of a marker (OnNewNormalsFrame, "calculating the
    angle of the normal with the world").  The value of
    [right_vector.normalized()] is discarded by the source, so the axis
    reaches [setRotation] as the cross product left it. *)
Definition marker_orientation (axis_vector : Vector3 T) : Quaternion T :=
  if v_isZero axis_vector then q_identity
  else
    let vector := reference_axis in
    let right_vector := v_cross axis_vector vector in
    q_normalize
      (q_setRotation right_vector
         (tf_mul tf_minus_one (tfAcos (v_dot axis_vector vector)))).

End TfMath.

(** ** Markers and events *)

Inductive MarkerType := ARROW.
Inductive MarkerAction := ADD.

(** [m_color] is (r, g, b, a); [m_scale] holds the literals 1, 0.01, 0.01. *)
Record Marker (T : Type) := {
  m_type : MarkerType;
  m_header : Header;
  m_action : MarkerAction;
  m_color : Z * Z * Z * Z;
  m_scale : Q * Q * Q;
  m_lifetime : Time;
  m_id : Z;
  m_position : double * double * double;
  m_orientation : Quaternion T
}.

Arguments Build_Marker {T} _ _ _ _ _ _ _ _ _.
Arguments m_type {T} _.
Arguments m_header {T} _.
Arguments m_action {T} _.
Arguments m_color {T} _.
Arguments m_scale {T} _.
Arguments m_lifetime {T} _.
Arguments m_id {T} _.
Arguments m_position {T} _.
Arguments m_orientation {T} _.

(** What a handler does to the outside: requests to the sensor and
    messages handed to the publishers. *)
Inductive Event (T : Type) :=
| EvSetActive (b : bool)
| EvPublishPointCloud (m : PointCloud2)
| EvPublishDepthImage (m : Image)
| EvPublishReflectance (m : Image)
| EvPublishNormals (ms : list (Marker T))
| EvPutCameraData (image : list Z).

Arguments EvSetActive {T} _.
Arguments EvPublishPointCloud {T} _.
Arguments EvPublishDepthImage {T} _.
Arguments EvPublishReflectance {T} _.
Arguments EvPublishNormals {T} _.
Arguments EvPutCameraData {T} _.

Definition is_publish {T} (e : Event T) : bool :=
  match e with
  | EvSetActive _ => false
  | _ => true
  end.

Definition is_activation {T} (e : Event T) : bool :=
  match e with
  | EvSetActive true => true
  | _ => false
  end.

Definition is_deactivation {T} (e : Event T) : bool :=
  match e with
  | EvSetActive false => true
  | _ => false
  end.

(** ** The plugin *)

Section Plugin.
Context {T : Type} {tfs : TfScalar T}.

(** libm, [tf2::doTransform] with the configured transform, and
    [GazeboRosCameraUtils::PutCameraData] (its effect on the state). *)
Variable tan : double -> double.
Variable atan2 : double -> double -> double.
Variable doTransform : PointCloud2 -> PointCloud2.
Variable PutCameraData : list Z -> State -> State.

Definition Result : Type := State * list (Event T).

(** [parentSensor->SetActive(b)]. *)
Definition SetActive (b : bool) (st : State) : State :=
  set_sensor {| IsActive := b;
                LastMeasurementTime := LastMeasurementTime (parentSensor st);
                HFOV := HFOV (parentSensor st) |} st.

(** *** Subscriber counters *)

Definition PointCloudConnect (st : State) : Result :=
  let c := counters st in
  let c' := {| point_cloud_connect_count_ := point_cloud_connect_count_ c + 1;
               normals_connect_count_ := normals_connect_count_ c;
               depth_image_connect_count_ := depth_image_connect_count_ c;
               depth_info_connect_count_ := depth_info_connect_count_ c;
               reflectance_connect_count_ := reflectance_connect_count_ c;
               image_connect_count_ := image_connect_count_ c + 1 |} in
  (SetActive true (set_counters c' st), [EvSetActive true]).

Definition PointCloudDisconnect (st : State) : Result :=
  let c := counters st in
  let c' := {| point_cloud_connect_count_ := point_cloud_connect_count_ c - 1;
               normals_connect_count_ := normals_connect_count_ c;
               depth_image_connect_count_ := depth_image_connect_count_ c;
               depth_info_connect_count_ := depth_info_connect_count_ c;
               reflectance_connect_count_ := reflectance_connect_count_ c;
               image_connect_count_ := image_connect_count_ c - 1 |} in
  if point_cloud_connect_count_ c' <=? 0
  then (SetActive false (set_counters c' st), [EvSetActive false])
  else (set_counters c' st, []).

Definition ReflectanceConnect (st : State) : Result :=
  let c := counters st in
  let c' := {| point_cloud_connect_count_ := point_cloud_connect_count_ c;
               normals_connect_count_ := normals_connect_count_ c;
               depth_image_connect_count_ := depth_image_connect_count_ c;
               depth_info_connect_count_ := depth_info_connect_count_ c;
               reflectance_connect_count_ := reflectance_connect_count_ c + 1;
               image_connect_count_ := image_connect_count_ c + 1 |} in
  (SetActive true (set_counters c' st), [EvSetActive true]).

Definition NormalsConnect (st : State) : Result :=
  let c := counters st in
  let c' := {| point_cloud_connect_count_ := point_cloud_connect_count_ c;
               normals_connect_count_ := normals_connect_count_ c + 1;
               depth_image_connect_count_ := depth_image_connect_count_ c;
               depth_info_connect_count_ := depth_info_connect_count_ c;
               reflectance_connect_count_ := reflectance_connect_count_ c;
               image_connect_count_ := image_connect_count_ c + 1 |} in
  (SetActive true (set_counters c' st), [EvSetActive true]).

Definition ReflectanceDisconnect (st : State) : Result :=
  let c := counters st in
  let c' := {| point_cloud_connect_count_ := point_cloud_connect_count_ c;
               normals_connect_count_ := normals_connect_count_ c;
               depth_image_connect_count_ := depth_image_connect_count_ c;
               depth_info_connect_count_ := depth_info_connect_count_ c;
               reflectance_connect_count_ := reflectance_connect_count_ c - 1;
               image_connect_count_ := image_connect_count_ c - 1 |} in
  if reflectance_connect_count_ c' <=? 0
  then (SetActive false (set_counters c' st), [EvSetActive false])
  else (set_counters c' st, []).

(** The test reads [reflectance_connect_count_], as the source does. *)
Definition NormalsDisconnect (st : State) : Result :=
  let c := counters st in
  let c' := {| point_cloud_connect_count_ := point_cloud_connect_count_ c;
               normals_connect_count_ := normals_connect_count_ c - 1;
               depth_image_connect_count_ := depth_image_connect_count_ c;
               depth_info_connect_count_ := depth_info_connect_count_ c;
               reflectance_connect_count_ := reflectance_connect_count_ c;
               image_connect_count_ := image_connect_count_ c - 1 |} in
  if reflectance_connect_count_ c' <=? 0
  then (SetActive false (set_counters c' st), [EvSetActive false])
  else (set_counters c' st, []).

Definition DepthImageConnect (st : State) : Result :=
  let c := counters st in
  let c' := {| point_cloud_connect_count_ := point_cloud_connect_count_ c;
               normals_connect_count_ := normals_connect_count_ c;
               depth_image_connect_count_ := depth_image_connect_count_ c + 1;
               depth_info_connect_count_ := depth_info_connect_count_ c;
               reflectance_connect_count_ := reflectance_connect_count_ c;
               image_connect_count_ := image_connect_count_ c |} in
  (SetActive true (set_counters c' st), [EvSetActive true]).

Definition DepthImageDisconnect (st : State) : Result :=
  let c := counters st in
  let c' := {| point_cloud_connect_count_ := point_cloud_connect_count_ c;
               normals_connect_count_ := normals_connect_count_ c;
               depth_image_connect_count_ := depth_image_connect_count_ c - 1;
               depth_info_connect_count_ := depth_info_connect_count_ c;
               reflectance_connect_count_ := reflectance_connect_count_ c;
               image_connect_count_ := image_connect_count_ c |} in
  (set_counters c' st, []).

Definition DepthInfoConnect (st : State) : Result :=
  let c := counters st in
  let c' := {| point_cloud_connect_count_ := point_cloud_connect_count_ c;
               normals_connect_count_ := normals_connect_count_ c;
               depth_image_connect_count_ := depth_image_connect_count_ c;
               depth_info_connect_count_ := depth_info_connect_count_ c + 1;
               reflectance_connect_count_ := reflectance_connect_count_ c;
               image_connect_count_ := image_connect_count_ c |} in
  (set_counters c' st, []).

Definition DepthInfoDisconnect (st : State) : Result :=
  let c := counters st in
  let c' := {| point_cloud_connect_count_ := point_cloud_connect_count_ c;
               normals_connect_count_ := normals_connect_count_ c;
               depth_image_connect_count_ := depth_image_connect_count_ c;
               depth_info_connect_count_ := depth_info_connect_count_ c - 1;
               reflectance_connect_count_ := reflectance_connect_count_ c;
               image_connect_count_ := image_connect_count_ c |} in
  (set_counters c' st, []).

(** The output kinds that have subscriber callbacks. *)
Inductive OutputKind :=
| KPointCloud | KReflectance | KNormals | KDepthImage | KDepthInfo.

Definition onSubscribe (k : OutputKind) : State -> Result :=
  match k with
  | KPointCloud => PointCloudConnect
  | KReflectance => ReflectanceConnect
  | KNormals => NormalsConnect
  | KDepthImage => DepthImageConnect
  | KDepthInfo => DepthInfoConnect
  end.

Definition onUnsubscribe (k : OutputKind) : State -> Result :=
  match k with
  | KPointCloud => PointCloudDisconnect
  | KReflectance => ReflectanceDisconnect
  | KNormals => NormalsDisconnect
  | KDepthImage => DepthImageDisconnect
  | KDepthInfo => DepthInfoDisconnect
  end.

(** The counter of an output kind. *)
Definition own_count (k : OutputKind) (c : Counters) : Z :=
  match k with
  | KPointCloud => point_cloud_connect_count_ c
  | KReflectance => reflectance_connect_count_ c
  | KNormals => normals_connect_count_ c
  | KDepthImage => depth_image_connect_count_ c
  | KDepthInfo => depth_info_connect_count_ c
  end.

(** *** FillPointCloudHelper *)

(** The colour of the point at column [i], row [j], from
    [image_msg_.data].  The block starts with
    [image_src = &image_msg_.data[0]]: element 0 of an empty vector is
    out of range. *)
Definition fused_color (img : list Z) (rows_arg cols_arg j i : Z)
  : option (Z * Z * Z) :=
  _ ← read img 0;
  let size := Z.of_nat (length img) in
  if size =? wrap32 (rows_arg * cols_arg * 3) then
    r ← read img (wrap32 (i * 3 + j * cols_arg * 3 + 0));
    g ← read img (wrap32 (i * 3 + j * cols_arg * 3 + 1));
    b ← read img (wrap32 (i * 3 + j * cols_arg * 3 + 2));
    Some (r, g, b)
  else if size =? wrap32 (rows_arg * cols_arg) then
    r ← read img (wrap32 (i + j * cols_arg));
    g ← read img (wrap32 (i + j * cols_arg));
    b ← read img (wrap32 (i + j * cols_arg));
    Some (r, g, b)
  else Some (0, 0, 0).

(** Focal length and the angle of a row or column. *)
Definition focal_length (st : State) : double :=
  ddiv (Z2d (width (config st)))
       (dmul d_two (tan (ddiv (HFOV (parentSensor st)) d_two))).

Definition pixel_angle (fl : double) (n k : Z) : double :=
  if 1 <? n
  then atan2 (dsub (Z2d k) (dmul d_half (Z2d (wrap32 (n - 1))))) fl
  else d_zero.

(** The variables the two loops update: the running sample index, the
    position of the four message iterators, the dense flag, the points
    of the message and the cached grid. *)
Record PcLoop := {
  lp_index : Z;
  lp_iter : Z;
  lp_dense : bool;
  lp_points : list Point;
  lp_pcd : list float
}.

Definition pc_pixel (st : State) (rows_arg cols_arg : Z) (fl : double)
  (toCopyFrom : list float) (j : Z) (pAngle : double) (i : Z) (s : PcLoop)
  : option PcLoop :=
  let yAngle := pixel_angle fl cols_arg i in
  d ← read toCopyFrom (lp_index s);
  index_next ← int_succ (lp_index s);
  let depth := f2d d in
  let index := wrap32 (j * cols_arg + i) in
  let x0 := d2f (dmul depth (tan yAngle)) in
  let y0 := d2f (dmul depth (tan pAngle)) in
  let valid := dgt depth (point_cloud_cutoff_ (config st)) in
  let x := if valid then x0 else quiet_NaN in
  let y := if valid then y0 else quiet_NaN in
  let z := if valid then d2f depth else quiet_NaN in
  pcd1 ← write (lp_pcd s) (wrap32 (4 * index + 2))
                (if valid then z else float_zero);
  pcd2 ← write pcd1 (wrap32 (4 * index)) x;
  pcd3 ← write pcd2 (wrap32 (4 * index + 1)) y;
  pcd4 ← write pcd3 (wrap32 (4 * index + 3)) float_zero;
  '(r, g, b) ← fused_color (image_msg_data st) rows_arg cols_arg j i;
  pts ← write (lp_points s) (lp_iter s)
               {| pt_x := x; pt_y := y; pt_z := z;
                  pt_r := r; pt_g := g; pt_b := b |};
  Some {| lp_index := index_next;
          lp_iter := lp_iter s + 1;
          lp_dense := if valid then lp_dense s else false;
          lp_points := pts;
          lp_pcd := pcd4 |}.

Definition pc_row (st : State) (rows_arg cols_arg : Z) (fl : double)
  (toCopyFrom : list float) (j : Z) (s : PcLoop) : option PcLoop :=
  let pAngle := pixel_angle fl rows_arg j in
  for_loop (Z.to_nat cols_arg) 0
           (pc_pixel st rows_arg cols_arg fl toCopyFrom j pAngle) s.

(** [pcd_] is allocated on first use; the contents of the fresh array are
    indeterminate and shown as zeros. *)
Definition pcd_or_new (st : State) (rows_arg cols_arg : Z) : list float :=
  match pcd_ st with
  | Some p => p
  | None => replicate (Z.to_nat (wrap32 (rows_arg * cols_arg * 4))) float_zero
  end.

Definition FillPointCloudHelper (st : State) (point_cloud_msg : PointCloud2)
  (rows_arg cols_arg : Z) (data_arg : list float)
  : option (State * PointCloud2) :=
  let fl := focal_length st in
  let s0 := {| lp_index := 0; lp_iter := 0; lp_dense := true;
               lp_points :=
                 replicate (Z.to_nat (wrap32 (rows_arg * cols_arg))) zero_point;
               lp_pcd := pcd_or_new st rows_arg cols_arg |} in
  s ← for_loop (Z.to_nat rows_arg) 0
        (pc_row st rows_arg cols_arg fl data_arg) s0;
  Some (set_pcd (Some (lp_pcd s)) st,
        {| pc_header := pc_header point_cloud_msg;
           pc_is_dense := lp_dense s;
           pc_points := lp_points s |}).

(** *** FillDepthImageHelper *)

(** Conversion of a [double] to [uint16_t]: truncation towards zero,
    undefined when the truncated value is not a [uint16_t]. *)
Definition d_trunc (x : double) : option Z :=
  match x with
  | S754_zero _ => Some 0
  | S754_finite s m e => Some (cond_Zopp s (Z.shiftl (Zpos m) e))
  | _ => None
  end.

Definition d2u16 (x : double) : option Z :=
  n ← d_trunc x;
  if (0 <=? n) && (n <=? 65535) then Some n else None.

Definition raster_write32 (r : Raster) (i : Z) (v : float) : option Raster :=
  match r with
  | Raster32 px => px' ← write px i v; Some (Raster32 px')
  | Raster16 _ => None
  end.

Definition raster_write16 (r : Raster) (i : Z) (v : Z) : option Raster :=
  match r with
  | Raster16 px => px' ← write px i v; Some (Raster16 px')
  | Raster32 _ => None
  end.

(** What is stored for one sample. *)
Definition encode32 (cutoff : double) (depth : float) : float :=
  if dgt (f2d depth) cutoff then depth else quiet_NaN.

Definition encode16 (cutoff : double) (depth : float) : option Z :=
  if dgt (f2d depth) cutoff then d2u16 (dmul (f2d depth) d_thousand)
  else Some 0.

Definition di_pixel (st : State) (cols_arg : Z) (toCopyFrom : list float)
  (j i : Z) (s : Z * Raster) : option (Z * Raster) :=
  let '(index, dest) := s in
  depth ← read toCopyFrom index;
  index_next ← int_succ index;
  let cutoff := point_cloud_cutoff_ (config st) in
  dest' ←
    (if negb (use_depth_image_16UC1_format_ (config st))
     then raster_write32 dest (wrap32 (i + j * cols_arg))
                         (encode32 cutoff depth)
     else v ← encode16 cutoff depth;
          raster_write16 dest (wrap32 (i + j * cols_arg)) v);
  Some (index_next, dest').

(** The raster is resized to [rows_arg * cols_arg] elements, the product
    taken in 32 bits, and addressed through [&(image_msg.data[0])]:
    element 0 of an empty raster is out of range. *)
Definition FillDepthImageHelper (st : State) (image_msg : Image)
  (rows_arg cols_arg : Z) (data_arg : list float) : option Image :=
  let n := Z.to_nat (wrap32 (rows_arg * cols_arg)) in
  let fmt16 := use_depth_image_16UC1_format_ (config st) in
  let dest0 := if negb fmt16 then Raster32 (replicate n float_zero)
               else Raster16 (replicate n 0) in
  if wrap32 (rows_arg * cols_arg) =? 0 then None
  else
    '(_, dest) ← for_loop (Z.to_nat rows_arg) 0
                   (fun j => for_loop (Z.to_nat cols_arg) 0
                               (di_pixel st cols_arg data_arg j))
                   (0, dest0);
    Some {| im_header := im_header image_msg;
            im_height := rows_arg;
            im_width := cols_arg;
            im_is_bigendian := 0;
            im_encoding := if negb fmt16 then TYPE_32FC1 else TYPE_16UC1;
            im_step := wrap32 ((if negb fmt16 then 4 else 2) * cols_arg);
            im_data := dest |}.

(** *** FillPointdCloud and FillDepthImage *)

Definition depth_header (st : State) : Header :=
  {| frame_id := frame_name_ (config st);
     stamp := depth_sensor_update_time_ st |}.

Definition FillPointdCloud (st : State) (_src : list float) : option Result :=
  let pointCloud := {| pc_header := depth_header st;
                       pc_is_dense := false; pc_points := [] |} in
  '(st1, pointCloud') ←
    FillPointCloudHelper st pointCloud (height (config st))
                         (width (config st)) _src;
  let st2 := set_point_cloud_msg (doTransform pointCloud') st1 in
  Some (st2, [EvPublishPointCloud (point_cloud_msg_ st2)]).

Definition with_header (h : Header) (m : Image) : Image :=
  {| im_header := h; im_height := im_height m; im_width := im_width m;
     im_is_bigendian := im_is_bigendian m; im_encoding := im_encoding m;
     im_step := im_step m; im_data := im_data m |}.

Definition FillDepthImage (st : State) (_src : list float) : option Result :=
  let msg := with_header (depth_header st) (depth_image_msg_ st) in
  msg' ← FillDepthImageHelper st msg (height (config st))
                              (width (config st)) _src;
  let st1 := set_depth_image_msg msg' st in
  Some (st1, [EvPublishDepthImage (depth_image_msg_ st1)]).

(** *** Frame callbacks *)

(** The guard every callback starts with; [height_] and [width_] are
    unsigned. *)
Definition not_ready (st : State) : bool :=
  negb (initialized_ (config st))
  || (height_ (config st) <=? 0) || (width_ (config st) <=? 0).

Definition OnNewDepthFrame (st : State) (_image : list float)
  : option Result :=
  if not_ready st then Some (st, [])
  else
    let st := set_depth_sensor_update_time
                (LastMeasurementTime (parentSensor st)) st in
    let c := counters st in
    if IsActive (parentSensor st) then
      if (point_cloud_connect_count_ c <=? 0)
         && (depth_image_connect_count_ c <=? 0)
         && (image_connect_count_ c <=? 0)
         && (normals_connect_count_ c <=? 0)
      then Some (SetActive false st, [EvSetActive false])
      else
        '(st1, ev1) ←
          (if (0 <? point_cloud_connect_count_ c)
              || (0 <? normals_connect_count_ c)
           then FillPointdCloud st _image
           else Some (st, []));
        '(st2, ev2) ←
          (if 0 <? depth_image_connect_count_ c
           then FillDepthImage st1 _image
           else Some (st1, []));
        Some (st2, ev1 ++ ev2)
    else
      if (0 <? point_cloud_connect_count_ c)
         || (depth_image_connect_count_ c <=? 0)
      then Some (SetActive true st, [EvSetActive true])
      else Some (st, []).

(** [fillImage] sets the fields of the message, resizes its data to
    [step * rows] bytes, computed in 32 bits, and copies as many bytes
    from the frame: it reads past the end of a shorter frame. *)
Definition OnNewReflectanceFrame (st : State) (_image : list float)
  (_width _height : Z) : option Result :=
  if not_ready st then Some (st, [])
  else if 0 <? reflectance_connect_count_ (counters st) then
    let step := wrap32 (4 * _width) in
    let n := wrap32 (step * _height) / 4 in
    if n <=? Z.of_nat (length _image) then
      let msg := {| im_header := {| frame_id := frame_name_ (config st);
                                    stamp := sensor_update_time_ st |};
                    im_height := _height;
                    im_width := _width;
                    im_is_bigendian := 0;
                    im_encoding := TYPE_32FC1;
                    im_step := step;
                    im_data := Raster32 (take (Z.to_nat n) _image) |} in
      let st1 := set_reflectance_msg msg st in
      Some (st1, [EvPublishReflectance (reflectance_msg_ st1)])
    else None
  else Some (st, []).

Definition OnNewImageFrame (st : State) (_image : list Z) : option Result :=
  if not_ready st then Some (st, [])
  else
    let st := set_sensor_update_time
                (LastMeasurementTime (parentSensor st)) st in
    if negb (IsActive (parentSensor st)) then
      if 0 <? image_connect_count_ (counters st)
      then Some (SetActive true st, [EvSetActive true])
      else Some (st, [])
    else
      if 0 <? image_connect_count_ (counters st)
      then Some (PutCameraData _image st, [EvPutCameraData _image])
      else Some (st, []).

(** Conversion of an [unsigned int] to the [int32] field [id]. *)
Definition to_int32 (z : Z) : Z :=
  if z <? 2 ^ 31 then z else z - 2 ^ 32.

Definition make_marker (st : State) (_normals pcd : list float) (index : Z)
  : option (Marker T) :=
  x ← read _normals (wrap32 (4 * index));
  y ← read _normals (wrap32 (4 * index + 1));
  z ← read _normals (wrap32 (4 * index + 2));
  px ← read pcd (wrap32 (4 * index));
  py ← read pcd (wrap32 (4 * index + 1));
  pz ← read pcd (wrap32 (4 * index + 2));
  let axis_vector := {| vx := tf_of_float x; vy := tf_of_float y;
                        vz := tf_of_float z |} in
  Some {| m_type := ARROW;
          m_header := depth_header st;
          m_action := ADD;
          m_color := (1, 0, 0, 1);
          m_scale := (1%Q, (1 # 100)%Q, (1 # 100)%Q);
          m_lifetime := {| sec := 1; nsec := 0 |};
          m_id := to_int32 index;
          m_position := (f2d px, f2d py, f2d pz);
          m_orientation := marker_orientation axis_vector |}.

(** The body of the two loops: [index % reduce_normals_] is computed on
    [unsigned int], and a zero divisor is undefined. *)
Definition normals_pixel (st : State) (_normals pcd : list float)
  (_width i j : Z) (markers : list (Marker T)) : option (list (Marker T)) :=
  let index := wrap32 (j * _width + i) in
  let n := wrap32 (reduce_normals_ (config st)) in
  if n =? 0 then None
  else if index mod n =? 0 then
    m ← make_marker st _normals pcd index;
    Some (markers ++ [m])
  else Some markers.

Definition normals_markers (st : State) (_normals pcd : list float)
  (_width _height : Z) : option (list (Marker T)) :=
  for_loop (Z.to_nat _width) 0
    (fun i => for_loop (Z.to_nat _height) 0
                (normals_pixel st _normals pcd _width i))
    [].

Definition OnNewNormalsFrame (st : State) (_normals : list float)
  (_width _height : Z) : option Result :=
  if not_ready st then Some (st, [])
  else
    if negb (IsActive (parentSensor st)) then
      if 0 <? normals_connect_count_ (counters st)
      then Some (SetActive true st, [EvSetActive true])
      else Some (st, [])
    else
      if 0 <? normals_connect_count_ (counters st) then
        m_array ←
          match pcd_ st with
          | Some pcd => normals_markers st _normals pcd _width _height
          | None => Some []
          end;
        Some (st, [EvPublishNormals m_array])
      else Some (st, []).

End Plugin.

(** ** Instances of the scalar class

    The plugin runs with [tfScalar = double]: IEEE arithmetic, the
    correctly rounded square root, and the sine, cosine and arc cosine of
    libm, which are parameters. *)

Definition TfScalar_double (sin cos acos : double -> double)
  : TfScalar double :=
  {| tf_of_float := f2d;
     tf_zero := d_zero;
     tf_one := Z2d 1;
     tf_half := d_half;
     tf_minus_one := Z2d (-1);
     tf_add := SFadd 53 1024;
     tf_sub := dsub;
     tf_mul := dmul;
     tf_div := ddiv;
     tfSqrt := SFsqrt 53 1024;
     tfSin := sin;
     tfCos := cos;
     tfAcos := acos;
     tf_eqb := SFeqb |}.

(** ** The remaining members of the class

    The constructor, the RGB point cloud callback and [Load].  [size_t]
    is 64 bits wide. *)

Definition wrap64 (z : Z) : Z := z mod 2 ^ 64.

(** [memcpy (dst, src, n * sizeof (float))]: undefined when one of the
    arrays holds fewer than [n] floats. *)
Definition memcpy {A} (dst src : list A) (n : Z) : option (list A) :=
  if (n <=? Z.of_nat (length dst)) && (n <=? Z.of_nat (length src))
  then Some (take (Z.to_nat n) src ++ drop (Z.to_nat n) dst)
  else None.

(** The constructor clears the five counters of the class; the shared
    image counter belongs to the camera utilities.  The time of the last
    depth camera info, which it also clears, is only read by
    PublishCameraInfo and is not part of [State]. *)
Definition GazeboRosDepthCamera (st : State) : State :=
  set_counters
    {| point_cloud_connect_count_ := 0;
       normals_connect_count_ := 0;
       depth_image_connect_count_ := 0;
       depth_info_connect_count_ := 0;
       reflectance_connect_count_ := 0;
       image_connect_count_ := image_connect_count_ (counters st) |} st.

(** *** OnNewRGBPointCloud *)

(** A point of the local cloud of OnNewRGBPointCloud, whose "rgb" field
    is written through a float iterator, and the cloud as the four float
    iterators see it. *)
Record PointXYZRGB := {
  px_x : float; px_y : float; px_z : float; px_rgb : float
}.

Definition zero_rgb_point : PointXYZRGB :=
  {| px_x := float_zero; px_y := float_zero; px_z := float_zero;
     px_rgb := float_zero |}.

Record RGBCloud := {
  rc_header : Header;
  rc_is_dense : bool;
  rc_points : list PointXYZRGB
}.

Section RGBPointCloud.
Context {T : Type}.

(** [tf2::doTransform] with the configured transform, reading the local
    cloud. *)
Variable doTransformRGB : RGBCloud -> PointCloud2.

(** The body of the two loops: the iterator position and the points. *)
Definition rgb_pixel (_pcd : list float) (_width i j : Z)
  (s : Z * list PointXYZRGB) : option (Z * list PointXYZRGB) :=
  let '(iter, points) := s in
  let index := wrap32 (j * _width + i) in
  x ← read _pcd (wrap32 (4 * index));
  y ← read _pcd (wrap32 (4 * index + 1));
  z ← read _pcd (wrap32 (4 * index + 2));
  rgb ← read _pcd (wrap32 (4 * index + 3));
  points' ← write points iter
               {| px_x := x; px_y := y; px_z := z; px_rgb := rgb |};
  Some (iter + 1, points').

Definition OnNewRGBPointCloud (st : State) (_pcd : list float)
  (_width _height : Z) : option (State * list (Event T)) :=
  if not_ready st then Some (st, [])
  else
    let st := set_depth_sensor_update_time
                (LastMeasurementTime (parentSensor st)) st in
    let c := counters st in
    if negb (IsActive (parentSensor st)) then
      if 0 <? point_cloud_connect_count_ c
      then Some (SetActive true st, [EvSetActive true])
      else Some (st, [])
    else
      if (0 <? point_cloud_connect_count_ c)
         || (0 <? normals_connect_count_ c)
      then
        pcd ← memcpy (pcd_or_new st _width _height) _pcd
                 (wrap64 (4 * _width * _height * 4) / 4);
        '(_, points) ←
          for_loop (Z.to_nat _width) 0
            (fun i => for_loop (Z.to_nat _height) 0
                        (rgb_pixel _pcd _width i))
            (0, replicate (Z.to_nat (wrap32 (_width * _height)))
                  zero_rgb_point);
        let pointCloud := {| rc_header := depth_header st;
                             rc_is_dense := true;
                             rc_points := points |} in
        let st1 := set_pcd (Some pcd) st in
        let st2 := set_point_cloud_msg (doTransformRGB pointCloud) st1 in
        Some (st2, [EvPublishPointCloud (point_cloud_msg_ st2)])
      else Some (st, []).

End RGBPointCloud.

(** *** Load *)

(** The children of the plugin's SDF element: the text of the child of a
    given name, if there is one.  [HasElement] tests it and
    [GetElement (name)->Get<std::string> ()] reads it. *)
Definition Sdf := string -> option string.

Definition HasElement (_sdf : Sdf) (name : string) : bool :=
  match _sdf name with Some _ => true | None => false end.

Definition Get_string (_sdf : Sdf) (name : string) : string :=
  default EmptyString (_sdf name).

(** [std::string::find_first_of (c)]; [None] is [npos]. *)
Fixpoint find_first_of (c : Ascii.ascii) (s : string) : option nat :=
  match s with
  | EmptyString => None
  | String a s' =>
      if Ascii.eqb a c then Some O
      else match find_first_of c s' with
           | Some p => Some (S p)
           | None => None
           end
  end.

(** [s.substr (0, len)] and [s.substr (pos)] for [pos <= s.size ()]. *)
Definition substr_to (s : string) (len : option nat) : string :=
  match len with
  | Some n => substring 0 n s
  | None => s
  end.

Definition substr_from (s : string) (pos : nat) : string :=
  substring pos (String.length s - pos) s.

(** [find_first_of (' ') + 1] in [size_t]: [npos + 1] is 0. *)
Definition after_space (p : option nat) : nat :=
  match p with
  | Some n => S n
  | None => O
  end.

(** How [Load] can fail: [std::stod] throws on a token that is not a
    number, and [pose[k]] is undefined past the end of the vector. *)
Inductive Fault := StodThrows | PoseOutOfRange.

(** The fields [Load] sets besides those of [Config]. *)
Record Transform := {
  translation : double * double * double;
  rotation : Quaternion double
}.

Record Topics := {
  image_topic_name_ : string;
  camera_info_topic_name_ : string;
  point_cloud_topic_name_ : string;
  reflectance_topic_name_ : string;
  normals_topic_name_ : string;
  depth_image_topic_name_ : string;
  depth_image_camera_info_topic_name_ : string;
  tf_ : Transform;
  pointCloudFrameName_ : string;
  depthImageFrameName_ : string
}.

Section Loading.

(** [std::stod] ([None] when it throws), the readers of SDF values, the
    quaternion of three Euler angles of ignition math, and the two base
    class loaders. *)
Variable stod : string -> option double.
Variable Get_double : string -> double.
Variable Get_int : string -> Z.
Variable Get_bool : string -> bool.
Variable EulerToQuaternion : double -> double -> double -> Quaternion double.
Variable DepthCameraPlugin_Load : Sdf -> Config * Topics -> Config * Topics.
Variable GazeboRosCameraUtils_Load :
  Sdf -> Config * Topics -> Config * Topics.

(** The loop [while (token != trafostring)] that splits the pose string
    at its spaces; [fuel] bounds the number of tests of the condition. *)
Fixpoint pose_loop (fuel : nat) (token trafostring : string)
  (pose : list double) : option (Fault + list double) :=
  match fuel with
  | O => None
  | S fuel' =>
      if String.eqb token trafostring then Some (inr pose)
      else
        let token' :=
          substr_to trafostring (find_first_of Ascii.Space trafostring) in
        match stod token' with
        | None => Some (inl StodThrows)
        | Some v =>
            pose_loop fuel' token'
              (substr_from trafostring
                 (after_space (find_first_of Ascii.Space trafostring)))
              (pose ++ [v])
        end
  end.

(** The vector [pose] of a pose string. *)
Definition pose_of (trafostring : string) : option (Fault + list double) :=
  pose_loop (S (S (String.length trafostring))) EmptyString trafostring [].

(** The default-constructed [geometry_msgs::Transform ()]: every field
    is zero. *)
Definition Transform_zero : Transform :=
  {| translation := (d_zero, d_zero, d_zero);
     rotation := {| qx := d_zero; qy := d_zero; qz := d_zero;
                    qw := d_zero |} |}.

(** The branch of [Load] that reads "cameraFrameToPointCloudFrame". *)
Definition pose_transform (trafostring : string)
  : option (Fault + Transform) :=
  r ← pose_of trafostring;
  match r with
  | inl f => Some (inl f)
  | inr pose =>
      match pose !! 0%nat, pose !! 1%nat, pose !! 2%nat,
            pose !! 3%nat, pose !! 4%nat, pose !! 5%nat with
      | Some x, Some y, Some z, Some roll, Some pitch, Some yaw =>
          Some (inr {| translation := (x, y, z);
                       rotation := EulerToQuaternion roll pitch yaw |})
      | _, _, _, _, _, _ => Some (inl PoseOutOfRange)
      end
  end.

Definition topic_or (_sdf : Sdf) (name default_name : string) : string :=
  if negb (HasElement _sdf name) then default_name
  else Get_string _sdf name.

Definition Load (ros_initialized : bool) (_sdf : Sdf) (s : Config * Topics)
  : option (Fault + Config * Topics) :=
  let s := DepthCameraPlugin_Load _sdf s in
  if negb ros_initialized then Some (inr s)
  else
    let '(c, t) := s in
    r ← (if negb (HasElement _sdf "cameraFrameToPointCloudFrame")
          then Some (inr Transform_zero)
          else pose_transform
                 (Get_string _sdf "cameraFrameToPointCloudFrame"));
    match r with
    | inl f => Some (inl f)
    | inr tf =>
        let c' :=
          {| initialized_ := initialized_ c;
             width_ := width c;
             height_ := height c;
             width := width c;
             height := height c;
             frame_name_ := frame_name_ c;
             point_cloud_cutoff_ :=
               if negb (HasElement _sdf "pointCloudCutoff")
               then default_cutoff
               else Get_double (Get_string _sdf "pointCloudCutoff");
             reduce_normals_ :=
               if negb (HasElement _sdf "reduceNormals") then 50
               else Get_int (Get_string _sdf "reduceNormals");
             use_depth_image_16UC1_format_ :=
               if negb (HasElement _sdf "useDepth16UC1Format") then false
               else Get_bool (Get_string _sdf "useDepth16UC1Format") |} in
        let t' :=
          {| image_topic_name_ :=
               if negb (HasElement _sdf "imageTopicName")
               then "ir/image_raw" else image_topic_name_ t;
             camera_info_topic_name_ :=
               if negb (HasElement _sdf "cameraInfoTopicName")
               then "ir/camera_info" else camera_info_topic_name_ t;
             point_cloud_topic_name_ :=
               topic_or _sdf "pointCloudTopicName" "points";
             reflectance_topic_name_ :=
               topic_or _sdf "reflectanceTopicName" "reflectance";
             normals_topic_name_ :=
               topic_or _sdf "normalsTopicName" "normals";
             depth_image_topic_name_ :=
               topic_or _sdf "depthImageTopicName" "depth/image_raw";
             depth_image_camera_info_topic_name_ :=
               topic_or _sdf "depthImageCameraInfoTopicName"
                 "depth/camera_info";
             tf_ := tf;
             pointCloudFrameName_ :=
               topic_or _sdf "pointCloudFrameName" (frame_name_ c);
             depthImageFrameName_ :=
               topic_or _sdf "depthImageFrameName" (frame_name_ c) |} in
        Some (inr (GazeboRosCameraUtils_Load _sdf (c', t')))
    end.

End Loading.

(** ** What a frame should produce, pixel by pixel *)

Section PerPixel.
Variable tan : double -> double.
Variable atan2 : double -> double -> double.

(** The frame fits the 32-bit index arithmetic, [data] holds a sample for
    every pixel, a grid cached earlier has room for every pixel and, when
    the frame has a pixel, the colour buffer has an element 0 whose
    address the loop body takes. *)
Definition frame_ok (st : State) (rows cols : Z) (data : list float) : Prop :=
  0 <= rows /\ 0 <= cols /\ 4 * (rows * cols) < 2 ^ 32 /\
  rows * cols <= Z.of_nat (length data) /\
  match pcd_ st with
  | Some p => 4 * (rows * cols) <= Z.of_nat (length p)
  | None => True
  end /\
  (0 < rows * cols -> image_msg_data st <> []).

Definition sample (data : list float) (k : Z) : float :=
  default quiet_NaN (read data k).

Definition pixel_valid (st : State) (d : float) : bool :=
  dgt (f2d d) (point_cloud_cutoff_ (config st)).

Definition pixel_color (st : State) (rows cols j i : Z) : Z * Z * Z :=
  default (0, 0, 0) (fused_color (image_msg_data st) rows cols j i).

Definition pixel_point (st : State) (rows cols j i : Z) (d : float) : Point :=
  let fl := focal_length tan st in
  let yAngle := pixel_angle atan2 fl cols i in
  let pAngle := pixel_angle atan2 fl rows j in
  let c := pixel_color st rows cols j i in
  {| pt_x := if pixel_valid st d then d2f (dmul (f2d d) (tan yAngle))
             else quiet_NaN;
     pt_y := if pixel_valid st d then d2f (dmul (f2d d) (tan pAngle))
             else quiet_NaN;
     pt_z := if pixel_valid st d then d2f (f2d d) else quiet_NaN;
     pt_r := c.1.1; pt_g := c.1.2; pt_b := c.2 |}.

(** The four cached floats of a pixel. *)
Definition pixel_quad (st : State) (rows cols j i : Z) (d : float)
  : list float :=
  let p := pixel_point st rows cols j i d in
  [pt_x p; pt_y p; if pixel_valid st d then pt_z p else float_zero;
   float_zero].

Definition frame_point (st : State) (rows cols : Z) (data : list float)
  (k : Z) : Point :=
  pixel_point st rows cols (k / cols) (k mod cols) (sample data k).

Definition frame_quad (st : State) (rows cols : Z) (data : list float)
  (k : Z) : list float :=
  pixel_quad st rows cols (k / cols) (k mod cols) (sample data k).

Definition frame_points (st : State) (rows cols : Z) (data : list float)
  (n : Z) : list Point :=
  map (frame_point st rows cols data) (seqZ 0 n).

Definition frame_pcd (st : State) (rows cols : Z) (data : list float)
  (n : Z) : list float :=
  flat_map (frame_quad st rows cols data) (seqZ 0 n).

Definition frame_dense (st : State) (data : list float) (n : Z) : bool :=
  forallb (pixel_valid st) (take (Z.to_nat n) data).

(** The invariant of the two loops of [FillPointCloudHelper] after [k]
    pixels; [p0] is the cached grid at entry. *)
Definition pc_inv (st : State) (rows cols : Z) (data : list float)
  (p0 : list float) (k : Z) (s : PcLoop) : Prop :=
  lp_index s = k /\ lp_iter s = k /\
  lp_dense s = frame_dense st data k /\
  lp_points s = frame_points st rows cols data k
                ++ replicate (Z.to_nat (rows * cols - k)) zero_point /\
  lp_pcd s = frame_pcd st rows cols data k ++ drop (Z.to_nat (4 * k)) p0.

End PerPixel.

(** ** What the raster encoder should produce *)

(** The depth frame is well formed for the raster encoder: it has a
    pixel, so that the raster is not empty, fewer than 2^31 of them, so
    that the [int] sample index does not overflow, and a sample for
    every pixel. *)
Definition raster_ok (rows cols : Z) (data : list float) : Prop :=
  0 <= rows /\ 0 <= cols /\ 0 < rows * cols < 2 ^ 31 /\
  rows * cols <= Z.of_nat (length data).

(** A finite binary32 number is an integer multiple of 2^-149:
    [float_scaled x] is that integer, [SF2Q x] the number. *)
Definition float_scaled (x : float) : Z :=
  match x with
  | S754_finite s m e => cond_Zopp s (Z.shiftl (Zpos m) (e + 149))
  | _ => 0
  end.

Definition SF2Q (x : float) : Q := float_scaled x # 2 ^ 149.

(** A sample above the cutoff whose thousandfold is a [uint16_t] after
    truncation. *)
Definition fits_uint16 (cutoff : double) (d : float) : Prop :=
  dgt (f2d d) cutoff = true ->
  is_finite d = true /\ (- (1) < SF2Q d * 1000 /\ SF2Q d * 1000 < 65536)%Q.

(** The invariant of the two loops of [FillDepthImageHelper] after [k]
    samples of a frame of [n] pixels. *)
Definition di_inv (st : State) (data : list float) (n k : Z)
  (s : Z * Raster) : Prop :=
  let cutoff := point_cloud_cutoff_ (config st) in
  s.1 = k /\
  if negb (use_depth_image_16UC1_format_ (config st))
  then s.2 = Raster32 ((encode32 cutoff <$> take (Z.to_nat k) data)
                       ++ replicate (Z.to_nat (n - k)) float_zero)
  else exists done,
         Forall2 (fun d v => encode16 cutoff d = Some v)
           (take (Z.to_nat k) data) done /\
         s.2 = Raster16 (done ++ replicate (Z.to_nat (n - k)) 0).

(** ** The pixels the normals visualizer visits

    The two loops of OnNewNormalsFrame run over the columns and, inside,
    over the rows: the flat indices come in column-major order. *)
Definition visit_column (W H i : Z) : list Z :=
  (fun j => j * W + i) <$> seqZ 0 H.

Definition visit_order (W H : Z) : list Z :=
  seqZ 0 W ≫= visit_column W H.

(** The marker of the pixel [k] is the one [make_marker] builds. *)
Definition marker_of {T} {tfs : TfScalar T} (st : State)
  (normals pcd : list float) (k : Z) (m : Marker T) : Prop :=
  make_marker st normals pcd k = Some m.

(** ** The specification's wording, where it departs from the source *)

(** [round (d * 1000)] clamped to the 16-bit unsigned range: the integer
    nearest to the product, halves away from zero. *)
Definition d_round (x : double) : option Z :=
  match x with
  | S754_zero _ => Some 0
  | S754_finite s m e =>
      Some (cond_Zopp s (Z.shiftl (Zpos m * 2 + Z.shiftl 1 (- e)) (e - 1)))
  | _ => None
  end.

Definition clamp16 (z : Z) : Z := Z.max 0 (Z.min 65535 z).

Definition claimed_encode16 (cutoff : double) (depth : float) : option Z :=
  if dgt (f2d depth) cutoff
  then r ← d_round (dmul (f2d depth) d_thousand); Some (clamp16 r)
  else Some 0.


(** ** Normals in double precision *)




(** ** Stand-ins for libm in worked examples

    The C standard fixes [tan (+-0) = +-0], [sin (+-0) = +-0],
    [cos (+-0) = 1], [acos 1 = +0] and [atan2 (+-0, x) = +-0] for
    positive [x]; the stand-ins agree with libm there and answer NaN for
    every other argument. *)

Definition tan_at_zero (x : double) : double :=
  match x with S754_zero _ => x | _ => S754_nan end.

Definition atan2_at_zero (y x : double) : double :=
  match y with S754_zero _ => y | _ => S754_nan end.

Definition sin_at_zero (x : double) : double :=
  match x with S754_zero _ => x | _ => S754_nan end.

Definition cos_at_zero (x : double) : double :=
  match x with S754_zero _ => Z2d 1 | _ => S754_nan end.

Definition acos_at_one (x : double) : double :=
  if SFeqb x (Z2d 1) then d_zero else S754_nan.

Definition example_scalar : TfScalar double :=
  TfScalar_double sin_at_zero cos_at_zero acos_at_one.







(** ** Worked examples: a camera with the default cutoff *)

Definition example_time : Time := {| sec := 0; nsec := 0 |}.

Definition example_header : Header :=
  {| frame_id := "camera"; stamp := example_time |}.

Definition example_image : Image :=
  {| im_header := example_header; im_height := 0; im_width := 0;
     im_is_bigendian := 0; im_encoding := TYPE_32FC1; im_step := 0;
     im_data := Raster32 [] |}.

Definition example_cloud : PointCloud2 :=
  {| pc_header := example_header; pc_is_dense := true; pc_points := [] |}.

Definition example_config (w h : Z) : Config :=
  {| initialized_ := true; width_ := w; height_ := h; width := w;
     height := h; frame_name_ := "camera";
     point_cloud_cutoff_ := default_cutoff; reduce_normals_ := 50;
     use_depth_image_16UC1_format_ := false |}.

Definition example_counters (pc nrm di refl : Z) : Counters :=
  {| point_cloud_connect_count_ := pc; normals_connect_count_ := nrm;
     depth_image_connect_count_ := di; depth_info_connect_count_ := 0;
     reflectance_connect_count_ := refl;
     image_connect_count_ := pc + nrm + refl |}.

Definition example_state (w h : Z) (active : bool) (c : Counters)
  (pcd : option (list float)) (img : list Z) : State :=
  {| config := example_config w h;
     parentSensor := {| IsActive := active;
                        LastMeasurementTime := example_time;
                        HFOV := Z2d 1 |};
     counters := c;
     depth_sensor_update_time_ := example_time;
     sensor_update_time_ := example_time;
     pcd_ := pcd; image_msg_data := img;
     point_cloud_msg_ := example_cloud;
     depth_image_msg_ := example_image;
     reflectance_msg_ := example_image |}.

(** The floats 0.5 and 0.3 (the binary32 value nearest to 0.3). *)
Definition f_0_5 : float := S754_finite false 8388608 (-24).
Definition f_0_3 : float := S754_finite false 10066330 (-25).

(** The scenario of the specification: a 2 x 2 frame with the samples
    0.5, 0.3, 0.5, 0.5 in row-major order, and a 2 x 2 RGB image. *)
Definition scenario_grid : list float := [f_0_5; f_0_3; f_0_5; f_0_5].

Definition scenario_rgb : list Z :=
  [10; 11; 12; 20; 21; 22; 30; 31; 32; 40; 41; 42].

Definition scenario_state : State :=
  example_state 2 2 true (example_counters 1 0 0 0) None scenario_rgb.

(** The scenario before a colour image has arrived. *)
Definition no_image_state : State :=
  example_state 2 2 true (example_counters 1 0 0 0) None [].

(** A colour buffer of five bytes, the size of no frame of the
    examples. *)
Definition stale_rgb : list Z := [7; 7; 7; 7; 7].

(** A 2 x 1 frame whose second sample is NaN, and a 1 x 1 frame with a
    sample below the cutoff. *)
Definition nan_grid : list float := [f_0_5; quiet_NaN].

Definition nan_state : State :=
  example_state 2 1 true (example_counters 1 0 0 0) None stale_rgb.

Definition single_state : State :=
  example_state 1 1 true (example_counters 1 0 0 0) None stale_rgb.

(** States of the subscriber examples: a ready, inactive camera whose
    only subscriber reads the depth image; an active camera with one
    normals subscriber and one reflectance subscriber, without and with
    a cached grid; a camera that is not initialized. *)
Definition depth_only_state : State :=
  example_state 2 2 false (example_counters 0 0 1 0) None [].

Definition normals_and_reflectance_state : State :=
  example_state 2 2 true (example_counters 0 1 0 1) None [].

Definition uninitialized_state : State :=
  {| config := {| initialized_ := false; width_ := 2; height_ := 2;
                  width := 2; height := 2; frame_name_ := "camera";
                  point_cloud_cutoff_ := default_cutoff;
                  reduce_normals_ := 50;
                  use_depth_image_16UC1_format_ := false |};
     parentSensor := parentSensor scenario_state;
     counters := example_counters 1 1 1 1;
     depth_sensor_update_time_ := example_time;
     sensor_update_time_ := example_time;
     pcd_ := None; image_msg_data := [];
     point_cloud_msg_ := example_cloud;
     depth_image_msg_ := example_image;
     reflectance_msg_ := example_image |}.

(** A ready camera nobody has subscribed to. *)
Definition idle_state : State :=
  example_state 2 2 false (example_counters 0 0 0 0) None [].

(** A normal grid and a cached grid for the 2 x 2 scenario, and the
    scenario with a normals subscriber and a stride of 3. *)
Definition scenario_normals : list float :=
  [f_0_5; f_0_5; f_0_5; float_zero; float_zero; float_zero; float_zero;
   float_zero; f_0_5; f_0_3; f_0_5; float_zero; f_0_3; f_0_3; f_0_5;
   float_zero].

Definition scenario_pcd : list float :=
  [f_0_3; f_0_3; f_0_5; float_zero; quiet_NaN; quiet_NaN; float_zero;
   float_zero; f_0_3; f_0_5; f_0_5; float_zero; f_0_5; f_0_5; f_0_5;
   float_zero].

Definition normals_state : State :=
  {| config := {| initialized_ := true; width_ := 2; height_ := 2;
                  width := 2; height := 2; frame_name_ := "camera";
                  point_cloud_cutoff_ := default_cutoff;
                  reduce_normals_ := 3;
                  use_depth_image_16UC1_format_ := false |};
     parentSensor := parentSensor scenario_state;
     counters := example_counters 0 1 0 0;
     depth_sensor_update_time_ := example_time;
     sensor_update_time_ := example_time;
     pcd_ := Some scenario_pcd; image_msg_data := [];
     point_cloud_msg_ := example_cloud;
     depth_image_msg_ := example_image;
     reflectance_msg_ := example_image |}.

(** The same with a stride of -2. *)
Definition negative_stride_state : State :=
  {| config := {| initialized_ := true; width_ := 2; height_ := 2;
                  width := 2; height := 2; frame_name_ := "camera";
                  point_cloud_cutoff_ := default_cutoff;
                  reduce_normals_ := -2;
                  use_depth_image_16UC1_format_ := false |};
     parentSensor := parentSensor scenario_state;
     counters := example_counters 0 1 0 0;
     depth_sensor_update_time_ := example_time;
     sensor_update_time_ := example_time;
     pcd_ := Some scenario_pcd; image_msg_data := [];
     point_cloud_msg_ := example_cloud;
     depth_image_msg_ := example_image;
     reflectance_msg_ := example_image |}.

(** The scenario with the 16-bit encoding selected. *)
Definition scenario16_state : State :=
  {| config := {| initialized_ := true; width_ := 2; height_ := 2;
                  width := 2; height := 2; frame_name_ := "camera";
                  point_cloud_cutoff_ := default_cutoff;
                  reduce_normals_ := 50;
                  use_depth_image_16UC1_format_ := true |};
     parentSensor := parentSensor scenario_state;
     counters := example_counters 0 0 1 0;
     depth_sensor_update_time_ := example_time;
     sensor_update_time_ := example_time;
     pcd_ := None; image_msg_data := [];
     point_cloud_msg_ := example_cloud;
     depth_image_msg_ := example_image;
     reflectance_msg_ := example_image |}.

(** The floats 513/1024 = 0.5009765625 and 70. *)
Definition f_513_1024 : float := S754_finite false 8404992 (-24).
Definition f_70 : float := S754_finite false 9175040 (-17).





(** ** The tokens of a pose string *)

(** A token holds no space. *)
Definition no_space (s : string) : Prop :=
  find_first_of Ascii.Space s = None.

(** The tokens between the spaces of a string, empty ones included. *)
Fixpoint split_spaces (s : string) : list string :=
  match s with
  | EmptyString => [EmptyString]
  | String a s' =>
      if Ascii.eqb a Ascii.Space then EmptyString :: split_spaces s'
      else match split_spaces s' with
           | t :: ts => String a t :: ts
           | [] => [String a EmptyString]
           end
  end.

(** The tokens the loop of [Load] converts, [prev] being the token before
    the first one: the last token is left out when it repeats the one
    before it. *)
Fixpoint pushed_tokens (prev : string) (ts : list string) : list string :=
  match ts with
  | [] => []
  | t :: rest =>
      match rest with
      | [] => if String.eqb prev t then [] else [t]
      | _ :: _ => t :: pushed_tokens t rest
      end
  end.

(** A stand-in for [std::stod] in worked examples: the numbers "0", "1"
    and "2" and nothing else. *)
Definition stod_small (s : string) : option double :=
  if String.eqb s "0" then Some d_zero
  else if String.eqb s "1" then Some (Z2d 1)
  else if String.eqb s "2" then Some (Z2d 2)
  else None.

(** An SDF element whose only child is the pose string, and the fields
    of a plugin before [Load]. *)
Definition pose_sdf (pose : string) : Sdf :=
  fun name =>
    if String.eqb name "cameraFrameToPointCloudFrame" then Some pose
    else None.

Definition example_topics : Topics :=
  {| image_topic_name_ := ""; camera_info_topic_name_ := "";
     point_cloud_topic_name_ := ""; reflectance_topic_name_ := "";
     normals_topic_name_ := ""; depth_image_topic_name_ := "";
     depth_image_camera_info_topic_name_ := "";
     tf_ := Transform_zero;
     pointCloudFrameName_ := ""; depthImageFrameName_ := "" |}.

(** A stand-in for [EulerToQuaternion] that keeps the three angles. *)
Definition keep_angles (roll pitch yaw : double) : Quaternion double :=
  {| qx := roll; qy := pitch; qz := yaw; qw := d_zero |}.

(** ** Sequences of subscriber callbacks and of depth frames *)

(** What ROS calls when a subscriber of an output comes or goes, as
    [Advertise] binds the handlers to the topics. *)
Inductive Callback :=
| Subscribe (k : OutputKind)
| Unsubscribe (k : OutputKind).

Definition run_callback {T} (cb : Callback) (st : State)
  : State * list (Event T) :=
  match cb with
  | Subscribe k => onSubscribe k st
  | Unsubscribe k => onUnsubscribe k st
  end.

Fixpoint run_callbacks {T} (cbs : list Callback) (st : State)
  : State * list (Event T) :=
  match cbs with
  | [] => (st, [])
  | cb :: rest =>
      let '(st1, ev1) := run_callback cb st in
      let '(st2, ev2) := run_callbacks rest st1 in
      (st2, ev1 ++ ev2)
  end.

Definition kind_eqb (a b : OutputKind) : bool :=
  match a, b with
  | KPointCloud, KPointCloud | KReflectance, KReflectance
  | KNormals, KNormals | KDepthImage, KDepthImage
  | KDepthInfo, KDepthInfo => true
  | _, _ => false
  end.

(** The subscribers of an output that a sequence of callbacks leaves:
    those that came less those that went. *)
Definition subscription (k : OutputKind) (cb : Callback) : Z :=
  match cb with
  | Subscribe k' => if kind_eqb k k' then 1 else 0
  | Unsubscribe k' => if kind_eqb k k' then -1 else 0
  end.

Definition subscribers (k : OutputKind) (cbs : list Callback) : Z :=
  foldr (fun cb n => subscription k cb + n) 0 cbs.

(** A sequence of depth frames delivered to [OnNewDepthFrame]. *)
Fixpoint run_depth_frames {T} (tan : double -> double)
  (atan2 : double -> double -> double)
  (doTransform : PointCloud2 -> PointCloud2)
  (frames : list (list float)) (st : State)
  : option (State * list (Event T)) :=
  match frames with
  | [] => Some (st, [])
  | image :: rest =>
      '(st1, ev1) ← OnNewDepthFrame tan atan2 doTransform st image;
      '(st2, ev2) ← run_depth_frames tan atan2 doTransform rest st1;
      Some (st2, ev1 ++ ev2)
  end.

(** An active camera with one point cloud subscriber and one depth image
    subscriber. *)
Definition cloud_and_image_state : State :=
  example_state 2 2 true (example_counters 1 0 1 0) None stale_rgb.

(** ** The RGB point cloud, pixel by pixel *)

(** The point of the pixel of flat index [k] in a frame of four floats
    per pixel. *)
Definition rgb_point_at (_pcd : list float) (k : Z) : PointXYZRGB :=
  {| px_x := sample _pcd (4 * k); px_y := sample _pcd (4 * k + 1);
     px_z := sample _pcd (4 * k + 2); px_rgb := sample _pcd (4 * k + 3) |}.

(** The invariant of the two loops of OnNewRGBPointCloud: [visited] are
    the flat indices seen so far, [n] the number of points. *)
Definition rgb_inv (_pcd : list float) (n : Z) (visited : list Z)
  (s : Z * list PointXYZRGB) : Prop :=
  s.1 = Z.of_nat (length visited) /\
  s.2 = (rgb_point_at _pcd <$> visited)
        ++ replicate (Z.to_nat (n - Z.of_nat (length visited)))
             zero_rgb_point.

(** An active camera with a point cloud subscriber and a normals
    subscriber, before the first frame. *)
Definition cloud_and_normals_state : State :=
  example_state 2 2 true (example_counters 1 1 0 0) None [].

(** ** Markers of the normals visualizer *)

(** The quaternion whose four components are NaN. *)
Definition q_nan : Quaternion double :=
  {| qx := S754_nan; qy := S754_nan; qz := S754_nan; qw := S754_nan |}.

(** A normal grid for the 2 x 2 scenario whose normals are (0.5, 0, 0),
    and the scenario with a stride of zero. *)
Definition axis_normals : list float :=
  [f_0_5; float_zero; float_zero; float_zero;
   f_0_5; float_zero; float_zero; float_zero;
   f_0_5; float_zero; float_zero; float_zero;
   f_0_5; float_zero; float_zero; float_zero].

Definition zero_stride_state : State :=
  {| config := {| initialized_ := true; width_ := 2; height_ := 2;
                  width := 2; height := 2; frame_name_ := "camera";
                  point_cloud_cutoff_ := default_cutoff;
                  reduce_normals_ := 0;
                  use_depth_image_16UC1_format_ := false |};
     parentSensor := parentSensor scenario_state;
     counters := example_counters 0 1 0 0;
     depth_sensor_update_time_ := example_time;
     sensor_update_time_ := example_time;
     pcd_ := Some scenario_pcd; image_msg_data := [];
     point_cloud_msg_ := example_cloud;
     depth_image_msg_ := example_image;
     reflectance_msg_ := example_image |}.

(** An active camera whose only subscriber reads the normals. *)
Definition normals_only_state : State :=
  example_state 2 2 true (example_counters 0 1 0 0) None stale_rgb.

(** * Proofs *)

#[local] Arguments wrap32 : simpl never.
#[local] Arguments int_succ : simpl never.
#[local] Arguments f2d : simpl never.
#[local] Arguments d2f : simpl never.
#[local] Arguments dmul : simpl never.
#[local] Arguments dgt : simpl never.
#[local] Arguments Z2d : simpl never.
#[local] Arguments write : simpl never.
#[local] Arguments read : simpl never.

(** ** IEEE 754 values: conversions and comparisons *)

(** The iterator of [SpecFloat] is the one of [Pos]. *)
Lemma iter_pos_iter {A} (f : A -> A) (p : positive) (x : A) :
  SpecFloat.iter_pos f p x = Pos.iter f x p.
Proof.
  revert x. induction p as [p IH | p IH |]; intro x; simpl.
  - rewrite !IH, <- !Pos.iter_swap. reflexivity.
  - rewrite !IH. reflexivity.
  - reflexivity.
Qed.

(** Shifting a mantissa left by [d] bits. *)
Lemma Zpos_iter_xO (p d : positive) :
  Zpos (Pos.iter xO p d) = Zpos p * 2 ^ Zpos d.
Proof.
  induction d as [| d IH] using Pos.peano_ind.
  - simpl. lia.
  - rewrite Pos.iter_succ, Pos2Z.inj_xO, IH, Pos2Z.inj_succ.
    rewrite Z.pow_succ_r by lia. lia.
Qed.

Lemma digits2_pos_shl (m d : positive) :
  Zpos (digits2_pos (Pos.iter xO m d)) = Zpos (digits2_pos m) + Zpos d.
Proof.
  induction d as [| d IH] using Pos.peano_ind.
  - simpl. lia.
  - rewrite Pos.iter_succ. simpl digits2_pos. lia.
Qed.

Lemma digits2_log2 (p : positive) :
  Zpos (digits2_pos p) = Z.log2 (Zpos p) + 1.
Proof.
  induction p as [p IH | p IH |]; simpl digits2_pos.
  - rewrite Pos2Z.inj_succ, IH, Pos2Z.inj_xI.
    rewrite Z.log2_succ_double by lia. lia.
  - rewrite Pos2Z.inj_succ, IH, Pos2Z.inj_xO.
    rewrite Z.log2_double by lia. lia.
  - reflexivity.
Qed.

(** Shifting right the [d] zero bits a left shift has appended loses
    nothing: the round and sticky bits stay clear. *)
Lemma shr_shl_exact (m d : positive) :
  SpecFloat.iter_pos shr_1 d
    (Build_shr_record (Zpos (Pos.iter xO m d)) false false)
  = Build_shr_record (Zpos m) false false.
Proof.
  rewrite iter_pos_iter.
  induction d as [| d IH] using Pos.peano_ind.
  - reflexivity.
  - rewrite (Pos.iter_succ d positive xO), Pos.iter_succ_r.
    simpl shr_1. exact IH.
Qed.

Section Rounding.
Variables prec emax : Z.

(** Rounding a mantissa with [d] trailing zero bits, when [d] is the
    number of bits to drop, is exact. *)
Lemma binary_round_aux_shift (s : bool) (m d : positive) (e : Z) :
  fexp prec emax (Zpos (digits2_pos m) + Zpos d + e) = e + Zpos d ->
  e + Zpos d <= emax - prec ->
  binary_round_aux prec emax s (Zpos (Pos.iter xO m d)) e loc_Exact
  = S754_finite s m (e + Zpos d).
Proof.
  intros Hf Hb.
  unfold binary_round_aux, shr_fexp. cbn [Zdigits2].
  rewrite digits2_pos_shl, Hf.
  replace (e + Zpos d - e) with (Zpos d) by lia.
  cbn [shr_record_of_loc shr]. rewrite shr_shl_exact. cbv beta iota.
  cbn [shr_m loc_of_shr_record round_nearest_even Zdigits2].
  replace (Zpos (digits2_pos m) + (e + Zpos d))
    with (Zpos (digits2_pos m) + Zpos d + e) by lia.
  rewrite Hf, Z.sub_diag. cbn [shr]. cbv beta iota. cbn [shr_m].
  apply Z.leb_le in Hb. rewrite Hb. reflexivity.
Qed.

(** Rounding a number that is already in the format changes nothing. *)
Lemma binary_round_aux_canonical (s : bool) (m : positive) (e : Z) :
  bounded prec emax m e = true ->
  binary_round_aux prec emax s (Zpos m) e loc_Exact = S754_finite s m e.
Proof.
  unfold bounded, canonical_mantissa. intros Hb.
  apply andb_true_iff in Hb. destruct Hb as [Hc He].
  apply Z.eqb_eq in Hc.
  unfold binary_round_aux, shr_fexp. cbn [Zdigits2 shr_record_of_loc].
  rewrite Hc, Z.sub_diag. cbn [shr]. cbv beta iota.
  cbn [shr_m loc_of_shr_record round_nearest_even Zdigits2].
  rewrite Hc, Z.sub_diag. cbn [shr]. cbv beta iota. cbn [shr_m].
  rewrite He. reflexivity.
Qed.

(** Widening: a mantissa too short for the format is shifted left. *)
Lemma binary_round_widen (s : bool) (m d : positive) (e : Z) :
  fexp prec emax (Zpos (digits2_pos m) + e) = e - Zpos d ->
  e - Zpos d <= emax - prec ->
  binary_round prec emax s m e
  = S754_finite s (Pos.iter xO m d) (e - Zpos d).
Proof.
  intros Hf Hb. unfold binary_round. rewrite Hf. unfold shl_align.
  replace (e - Zpos d - e) with (Zneg d) by lia.
  apply binary_round_aux_canonical.
  unfold bounded, canonical_mantissa. rewrite digits2_pos_shl.
  replace (Zpos (digits2_pos m) + Zpos d + (e - Zpos d))
    with (Zpos (digits2_pos m) + e) by lia.
  rewrite Hf, Z.eqb_refl. simpl. apply Z.leb_le. exact Hb.
Qed.

(** Narrowing a number of the format whose mantissa was shifted left by
    [d] bits gives the number back. *)
Lemma binary_round_narrow (s : bool) (m d : positive) (e : Z) :
  bounded prec emax m e = true ->
  binary_round prec emax s (Pos.iter xO m d) (e - Zpos d)
  = S754_finite s m e.
Proof.
  intros Hb. unfold bounded, canonical_mantissa in Hb.
  apply andb_true_iff in Hb. destruct Hb as [Hc He].
  apply Z.eqb_eq in Hc. apply Z.leb_le in He.
  unfold binary_round. rewrite digits2_pos_shl.
  replace (Zpos (digits2_pos m) + Zpos d + (e - Zpos d))
    with (Zpos (digits2_pos m) + e) by lia.
  rewrite Hc. unfold shl_align.
  replace (e - (e - Zpos d)) with (Zpos d) by lia.
  replace e with (e - Zpos d + Zpos d) at 2 by lia.
  apply binary_round_aux_shift; [| lia].
  replace (Zpos (digits2_pos m) + Zpos d + (e - Zpos d))
    with (Zpos (digits2_pos m) + e) by lia.
  lia.
Qed.

End Rounding.

(** The double of a finite float: the same number, with the mantissa
    shifted to 53 bits. *)
Lemma f2d_finite (s : bool) (m : positive) (e : Z) :
  is_float (S754_finite s m e) = true ->
  exists k : positive,
    f2d (S754_finite s m e) = S754_finite s (Pos.iter xO m k) (e - Zpos k)
    /\ Zpos (digits2_pos m) + Zpos k = 53
    /\ Zpos (digits2_pos m) <= 24 /\ -149 <= e <= 104.
Proof.
  unfold is_float. simpl. intros Hv.
  unfold bounded, canonical_mantissa in Hv.
  apply andb_true_iff in Hv. destruct Hv as [Hc He].
  apply Z.eqb_eq in Hc. apply Z.leb_le in He.
  unfold fexp, emin in Hc.
  set (D := Zpos (digits2_pos m)) in *.
  assert (HD : 0 < D) by (unfold D; lia).
  assert (Hf : fexp 53 1024 (D + e) = e - (53 - D))
    by (unfold fexp, emin; lia).
  destruct (53 - D) as [| k | k] eqn:Hk; try lia.
  exists k. split; [| lia].
  unfold f2d. apply binary_round_widen; [exact Hf | lia].
Qed.

(** A float converted to double and back is the float itself. *)
Lemma d2f_f2d (x : float) : is_float x = true -> d2f (f2d x) = x.
Proof.
  destruct x as [s | s | | s m e]; try reflexivity.
  intros Hv. destruct (f2d_finite s m e Hv) as (k & Hk & _).
  rewrite Hk. unfold d2f. apply binary_round_narrow. exact Hv.
Qed.

(** Comparisons: swapping the operands reverses the outcome, and [a <= b]
    excludes [a > b]. *)
Lemma SFcompare_swap (a b : spec_float) (c : comparison) :
  SFcompare a b = Some c -> SFcompare b a = Some (CompOpp c).
Proof.
  destruct a as [sa | sa | | sa ma ea], b as [sb | sb | | sb mb eb];
    simpl; try discriminate;
    try (destruct sa; intros [= <-]; reflexivity);
    try (destruct sb; intros [= <-]; reflexivity);
    try (intros [= <-]; reflexivity).
  - destruct sa, sb; intros [= <-]; reflexivity.
  - destruct sa, sb; intros [= <-]; try reflexivity.
    + rewrite (Z.compare_antisym ea eb).
      destruct (ea ?= eb) eqn:E; simpl; try reflexivity.
      rewrite CompOpp_involutive. f_equal.
      exact (Pos.compare_cont_antisym mb ma Eq).
    + rewrite (Z.compare_antisym ea eb).
      destruct (ea ?= eb) eqn:E; simpl; try reflexivity.
      f_equal. symmetry. exact (Pos.compare_cont_antisym ma mb Eq).
Qed.

Lemma dle_not_dgt (a b : double) : dle a b = true -> dgt a b = false.
Proof.
  unfold dle, dgt, SFleb, SFltb.
  destruct (SFcompare a b) as [c |] eqn:E; [| discriminate].
  rewrite (SFcompare_swap a b c E).
  destruct c; simpl; auto.
Qed.

(** ** Loops and arrays *)

(** A loop keeps an invariant that every iteration keeps, and returns
    when every iteration does. *)
Lemma for_loop_inv {St : Type} (I : Z -> St -> Prop)
  (body : Z -> St -> option St) (n : nat) :
  forall (k : Z) (s : St),
    I k s ->
    (forall k' s', k <= k' < k + Z.of_nat n -> I k' s' ->
       exists s'', body k' s' = Some s'' /\ I (k' + 1) s'') ->
    exists s', for_loop n k body s = Some s' /\ I (k + Z.of_nat n) s'.
Proof.
  induction n as [| n IH]; intros k s Hk Hstep.
  - exists s. split; [reflexivity |].
    replace (k + Z.of_nat 0) with k by lia. exact Hk.
  - destruct (Hstep k s) as (s1 & Hb & H1); [lia | exact Hk |].
    destruct (IH (k + 1) s1 H1) as (s2 & Hl & H2).
    + intros k' s' Hr. apply Hstep. lia.
    + exists s2. split.
      * simpl. rewrite Hb. simpl. exact Hl.
      * replace (k + Z.of_nat (S n)) with (k + 1 + Z.of_nat n) by lia.
        exact H2.
Qed.

Lemma wrap32_small (z : Z) : 0 <= z < 2 ^ 32 -> wrap32 z = z.
Proof. intros Hz. unfold wrap32. apply Z.mod_small. exact Hz. Qed.

(** The increment of an [int] below [INT_MAX]. *)
Lemma int_succ_small (z : Z) : z < 2 ^ 31 - 1 -> int_succ z = Some (z + 1).
Proof.
  intros Hz. unfold int_succ.
  destruct (z <? 2 ^ 31 - 1) eqn:E; [reflexivity | apply Z.ltb_ge in E; lia].
Qed.

Lemma int_succ_Some (z z' : Z) :
  int_succ z = Some z' -> z < 2 ^ 31 - 1 /\ z' = z + 1.
Proof.
  unfold int_succ. destruct (z <? 2 ^ 31 - 1) eqn:E; [| discriminate].
  apply Z.ltb_lt in E. intros [= <-]. split; [exact E | reflexivity].
Qed.

Lemma read_Some {A} (a : list A) (i : Z) :
  0 <= i < Z.of_nat (length a) -> exists x, read a i = Some x.
Proof.
  intros Hi. unfold read.
  destruct (0 <=? i) eqn:E; [| apply Z.leb_gt in E; lia].
  destruct (a !! Z.to_nat i) eqn:L; [eauto |].
  apply lookup_ge_None in L. lia.
Qed.

Lemma read_lookup {A} (a : list A) (i : Z) (x : A) :
  read a i = Some x -> 0 <= i /\ a !! Z.to_nat i = Some x.
Proof.
  unfold read. destruct (0 <=? i) eqn:E; [| discriminate].
  apply Z.leb_le in E. auto.
Qed.

Lemma read_app_l {A} (l1 l2 : list A) (i : Z) :
  0 <= i < Z.of_nat (length l1) -> read (l1 ++ l2) i = read l1 i.
Proof.
  intros Hi. unfold read. destruct (0 <=? i); [| reflexivity].
  apply lookup_app_l. lia.
Qed.

Lemma read_app_r {A} (l1 l2 : list A) (i : Z) :
  Z.of_nat (length l1) <= i ->
  read (l1 ++ l2) i = read l2 (i - Z.of_nat (length l1)).
Proof.
  intros Hi. unfold read.
  destruct (0 <=? i) eqn:E1; [| apply Z.leb_gt in E1; lia].
  destruct (0 <=? i - Z.of_nat (length l1)) eqn:E2;
    [| apply Z.leb_gt in E2; lia].
  rewrite lookup_app_r by lia. f_equal. lia.
Qed.

(** Writing the element that follows a prefix. *)
Lemma write_middle {A} (l1 l2 : list A) (x v : A) (i : Z) :
  i = Z.of_nat (length l1) ->
  write (l1 ++ x :: l2) i v = Some (l1 ++ v :: l2).
Proof.
  intros ->. unfold write. rewrite length_app. simpl length.
  destruct (0 <=? Z.of_nat (length l1)) eqn:E1;
    [| apply Z.leb_gt in E1; lia].
  destruct (Z.of_nat (length l1) <? Z.of_nat (length l1 + S (length l2)))
    eqn:E2; [| apply Z.ltb_ge in E2; lia].
  simpl. f_equal. rewrite Nat2Z.id.
  rewrite insert_app_r_alt by lia. rewrite Nat.sub_diag. reflexivity.
Qed.

Lemma drop_cons (A : Type) (l : list A) (n : nat) :
  (n < length l)%nat -> exists x, drop n l = x :: drop (S n) l.
Proof.
  intros Hn. destruct (l !! n) as [x |] eqn:L.
  - exists x. apply drop_S. exact L.
  - apply lookup_ge_None in L. lia.
Qed.

(** The four writes that fill the quad of pixel [k] in the cached grid,
    in the order of the source: z, x, y and the reserved slot. *)
Lemma write_quad (pre p0 : list float) (k : Z) (x y z w : float) :
  0 <= k -> Z.of_nat (length pre) = 4 * k ->
  4 * k + 4 <= Z.of_nat (length p0) ->
  exists l1 l2 l3,
    write (pre ++ drop (Z.to_nat (4 * k)) p0) (4 * k + 2) z = Some l1 /\
    write l1 (4 * k) x = Some l2 /\
    write l2 (4 * k + 1) y = Some l3 /\
    write l3 (4 * k + 3) w
    = Some ((pre ++ [x; y; z; w]) ++ drop (Z.to_nat (4 * (k + 1))) p0).
Proof.
  intros Hk Hpre Hlen.
  set (n := Z.to_nat (4 * k)).
  destruct (drop_cons _ p0 n) as (a & Ha); [lia |].
  destruct (drop_cons _ p0 (S n)) as (b & Hb); [lia |].
  destruct (drop_cons _ p0 (S (S n))) as (c & Hc); [lia |].
  destruct (drop_cons _ p0 (S (S (S n)))) as (e & He); [lia |].
  rewrite Ha, Hb, Hc, He.
  replace (Z.to_nat (4 * (k + 1))) with (S (S (S (S n)))) by lia.
  set (rest := drop _ p0).
  exists (pre ++ a :: b :: z :: e :: rest),
         (pre ++ x :: b :: z :: e :: rest),
         (pre ++ x :: y :: z :: e :: rest).
  repeat split.
  - change (pre ++ a :: b :: c :: e :: rest)
      with (pre ++ [a; b] ++ c :: e :: rest).
    change (pre ++ a :: b :: z :: e :: rest)
      with (pre ++ [a; b] ++ z :: e :: rest).
    rewrite !app_assoc. apply write_middle. rewrite length_app. simpl. lia.
  - apply write_middle. lia.
  - change (pre ++ x :: b :: z :: e :: rest)
      with (pre ++ [x] ++ b :: z :: e :: rest).
    change (pre ++ x :: y :: z :: e :: rest)
      with (pre ++ [x] ++ y :: z :: e :: rest).
    rewrite !app_assoc. apply write_middle. rewrite length_app. simpl. lia.
  - change (pre ++ x :: y :: z :: e :: rest)
      with (pre ++ [x; y; z] ++ e :: rest).
    rewrite <- (app_assoc pre [x; y; z; w] rest).
    change ([x; y; z; w] ++ rest) with ([x; y; z] ++ w :: rest).
    rewrite !app_assoc. apply write_middle. rewrite length_app. simpl. lia.
Qed.

Lemma seqZ_snoc (k : Z) : 0 <= k -> seqZ 0 (k + 1) = seqZ 0 k ++ [k].
Proof.
  intros Hk. rewrite <- (Z2Nat.id k Hk) at 1 2.
  replace (Z.of_nat (Z.to_nat k) + 1) with (Z.of_nat (S (Z.to_nat k)))
    by lia.
  rewrite seqZ_S. rewrite Z2Nat.id by lia. reflexivity.
Qed.

Lemma take_snoc_read {A} (l : list A) (k : Z) (x : A) :
  read l k = Some x ->
  take (Z.to_nat (k + 1)) l = take (Z.to_nat k) l ++ [x].
Proof.
  intros Hr. apply read_lookup in Hr. destruct Hr as [Hk Hl].
  replace (Z.to_nat (k + 1)) with (S (Z.to_nat k)) by lia.
  apply take_S_r. exact Hl.
Qed.

(** Row-major flat indices. *)
Lemma flat_index_bound (rows cols j i : Z) :
  0 <= j < rows -> 0 <= i < cols -> 0 <= j * cols + i < rows * cols.
Proof. intros Hj Hi. nia. Qed.

Lemma flat_index_div (cols j i : Z) :
  0 <= i < cols -> (j * cols + i) / cols = j.
Proof.
  intros Hi. rewrite Z.add_comm, Z.div_add by lia.
  rewrite Z.div_small by lia. lia.
Qed.

Lemma flat_index_mod (cols j i : Z) :
  0 <= i < cols -> (j * cols + i) mod cols = i.
Proof.
  intros Hi. rewrite Z.add_comm, Z.mod_add by lia.
  apply Z.mod_small. lia.
Qed.

(** ** FillPointCloudHelper *)

(** A sample that is there is the one [sample] reads. *)
Lemma read_sample (data : list float) (k : Z) (d : float) :
  read data k = Some d -> sample data k = d.
Proof. intros Hr. unfold sample. rewrite Hr. reflexivity. Qed.

(** Element 0 of a buffer that is not empty, and of the empty one. *)
Lemma read_first {A} (l : list A) : l <> [] -> exists c, read l 0 = Some c.
Proof.
  intros Hl. apply read_Some. destruct l; [congruence | simpl; lia].
Qed.

Lemma fused_color_empty (rows cols j i : Z) :
  fused_color [] rows cols j i = None.
Proof. reflexivity. Qed.

(** The three cases of the colour lookup. *)
Lemma fused_color_cases (img : list Z) (rows cols j i : Z) :
  0 <= rows -> 0 <= cols -> 4 * (rows * cols) < 2 ^ 32 ->
  0 <= j < rows -> 0 <= i < cols -> img <> [] ->
  let n := Z.of_nat (length img) in
  (n = rows * cols * 3 ->
   exists r g b,
     read img (i * 3 + j * cols * 3 + 0) = Some r /\
     read img (i * 3 + j * cols * 3 + 1) = Some g /\
     read img (i * 3 + j * cols * 3 + 2) = Some b /\
     fused_color img rows cols j i = Some (r, g, b)) /\
  (n <> rows * cols * 3 -> n = rows * cols ->
   exists c, read img (i + j * cols) = Some c /\
             fused_color img rows cols j i = Some (c, c, c)) /\
  (n <> rows * cols * 3 -> n <> rows * cols ->
   fused_color img rows cols j i = Some (0, 0, 0)).
Proof.
  intros Hr Hc Hov Hj Hi Himg n.
  pose proof (flat_index_bound rows cols j i Hj Hi) as Hk.
  assert (W3 : wrap32 (rows * cols * 3) = rows * cols * 3)
    by (apply wrap32_small; lia).
  assert (W1 : wrap32 (rows * cols) = rows * cols)
    by (apply wrap32_small; lia).
  destruct (read_first img Himg) as (c0 & Hc0).
  unfold fused_color. fold n. rewrite W3, W1, Hc0. cbn [mbind option_bind].
  split; [| split].
  - intros Hn. rewrite Hn, Z.eqb_refl.
    rewrite !wrap32_small by lia.
    destruct (read_Some img (i * 3 + j * cols * 3 + 0)) as (r & Hr0); [lia |].
    destruct (read_Some img (i * 3 + j * cols * 3 + 1)) as (g & Hr1); [lia |].
    destruct (read_Some img (i * 3 + j * cols * 3 + 2)) as (b & Hr2); [lia |].
    exists r, g, b. rewrite Hr0, Hr1, Hr2. auto.
  - intros Hn3 Hn1.
    destruct (n =? rows * cols * 3) eqn:E3; [apply Z.eqb_eq in E3; lia |].
    rewrite Hn1, Z.eqb_refl.
    rewrite !wrap32_small by lia.
    destruct (read_Some img (i + j * cols)) as (c & Hr0); [lia |].
    exists c. rewrite Hr0. auto.
  - intros Hn3 Hn1.
    destruct (n =? rows * cols * 3) eqn:E3; [apply Z.eqb_eq in E3; lia |].
    destruct (n =? rows * cols) eqn:E1; [apply Z.eqb_eq in E1; lia |].
    reflexivity.
Qed.

(** On a well-formed frame the colour lookup stays inside the buffer. *)
Lemma fused_color_Some (img : list Z) (rows cols j i : Z) :
  0 <= rows -> 0 <= cols -> 4 * (rows * cols) < 2 ^ 32 ->
  0 <= j < rows -> 0 <= i < cols -> img <> [] ->
  exists c, fused_color img rows cols j i = Some c.
Proof.
  intros Hr Hc Hov Hj Hi Himg.
  destruct (fused_color_cases img rows cols j i Hr Hc Hov Hj Hi Himg)
    as (H3 & H1 & H0).
  destruct (Z.eq_dec (Z.of_nat (length img)) (rows * cols * 3)) as [E3 | E3].
  - destruct (H3 E3) as (r & g & b & _ & _ & _ & Hf). eauto.
  - destruct (Z.eq_dec (Z.of_nat (length img)) (rows * cols)) as [E1 | E1].
    + destruct (H1 E3 E1) as (c & _ & Hf). eauto.
    + eauto.
Qed.

Section PointCloud.
Variable tan : double -> double.
Variable atan2 : double -> double -> double.

(** The results of the first [k] pixels, one pixel more at a time. *)
Lemma length_frame_points st rows cols data k :
  length (frame_points tan atan2 st rows cols data k) = Z.to_nat k.
Proof.
  unfold frame_points. rewrite length_map, length_seqZ. reflexivity.
Qed.

Lemma length_frame_pcd st rows cols data k :
  0 <= k ->
  Z.of_nat (length (frame_pcd tan atan2 st rows cols data k)) = 4 * k.
Proof.
  intros Hk. unfold frame_pcd.
  rewrite <- (Z2Nat.id k Hk) at 1 2.
  induction (Z.to_nat k) as [| n IH].
  - reflexivity.
  - rewrite seqZ_S, flat_map_app, length_app. simpl length. lia.
Qed.

Lemma frame_points_S st rows cols data k :
  0 <= k ->
  frame_points tan atan2 st rows cols data (k + 1)
  = frame_points tan atan2 st rows cols data k
    ++ [frame_point tan atan2 st rows cols data k].
Proof.
  intros Hk. unfold frame_points.
  rewrite seqZ_snoc by lia. rewrite map_app. reflexivity.
Qed.

Lemma frame_pcd_S st rows cols data k :
  0 <= k ->
  frame_pcd tan atan2 st rows cols data (k + 1)
  = frame_pcd tan atan2 st rows cols data k
    ++ frame_quad tan atan2 st rows cols data k.
Proof.
  intros Hk. unfold frame_pcd.
  rewrite seqZ_snoc by lia. rewrite flat_map_app. cbn [flat_map].
  rewrite app_nil_r. reflexivity.
Qed.

Lemma frame_dense_S st data k d :
  0 <= k -> read data k = Some d ->
  frame_dense st data (k + 1)
  = if pixel_valid st d then frame_dense st data k else false.
Proof.
  intros Hk Hr. unfold frame_dense.
  rewrite (take_snoc_read _ _ _ Hr), forallb_app. simpl.
  destruct (pixel_valid st d).
  - rewrite !andb_true_r. reflexivity.
  - rewrite andb_false_r. reflexivity.
Qed.

(** One pixel: the body of the inner loop returns and keeps the
    invariant. *)
Lemma pc_pixel_step st rows cols data p0 j i s :
  0 <= rows -> 0 <= cols -> 4 * (rows * cols) < 2 ^ 32 ->
  rows * cols <= Z.of_nat (length data) ->
  4 * (rows * cols) <= Z.of_nat (length p0) ->
  (0 < rows * cols -> image_msg_data st <> []) ->
  0 <= j < rows -> 0 <= i < cols ->
  pc_inv tan atan2 st rows cols data p0 (j * cols + i) s ->
  exists s',
    pc_pixel tan atan2 st rows cols (focal_length tan st) data j
      (pixel_angle atan2 (focal_length tan st) rows j) i s = Some s' /\
    pc_inv tan atan2 st rows cols data p0 (j * cols + i + 1) s'.
Proof.
  intros Hr Hc Hov Hdata Hp0 Himg Hj Hi Hinv.
  pose proof (flat_index_bound rows cols j i Hj Hi) as Hk.
  set (k := j * cols + i) in *.
  destruct s as [idx it dn pts pcd].
  destruct Hinv as (Hidx & Hit & Hdn & Hpts & Hpcd). simpl in *. subst idx it.
  destruct (read_Some data k) as (d & Hd); [lia |].
  destruct (fused_color_Some (image_msg_data st) rows cols j i Hr Hc Hov Hj Hi
              (Himg ltac:(lia)))
    as (c & Hcol).
  set (p := pixel_point tan atan2 st rows cols j i d).
  destruct (write_quad (frame_pcd tan atan2 st rows cols data k) p0 k
              (pt_x p) (pt_y p)
              (if pixel_valid st d then pt_z p else float_zero) float_zero)
    as (l1 & l2 & l3 & Hw1 & Hw2 & Hw3 & Hw4);
    [lia | apply length_frame_pcd; lia | lia |].
  assert (Hwp : write pts k p
                = Some (frame_points tan atan2 st rows cols data (k + 1)
                        ++ replicate (Z.to_nat (rows * cols - (k + 1)))
                             zero_point)).
  { rewrite Hpts.
    replace (Z.to_nat (rows * cols - k))
      with (S (Z.to_nat (rows * cols - (k + 1)))) by lia.
    rewrite replicate_S, frame_points_S by lia.
    rewrite <- app_assoc. simpl.
    rewrite write_middle by (rewrite length_frame_points; lia).
    unfold frame_point, k.
    rewrite flat_index_div, flat_index_mod by lia.
    fold k. rewrite (read_sample _ _ _ Hd). reflexivity. }
  assert (Hpd : pixel_color st rows cols j i = c)
    by (unfold pixel_color; rewrite Hcol; reflexivity).
  unfold pc_pixel. simpl lp_index. simpl lp_iter. simpl lp_pcd.
  simpl lp_points. simpl lp_dense.
  rewrite Hd, (int_succ_small k) by lia. simpl. fold k.
  rewrite (wrap32_small k) by lia.
  rewrite !wrap32_small by lia.
  rewrite Hpcd.
  unfold p, pixel_point, pixel_valid in Hw1, Hw2, Hw3, Hw4, Hwp.
  simpl in Hw1, Hw2, Hw3, Hw4, Hwp.
  rewrite Hw1. simpl. rewrite Hw2. simpl. rewrite Hw3. simpl.
  rewrite Hw4. simpl.
  rewrite Hcol. simpl. destruct c as [[r g] b]. simpl.
  rewrite Hpd in Hwp. simpl in Hwp. rewrite Hwp. simpl.
  eexists. split; [reflexivity |].
  unfold pc_inv. simpl.
  repeat split.
  - rewrite Hdn. symmetry. apply frame_dense_S; [lia | exact Hd].
  - rewrite frame_pcd_S by lia. unfold frame_quad, k.
    rewrite flat_index_div, flat_index_mod by lia. fold k.
    rewrite (read_sample _ _ _ Hd). reflexivity.
Qed.

(** One row. *)
Lemma pc_row_step st rows cols data p0 j s :
  0 <= rows -> 0 <= cols -> 4 * (rows * cols) < 2 ^ 32 ->
  rows * cols <= Z.of_nat (length data) ->
  4 * (rows * cols) <= Z.of_nat (length p0) ->
  (0 < rows * cols -> image_msg_data st <> []) ->
  0 <= j < rows ->
  pc_inv tan atan2 st rows cols data p0 (j * cols) s ->
  exists s',
    pc_row tan atan2 st rows cols (focal_length tan st) data j s = Some s' /\
    pc_inv tan atan2 st rows cols data p0 ((j + 1) * cols) s'.
Proof.
  intros Hr Hc Hov Hdata Hp0 Himg Hj Hinv. unfold pc_row.
  destruct (for_loop_inv
              (fun i s =>
                 pc_inv tan atan2 st rows cols data p0 (j * cols + i) s)
              (pc_pixel tan atan2 st rows cols (focal_length tan st) data j
                 (pixel_angle atan2 (focal_length tan st) rows j))
              (Z.to_nat cols) 0 s) as (s' & Hl & Hs').
  - rewrite Z.add_0_r. exact Hinv.
  - intros i s1 Hi H1.
    destruct (pc_pixel_step st rows cols data p0 j i s1)
      as (s2 & Hb & H2); try assumption; [lia |].
    exists s2. split; [exact Hb |].
    rewrite Z.add_assoc. exact H2.
  - exists s'. split; [exact Hl |].
    replace ((j + 1) * cols)
      with (j * cols + (0 + Z.of_nat (Z.to_nat cols))) by lia.
    exact Hs'.
Qed.

(** The cached grid, fresh or kept, has room for the frame. *)
Lemma length_pcd_or_new_room st rows cols :
  0 <= rows -> 0 <= cols -> 4 * (rows * cols) < 2 ^ 32 ->
  (forall p, pcd_ st = Some p -> 4 * (rows * cols) <= Z.of_nat (length p)) ->
  4 * (rows * cols) <= Z.of_nat (length (pcd_or_new st rows cols)).
Proof.
  intros Hr Hc Hov Hp. unfold pcd_or_new.
  destruct (pcd_ st) as [p |]; [now apply Hp |].
  rewrite length_replicate, wrap32_small by lia. lia.
Qed.

Lemma length_pcd_or_new st rows cols data :
  frame_ok st rows cols data ->
  4 * (rows * cols) <= Z.of_nat (length (pcd_or_new st rows cols)).
Proof.
  intros (Hr & Hc & Hov & Hdata & Hp & _).
  apply length_pcd_or_new_room; try assumption.
  intros p E. now rewrite E in Hp.
Qed.

(** The helper on a well-formed frame: it returns, and the message and
    the cached grid hold the per-pixel results in row-major order. *)
Lemma FillPointCloudHelper_spec st msg rows cols data :
  frame_ok st rows cols data ->
  FillPointCloudHelper tan atan2 st msg rows cols data
  = Some (set_pcd
            (Some (frame_pcd tan atan2 st rows cols data (rows * cols)
                   ++ drop (Z.to_nat (4 * (rows * cols)))
                        (pcd_or_new st rows cols))) st,
          {| pc_header := pc_header msg;
             pc_is_dense := frame_dense st data (rows * cols);
             pc_points := frame_points tan atan2 st rows cols data
                            (rows * cols) |}).
Proof.
  intros Hok. pose proof (length_pcd_or_new st rows cols data Hok) as Hp0.
  destruct Hok as (Hr & Hc & Hov & Hdata & _ & Himg).
  unfold FillPointCloudHelper.
  set (s0 := Build_PcLoop _ _ _ _ _).
  destruct (for_loop_inv
              (fun j s => pc_inv tan atan2 st rows cols data
                            (pcd_or_new st rows cols) (j * cols) s)
              (pc_row tan atan2 st rows cols (focal_length tan st) data)
              (Z.to_nat rows) 0 s0) as (s' & Hl & Hs').
  - unfold pc_inv, s0. simpl.
    rewrite wrap32_small by lia. rewrite Z.sub_0_r.
    repeat split; reflexivity.
  - intros j s1 Hj H1.
    apply pc_row_step; try assumption. lia.
  - rewrite Hl. simpl.
    replace ((0 + Z.of_nat (Z.to_nat rows)) * cols) with (rows * cols)
      in Hs' by lia.
    destruct Hs' as (_ & _ & Hdn & Hpts & Hpcd).
    rewrite Hdn, Hpts, Hpcd, Z.sub_diag. simpl. rewrite app_nil_r.
    reflexivity.
Qed.

(** Reading back the point and the quad of a pixel. *)
Lemma read_frame_points st rows cols data n k :
  0 <= k < n ->
  read (frame_points tan atan2 st rows cols data n) k
  = Some (frame_point tan atan2 st rows cols data k).
Proof.
  intros Hk. unfold read, frame_points.
  destruct (0 <=? k) eqn:E; [| apply Z.leb_gt in E; lia].
  rewrite list_lookup_fmap, lookup_seqZ_lt by lia. simpl.
  rewrite Z2Nat.id by lia. reflexivity.
Qed.

Lemma read_frame_pcd st rows cols data n : 0 <= n ->
  forall rest k c, 0 <= k < n -> 0 <= c < 4 ->
  read (frame_pcd tan atan2 st rows cols data n ++ rest) (4 * k + c)
  = read (frame_quad tan atan2 st rows cols data k) c.
Proof.
  intros Hn. pattern n. apply natlike_ind; [| | exact Hn].
  - intros rest k c Hk. lia.
  - clear n Hn. intros n Hn IH rest k c Hk Hc.
    change (Z.succ n) with (n + 1).
    rewrite frame_pcd_S by lia. rewrite <- app_assoc.
    destruct (Z.eq_dec k n) as [-> | Hne].
    + rewrite read_app_r by (rewrite length_frame_pcd; lia).
      rewrite length_frame_pcd by lia.
      replace (4 * n + c - 4 * n) with c by lia.
      apply read_app_l. unfold frame_quad, pixel_quad. simpl. lia.
    + apply IH; lia.
Qed.

(** The dense flag is true when every sample passes the test, false as
    soon as one fails it. *)
Lemma frame_dense_true st data n :
  0 <= n <= Z.of_nat (length data) ->
  (forall k e, 0 <= k < n -> read data k = Some e -> pixel_valid st e = true) ->
  frame_dense st data n = true.
Proof.
  intros Hn Hall. unfold frame_dense. apply forallb_forall.
  intros e He. apply list_elem_of_In, list_elem_of_lookup in He.
  destruct He as (kn & Hk).
  pose proof (lookup_lt_Some _ _ _ Hk) as Hlt. rewrite length_take in Hlt.
  rewrite lookup_take_lt in Hk by lia.
  apply (Hall (Z.of_nat kn)); [lia |].
  unfold read. destruct (0 <=? Z.of_nat kn) eqn:E; [| apply Z.leb_gt in E; lia].
  rewrite Nat2Z.id. exact Hk.
Qed.

Lemma frame_dense_false st data n k e :
  0 <= k < n -> read data k = Some e -> pixel_valid st e = false ->
  frame_dense st data n = false.
Proof.
  intros Hk Hr Hv. unfold frame_dense.
  apply read_lookup in Hr. destruct Hr as [_ Hl].
  destruct (forallb (pixel_valid st) (take (Z.to_nat n) data)) eqn:E;
    [| reflexivity].
  rewrite forallb_forall in E.
  rewrite <- Hv. symmetry. apply E. apply list_elem_of_In, list_elem_of_lookup.
  exists (Z.to_nat k). rewrite lookup_take_lt by lia. exact Hl.
Qed.

(** The outcome of [FillPointCloudHelper] at one pixel of a well-formed
    frame: the helper returns, and the point and the cached quad of the
    pixel are the ones [pixel_point] and [pixel_quad] describe. *)
Lemma FillPointCloudHelper_pixel st msg rows cols data j i d :
  frame_ok st rows cols data ->
  0 <= j < rows -> 0 <= i < cols ->
  read data (j * cols + i) = Some d ->
  exists st' msg' pcd',
    FillPointCloudHelper tan atan2 st msg rows cols data = Some (st', msg') /\
    pcd_ st' = Some pcd' /\
    pc_is_dense msg' = frame_dense st data (rows * cols) /\
    read (pc_points msg') (j * cols + i)
    = Some (pixel_point tan atan2 st rows cols j i d) /\
    forall c, 0 <= c < 4 ->
      read pcd' (4 * (j * cols + i) + c)
      = read (pixel_quad tan atan2 st rows cols j i d) c.
Proof.
  intros Hok Hj Hi Hd.
  pose proof (FillPointCloudHelper_spec st msg rows cols data Hok)
    as Hs.
  destruct Hok as (Hr & Hc & Hov & Hdata & _).
  pose proof (flat_index_bound rows cols j i Hj Hi) as Hk.
  eexists _, _, _. split; [exact Hs |].
  split; [reflexivity |]. split; [reflexivity |]. simpl.
  split.
  - rewrite read_frame_points by lia. unfold frame_point.
    rewrite flat_index_div, flat_index_mod by lia.
    rewrite (read_sample _ _ _ Hd). reflexivity.
  - intros c Hc4. rewrite read_frame_pcd by lia. unfold frame_quad.
    rewrite flat_index_div, flat_index_mod by lia.
    rewrite (read_sample _ _ _ Hd). reflexivity.
Qed.

(** C1, as the code has it.  For every well-formed depth frame and every
    pixel whose sample [d] satisfies [d > pointCloudCutoff], the point
    cloud produced by FillPointCloudHelper stores [z = d] exactly for
    that pixel and mirrors it into the z-slot of the cached point grid;
    the dense flag of the message remains true when every sample of the
    grid is greater than the cutoff. *)
Theorem FillPointCloudHelper_above_cutoff st msg rows cols data j i d :
  frame_ok st rows cols data ->
  0 <= j < rows -> 0 <= i < cols ->
  read data (j * cols + i) = Some d ->
  is_float d = true ->
  dgt (f2d d) (point_cloud_cutoff_ (config st)) = true ->
  exists st' msg' p pcd',
    FillPointCloudHelper tan atan2 st msg rows cols data = Some (st', msg') /\
    read (pc_points msg') (j * cols + i) = Some p /\
    pt_z p = d /\
    pcd_ st' = Some pcd' /\
    read pcd' (4 * (j * cols + i) + 2) = Some d /\
    ((forall k e, 0 <= k < rows * cols -> read data k = Some e ->
        dgt (f2d e) (point_cloud_cutoff_ (config st)) = true) ->
     pc_is_dense msg' = true).
Proof.
  intros Hok Hj Hi Hd Hfl Hgt.
  destruct (FillPointCloudHelper_pixel st msg rows cols data j i d Hok Hj Hi Hd)
    as (st' & msg' & pcd' & Hrun & Hpcd & Hdense & Hpt & Hquad).
  exists st', msg', (pixel_point tan atan2 st rows cols j i d), pcd'.
  split; [exact Hrun |]. split; [exact Hpt |].
  assert (Hz : pt_z (pixel_point tan atan2 st rows cols j i d) = d).
  { unfold pixel_point, pixel_valid. simpl. rewrite Hgt.
    apply d2f_f2d. exact Hfl. }
  split; [exact Hz |]. split; [exact Hpcd |]. split.
  - rewrite (Hquad 2) by lia. unfold pixel_quad, pixel_valid.
    rewrite Hgt, Hz. reflexivity.
  - intros Hall. rewrite Hdense. destruct Hok as (Hr & Hc & Hov & Hdata & _).
    apply frame_dense_true; [nia |]. exact Hall.
Qed.

(** C2, as the code has it.  For every well-formed depth frame and every
    pixel whose sample [d] satisfies [d <= pointCloudCutoff],
    FillPointCloudHelper sets x, y and z of that point of the message to
    NaN and clears the dense flag, sets the z-slot of the cached point
    grid to 0, and stores the same NaN in the cached x and y slots. *)
Theorem FillPointCloudHelper_below_cutoff st msg rows cols data j i d :
  frame_ok st rows cols data ->
  0 <= j < rows -> 0 <= i < cols ->
  read data (j * cols + i) = Some d ->
  dle (f2d d) (point_cloud_cutoff_ (config st)) = true ->
  exists st' msg' p pcd',
    FillPointCloudHelper tan atan2 st msg rows cols data = Some (st', msg') /\
    read (pc_points msg') (j * cols + i) = Some p /\
    pt_x p = quiet_NaN /\ pt_y p = quiet_NaN /\ pt_z p = quiet_NaN /\
    pc_is_dense msg' = false /\
    pcd_ st' = Some pcd' /\
    read pcd' (4 * (j * cols + i) + 2) = Some float_zero /\
    read pcd' (4 * (j * cols + i)) = Some quiet_NaN /\
    read pcd' (4 * (j * cols + i) + 1) = Some quiet_NaN.
Proof.
  intros Hok Hj Hi Hd Hle.
  apply dle_not_dgt in Hle.
  destruct (FillPointCloudHelper_pixel st msg rows cols data j i d Hok Hj Hi Hd)
    as (st' & msg' & pcd' & Hrun & Hpcd & Hdense & Hpt & Hquad).
  exists st', msg', (pixel_point tan atan2 st rows cols j i d), pcd'.
  pose proof (flat_index_bound rows cols j i Hj Hi) as Hk.
  split; [exact Hrun |]. split; [exact Hpt |].
  unfold pixel_point, pixel_valid. simpl. rewrite Hle.
  repeat (split; [reflexivity |]).
  split; [| split; [exact Hpcd |]].
  - rewrite Hdense. apply (frame_dense_false st data _ (j * cols + i) d);
      [lia | exact Hd | exact Hle].
  - pose proof (Hquad 0) as Hq0. rewrite Z.add_0_r in Hq0.
    rewrite (Hquad 2), Hq0, (Hquad 1) by lia.
    unfold pixel_quad, pixel_point, pixel_valid. simpl. rewrite Hle.
    repeat split; reflexivity.
Qed.

(** Without a colour buffer no pixel gets through: the address of
    element 0 of the empty buffer is taken before its size is looked
    at. *)
Lemma pc_pixel_no_image st rows cols fl data j pAngle i s :
  image_msg_data st = [] ->
  pc_pixel tan atan2 st rows cols fl data j pAngle i s = None.
Proof.
  intros Himg. unfold pc_pixel. rewrite Himg, fused_color_empty.
  destruct (read data (lp_index s)) as [d |]; [| reflexivity].
  cbn [mbind option_bind].
  destruct (int_succ (lp_index s)) as [k |]; [| reflexivity].
  cbn [mbind option_bind].
  repeat match goal with
         | |- context [write ?a ?k ?v] =>
             destruct (write a k v); [| reflexivity];
             cbn [mbind option_bind]
         end.
  reflexivity.
Qed.

Lemma pc_row_no_image st rows cols fl data j s :
  0 < cols -> image_msg_data st = [] ->
  pc_row tan atan2 st rows cols fl data j s = None.
Proof.
  intros Hc Himg. unfold pc_row.
  destruct (Z.to_nat cols) as [| nc] eqn:Ec; [lia |].
  cbn [for_loop]. rewrite pc_pixel_no_image by exact Himg. reflexivity.
Qed.

Lemma FillPointCloudHelper_no_image st msg rows cols data :
  0 < rows -> 0 < cols -> image_msg_data st = [] ->
  FillPointCloudHelper tan atan2 st msg rows cols data = None.
Proof.
  intros Hr Hc Himg. unfold FillPointCloudHelper.
  destruct (Z.to_nat rows) as [| nr] eqn:Er; [lia |].
  cbn [for_loop]. rewrite pc_row_no_image by assumption. reflexivity.
Qed.

(** C6, as the code has it.  The body of the loop takes the address of
    element 0 of the colour buffer before it looks at its size: with an
    empty (absent) buffer and a pixel to fill this is an access outside
    the buffer and the helper does not return.  With a buffer that is
    not empty the helper returns on every well-formed frame; when the
    buffer has W*H*3 bytes the colour of the point at column i, row j is
    made of the bytes at i*3 + j*W*3 + 0, 1, 2; when it has W*H bytes
    the byte at i + j*W fills the three channels; for any other length
    the three channels are 0. *)
Theorem FillPointCloudHelper_color st msg rows cols data j i :
  0 <= j < rows -> 0 <= i < cols ->
  let img := image_msg_data st in
  let n := Z.of_nat (length img) in
  (n = 0 -> FillPointCloudHelper tan atan2 st msg rows cols data = None) /\
  (frame_ok st rows cols data ->
   exists st' msg' p,
     FillPointCloudHelper tan atan2 st msg rows cols data
     = Some (st', msg') /\
     read (pc_points msg') (j * cols + i) = Some p /\
     (n = rows * cols * 3 ->
      read img (i * 3 + j * cols * 3 + 0) = Some (pt_r p) /\
      read img (i * 3 + j * cols * 3 + 1) = Some (pt_g p) /\
      read img (i * 3 + j * cols * 3 + 2) = Some (pt_b p)) /\
     (n <> rows * cols * 3 -> n = rows * cols ->
      read img (i + j * cols) = Some (pt_r p) /\
      pt_g p = pt_r p /\ pt_b p = pt_r p) /\
     (n <> rows * cols * 3 -> n <> rows * cols ->
      pt_r p = 0 /\ pt_g p = 0 /\ pt_b p = 0)).
Proof.
  intros Hj Hi img n. split.
  - intros Hn. apply FillPointCloudHelper_no_image; [lia | lia |].
    apply length_zero_iff_nil. unfold n in Hn. fold img. lia.
  - intros Hok.
    pose proof Hok as (Hr & Hc & Hov & Hdata & _ & Himg).
    pose proof (flat_index_bound rows cols j i Hj Hi) as Hk.
    destruct (read_Some data (j * cols + i)) as (d & Hd); [lia |].
    destruct (FillPointCloudHelper_pixel st msg rows cols data j i d
                Hok Hj Hi Hd)
      as (st' & msg' & pcd' & Hrun & _ & _ & Hpt & _).
    exists st', msg', (pixel_point tan atan2 st rows cols j i d).
    split; [exact Hrun |]. split; [exact Hpt |].
    destruct (fused_color_cases img rows cols j i Hr Hc Hov Hj Hi
                (Himg ltac:(lia)))
      as (H3 & H1 & H0).
    unfold pixel_point, pixel_color. simpl. fold img.
    split; [| split].
    + intros Hn. destruct (H3 Hn) as (r & g & b & Hr0 & Hr1 & Hr2 & Hf).
      rewrite Hf. simpl. auto.
    + intros Hn3 Hn1. destruct (H1 Hn3 Hn1) as (c & Hr0 & Hf).
      rewrite Hf. simpl. auto.
    + intros Hn3 Hn1. rewrite (H0 Hn3 Hn1). simpl. auto.
Qed.

End PointCloud.

(** The scenario frame is well formed. *)
Lemma scenario_frame_ok : frame_ok scenario_state 2 2 scenario_grid.
Proof.
  unfold frame_ok. simpl. repeat (split; [lia |]). discriminate.
Defined.

Lemma FillPointCloudHelper_above_cutoff_witness :
  exists st' msg' p pcd',
    FillPointCloudHelper tan_at_zero atan2_at_zero scenario_state
      example_cloud 2 2 scenario_grid = Some (st', msg') /\
    read (pc_points msg') (0 * 2 + 0) = Some p /\
    pt_z p = f_0_5 /\
    pcd_ st' = Some pcd' /\
    read pcd' (4 * (0 * 2 + 0) + 2) = Some f_0_5 /\
    ((forall k e, 0 <= k < 2 * 2 -> read scenario_grid k = Some e ->
        dgt (f2d e) (point_cloud_cutoff_ (config scenario_state)) = true) ->
     pc_is_dense msg' = true).
Proof.
  apply (FillPointCloudHelper_above_cutoff tan_at_zero atan2_at_zero
           scenario_state example_cloud 2 2 scenario_grid 0 0 f_0_5).
  - exact scenario_frame_ok.
  - lia.
  - lia.
  - reflexivity.
  - reflexivity.
  - reflexivity.
Defined.

(** C1 as stated fails: in the frame [0.5; NaN] no sample is [<=] the
    cutoff, the first sample is above it, and the dense flag is cleared. *)
Lemma dense_flag_cleared_by_nan_sample :
  dgt (f2d f_0_5) default_cutoff = true /\
  dle (f2d f_0_5) default_cutoff = false /\
  dle (f2d quiet_NaN) default_cutoff = false /\
  exists st' msg',
    FillPointCloudHelper tan_at_zero atan2_at_zero nan_state example_cloud
      1 2 nan_grid = Some (st', msg') /\
    pc_is_dense msg' = false.
Proof.
  repeat split; try reflexivity.
  eexists _, _. split; [vm_compute; reflexivity | reflexivity].
Qed.

Lemma FillPointCloudHelper_below_cutoff_witness :
  exists st' msg' p pcd',
    FillPointCloudHelper tan_at_zero atan2_at_zero scenario_state
      example_cloud 2 2 scenario_grid = Some (st', msg') /\
    read (pc_points msg') (0 * 2 + 1) = Some p /\
    pt_x p = quiet_NaN /\ pt_y p = quiet_NaN /\ pt_z p = quiet_NaN /\
    pc_is_dense msg' = false /\
    pcd_ st' = Some pcd' /\
    read pcd' (4 * (0 * 2 + 1) + 2) = Some float_zero /\
    read pcd' (4 * (0 * 2 + 1)) = Some quiet_NaN /\
    read pcd' (4 * (0 * 2 + 1) + 1) = Some quiet_NaN.
Proof.
  apply (FillPointCloudHelper_below_cutoff tan_at_zero atan2_at_zero
           scenario_state example_cloud 2 2 scenario_grid 0 1 f_0_3).
  - exact scenario_frame_ok.
  - lia.
  - lia.
  - reflexivity.
  - reflexivity.
Defined.

(** C2 as stated fails: for the 1 x 1 frame [0.3] both angles are 0 and
    the tangent-scaled values are 0.3 * tan 0 = 0, yet the cached x and y
    slots hold NaN. *)
Lemma cached_xy_hold_nan_below_cutoff :
  dle (f2d f_0_3) default_cutoff = true /\
  d2f (dmul (f2d f_0_3)
         (tan_at_zero
            (pixel_angle atan2_at_zero
               (focal_length tan_at_zero single_state) 1 0))) = float_zero /\
  exists st' msg' pcd',
    FillPointCloudHelper tan_at_zero atan2_at_zero single_state example_cloud
      1 1 [f_0_3] = Some (st', msg') /\
    pcd_ st' = Some pcd' /\
    read pcd' 0 = Some quiet_NaN /\ read pcd' 1 = Some quiet_NaN /\
    quiet_NaN <> float_zero.
Proof.
  split; [reflexivity |]. split; [reflexivity |].
  eexists _, _, _. split; [vm_compute; reflexivity |].
  split; [reflexivity |]. split; [reflexivity |]. split; [reflexivity |].
  discriminate.
Qed.

Lemma FillPointCloudHelper_color_witness :
  FillPointCloudHelper tan_at_zero atan2_at_zero no_image_state
    example_cloud 2 2 scenario_grid = None /\
  exists st' msg' p,
    FillPointCloudHelper tan_at_zero atan2_at_zero scenario_state
      example_cloud 2 2 scenario_grid = Some (st', msg') /\
    read (pc_points msg') (1 * 2 + 0) = Some p /\
    pt_r p = 30 /\ pt_g p = 31 /\ pt_b p = 32.
Proof.
  split.
  - apply (FillPointCloudHelper_color tan_at_zero atan2_at_zero
             no_image_state example_cloud 2 2 scenario_grid 1 0);
      [lia | lia | reflexivity].
  - destruct (FillPointCloudHelper_color tan_at_zero atan2_at_zero
                scenario_state example_cloud 2 2 scenario_grid 1 0
                ltac:(lia) ltac:(lia))
      as (_ & Hcol).
    destruct (Hcol scenario_frame_ok)
      as (st' & msg' & p & Hrun & Hp & H3 & _ & _).
    exists st', msg', p. split; [exact Hrun |]. split; [exact Hp |].
    destruct (H3 eq_refl) as (Hr & Hg & Hb).
    vm_compute in Hr, Hg, Hb.
    inversion Hr. inversion Hg. inversion Hb. auto.
Defined.

(** ** The product [depth * 1000.0] is exact *)

Lemma d_thousand_eq :
  d_thousand = S754_finite false 8796093022208000 (-43).
Proof. reflexivity. Qed.

(** [depth * 1000.0] for a finite float [depth = +- m * 2^e]: a double
    with the value [+- m * 1000 * 2^e]. *)
Lemma dmul_thousand_exact (s : bool) (m : positive) (e : Z) :
  is_float (S754_finite s m e) = true ->
  exists (M : positive) (u : Z),
    dmul (f2d (S754_finite s m e)) d_thousand
    = S754_finite s M (e + 3 - u)
    /\ 0 <= u /\ Zpos M = Zpos m * 125 * 2 ^ u.
Proof.
  intros Hfl.
  destruct (f2d_finite s m e Hfl) as (k & Hf2d & Hk & HD & He).
  rewrite Hf2d, d_thousand_eq. unfold dmul, SFmul.
  rewrite xorb_false_r.
  set (D := Zpos (digits2_pos m)) in *.
  pose proof (digits2_log2 m) as HlogD. fold D in HlogD.
  pose proof (Z.log2_spec (Zpos m) ltac:(lia)) as Hm.
  replace (Z.succ (Z.log2 (Zpos m))) with D in Hm by lia.
  replace (Z.log2 (Zpos m)) with (D - 1) in Hm by lia.
  (* the mantissa of the product, and its number of digits *)
  set (A := (m * 125)%positive).
  assert (HA : Zpos A = Zpos m * 125) by (unfold A; lia).
  set (DA := Zpos (digits2_pos A)).
  assert (HDA : D + 6 <= DA <= D + 7).
  { unfold DA. rewrite digits2_log2.
    assert (2 ^ (D - 1) * 2 ^ 6 <= Zpos A) by lia.
    assert (Zpos A < 2 ^ D * 2 ^ 7) by lia.
    rewrite <- Z.pow_add_r in * by lia.
    assert (D + 5 <= Z.log2 (Zpos A))
      by (apply Z.log2_le_pow2; [lia |];
          replace (D + 5) with (D - 1 + 6) by lia; assumption).
    assert (Z.log2 (Zpos A) < D + 7)
      by (apply Z.log2_lt_pow2; [lia | assumption]).
    lia. }
  (* bits kept below the 53-bit mantissa, bits dropped *)
  destruct (53 - DA) as [| u | u] eqn:Hu; try lia.
  destruct (DA + Zpos k - 7) as [| n | n] eqn:Hn; try lia.
  assert (HM : (Pos.iter xO m k * 8796093022208000)%positive
               = Pos.iter xO (Pos.iter xO A u) n).
  { apply Pos2Z.inj. rewrite Pos2Z.inj_mul, !Zpos_iter_xO, HA.
    replace (Zpos k) with (Zpos n + 7 - DA) by lia.
    replace 8796093022208000 with (125 * 2 ^ 46) by reflexivity.
    replace (Zpos n + 7 - DA) with (Zpos n - 46 + Zpos u) by lia.
    rewrite (Z.pow_add_r 2 (Zpos n - 46) (Zpos u)) by lia.
    replace (Zpos n) with ((Zpos n - 46) + 46) at 2 by lia.
    rewrite (Z.pow_add_r 2 (Zpos n - 46) 46) by lia. ring. }
  rewrite HM.
  exists (Pos.iter xO A u), (Zpos u).
  split; [| split; [lia | rewrite Zpos_iter_xO, HA; reflexivity]].
  replace (e + 3 - Zpos u) with (e - Zpos k + -43 + Zpos n) by lia.
  apply binary_round_aux_shift.
  - rewrite digits2_pos_shl. fold DA. unfold fexp, emin. lia.
  - lia.
Qed.

(** The integer [depth * 1000.0] is converted to. *)
Lemma d_trunc_thousand (s : bool) (m : positive) (e : Z) :
  is_float (S754_finite s m e) = true ->
  d_trunc (dmul (f2d (S754_finite s m e)) d_thousand)
  = Some (cond_Zopp s (Z.shiftl (Zpos m * 1000) e)).
Proof.
  intros Hfl.
  destruct (dmul_thousand_exact s m e Hfl) as (M & u & Hmul & Hu & HM).
  rewrite Hmul. unfold d_trunc. rewrite HM.
  do 2 f_equal.
  rewrite <- Z.shiftl_mul_pow2 by lia.
  rewrite Z.shiftl_shiftl by lia.
  replace (Zpos m * 1000) with (Zpos m * 125 * 2 ^ 3) by lia.
  rewrite <- Z.shiftl_mul_pow2 by lia.
  rewrite Z.shiftl_shiftl by lia.
  f_equal. lia.
Qed.

(** ** The encoding of one sample *)

(** Inequalities of rationals, as inequalities of integers. *)
Lemma Qabs_diff_thousandth (n z : Z) (p : positive) :
  (Qabs (inject_Z n / 1000 - (z # p)) < 1 / 1000)%Q
  <-> Z.abs (n * Zpos p - 1000 * z) < Zpos p.
Proof.
  unfold Qlt, Qabs, Qminus, Qplus, Qopp, Qdiv, Qmult, Qinv, inject_Z.
  simpl. rewrite !Pos2Z.inj_mul. lia.
Qed.

Lemma Qabs_le_thousandfold (n z : Z) (p : positive) :
  (Qabs (inject_Z n) <= Qabs ((z # p) * 1000))%Q
  <-> Z.abs n * Zpos p <= 1000 * Z.abs z.
Proof.
  unfold Qle, Qabs, Qmult, inject_Z. simpl. lia.
Qed.

Lemma Qscaled_bounds (z : Z) (p : positive) :
  (- (1) < (z # p) * 1000 /\ (z # p) * 1000 < 65536)%Q
  <-> - Zpos p < 1000 * z < 65536 * Zpos p.
Proof.
  unfold Qlt, Qmult, Qopp, inject_Z. simpl. lia.
Qed.

(** The truncated thousandfold of a finite float, through its scaled
    value. *)
Lemma shiftl_thousand_scaled (m : positive) (e : Z) :
  -149 <= e ->
  Z.shiftl (Zpos m) (e + 149) = Zpos m * 2 ^ (e + 149) /\
  Z.shiftl (Zpos m * 1000) e
  = (1000 * (Zpos m * 2 ^ (e + 149))) / 2 ^ 149.
Proof.
  intros He. split.
  - apply Z.shiftl_mul_pow2. lia.
  - rewrite <- Z.shiftr_div_pow2 by lia.
    replace (1000 * (Zpos m * 2 ^ (e + 149)))
      with (Zpos m * 1000 * 2 ^ (e + 149)) by ring.
    rewrite <- Z.shiftl_mul_pow2 by lia.
    rewrite Z.shiftr_shiftl_l by lia. f_equal. lia.
Qed.

(** The 16-bit encoding of a finite float above the cutoff. *)
Lemma encode16_above (cutoff : double) (s : bool) (m : positive) (e : Z) :
  is_float (S754_finite s m e) = true ->
  dgt (f2d (S754_finite s m e)) cutoff = true ->
  encode16 cutoff (S754_finite s m e)
  = let n := cond_Zopp s (Z.shiftl (Zpos m * 1000) e) in
    if (0 <=? n) && (n <=? 65535) then Some n else None.
Proof.
  intros Hfl Hgt. unfold encode16, d2u16. rewrite Hgt.
  rewrite (d_trunc_thousand s m e Hfl). reflexivity.
Qed.

(** One sample of a depth frame.  At or below the cutoff the 16-bit
    encoding stores 0 and the float encoding NaN.  Above the cutoff the
    float encoding stores the sample itself and the 16-bit encoding
    stores its thousandfold truncated towards zero: the conversion is
    defined whenever the sample is finite with -1 < 1000 d < 65536, the
    stored integer is not larger in magnitude than 1000 d, and divided
    by 1000 it is within 1 mm of the sample. *)
Lemma depth_sample_encoding (cutoff : double) (d : float) :
  is_float d = true ->
  (dgt (f2d d) cutoff = false ->
   encode16 cutoff d = Some 0 /\ encode32 cutoff d = quiet_NaN) /\
  (dgt (f2d d) cutoff = true ->
   encode32 cutoff d = d /\
   (is_finite d = true ->
    (- (1) < SF2Q d * 1000 /\ SF2Q d * 1000 < 65536)%Q ->
    exists n, encode16 cutoff d = Some n) /\
   (forall n, encode16 cutoff d = Some n ->
      0 <= n <= 65535 /\
      (Qabs (inject_Z n) <= Qabs (SF2Q d * 1000))%Q /\
      (Qabs (inject_Z n / 1000 - SF2Q d) < 1 / 1000)%Q)).
Proof.
  intros Hfl. split.
  - intros Hle. unfold encode16, encode32. rewrite Hle. auto.
  - intros Hgt. split; [unfold encode32; rewrite Hgt; reflexivity |].
    destruct d as [s | s | | s m e].
    + (* zero *)
      split.
      * intros _ _. exists 0. unfold encode16. rewrite Hgt. reflexivity.
      * intros n Hn. unfold encode16 in Hn. rewrite Hgt in Hn.
        assert (Hn0 : n = 0)
          by (destruct s; vm_compute in Hn; congruence).
        subst n. split; [lia |]. unfold SF2Q, float_scaled.
        split; [apply Qabs_le_thousandfold; lia |].
        apply Qabs_diff_thousandth. lia.
    + (* infinity *)
      split; [discriminate |].
      intros n Hn. unfold encode16 in Hn. rewrite Hgt in Hn.
      destruct s; vm_compute in Hn; discriminate.
    + (* NaN is not above the cutoff *)
      unfold dgt, SFltb, f2d in Hgt.
      destruct cutoff; discriminate.
    + (* finite *)
      destruct (f2d_finite s m e Hfl) as (_ & _ & _ & _ & He).
      destruct (shiftl_thousand_scaled m e ltac:(lia)) as [Hsc Htr].
      rewrite (encode16_above cutoff s m e Hfl Hgt). cbv zeta.
      unfold SF2Q, float_scaled. rewrite Htr, Hsc.
      set (X := Zpos m * 2 ^ (e + 149)).
      assert (HX : 0 < X) by (unfold X; apply Z.mul_pos_pos; lia).
      set (P := (2 ^ 149)%positive).
      assert (HP : Zpos P = 2 ^ 149) by reflexivity.
      rewrite <- HP.
      pose proof (Z.mul_div_le (1000 * X) (Zpos P) ltac:(lia)) as Hlo.
      pose proof (Z.mul_succ_div_gt (1000 * X) (Zpos P) ltac:(lia)) as Hhi.
      assert (Hq0 : 0 <= 1000 * X / Zpos P) by (apply Z.div_pos; lia).
      set (q := 1000 * X / Zpos P) in *.
      split.
      * intros _ Hb. apply Qscaled_bounds in Hb.
        exists (cond_Zopp s q).
        destruct s; simpl in *.
        -- assert (q = 0) by nia. subst q. rewrite H. reflexivity.
        -- assert (q < 65536) by nia.
           destruct (0 <=? q) eqn:E1; [| apply Z.leb_gt in E1; lia].
           destruct (q <=? 65535) eqn:E2; [| apply Z.leb_gt in E2; lia].
           reflexivity.
      * intros n Hn.
        destruct (0 <=? cond_Zopp s q) eqn:E1; [| discriminate].
        destruct (cond_Zopp s q <=? 65535) eqn:E2; [| discriminate].
        simpl in Hn. injection Hn as <-.
        apply Z.leb_le in E1, E2. split; [lia |].
        split.
        -- apply Qabs_le_thousandfold. destruct s; simpl in *; nia.
        -- apply Qabs_diff_thousandth. destruct s; simpl in *; nia.
Qed.

(** ** The depth raster *)

(** Prefixes of the frame. *)
Lemma length_take_le {A} (l : list A) (k : Z) :
  0 <= k <= Z.of_nat (length l) -> Z.of_nat (length (take (Z.to_nat k) l)) = k.
Proof. intros Hk. rewrite length_take. lia. Qed.

(** One sample: the body of the inner loop returns, when the conversion
    it has to make is defined, and keeps the invariant. *)
Lemma di_pixel_step (st : State) (rows cols : Z) (data : list float)
  (j i : Z) (s : Z * Raster) :
  raster_ok rows cols data ->
  0 <= j < rows -> 0 <= i < cols ->
  (use_depth_image_16UC1_format_ (config st) = true ->
   forall e, read data (j * cols + i) = Some e ->
             is_Some (encode16 (point_cloud_cutoff_ (config st)) e)) ->
  di_inv st data (rows * cols) (j * cols + i) s ->
  exists s', di_pixel st cols data j i s = Some s' /\
             di_inv st data (rows * cols) (j * cols + i + 1) s'.
Proof.
  intros (Hr & Hc & Hov & Hdata) Hj Hi Hfit Hinv.
  pose proof (flat_index_bound rows cols j i Hj Hi) as Hk.
  set (k := j * cols + i) in *.
  destruct s as [idx dest]. destruct Hinv as [Hidx Hdest]. simpl in Hidx.
  subst idx.
  destruct (read_Some data k) as (d & Hd); [lia |].
  unfold di_pixel. rewrite Hd, (int_succ_small k) by lia. simpl.
  replace (i + j * cols) with k by (unfold k; lia).
  rewrite (wrap32_small k) by lia.
  unfold di_inv. simpl. simpl in Hdest.
  replace (Z.to_nat (rows * cols - k))
    with (S (Z.to_nat (rows * cols - (k + 1)))) in Hdest by lia.
  rewrite replicate_S in Hdest.
  rewrite (take_snoc_read _ _ _ Hd).
  destruct (use_depth_image_16UC1_format_ (config st)) eqn:Hfmt; simpl in *.
  - destruct Hdest as (done & Hdone & ->).
    destruct (Hfit eq_refl d Hd) as (v & Hv). rewrite Hv. simpl.
    rewrite write_middle
      by (rewrite <- (Forall2_length _ _ _ Hdone); rewrite length_take_le; lia).
    simpl. eexists. split; [reflexivity |]. split; [reflexivity |].
    exists (done ++ [v]). split.
    + apply Forall2_app; [exact Hdone |]. constructor; [exact Hv | constructor].
    + simpl. rewrite <- app_assoc. reflexivity.
  - rewrite Hdest. simpl.
    rewrite write_middle
      by (rewrite length_fmap, length_take_le; lia).
    simpl. eexists. split; [reflexivity |]. split; [reflexivity |].
    simpl. rewrite fmap_app, <- app_assoc. reflexivity.
Qed.

(** The helper on a well-formed frame.  It returns when every conversion
    to [uint16_t] it has to make is defined, and the raster holds the
    encoded samples in row-major order. *)
Lemma FillDepthImageHelper_spec (st : State) (msg : Image) (rows cols : Z)
  (data : list float) :
  raster_ok rows cols data ->
  (use_depth_image_16UC1_format_ (config st) = true ->
   forall k e, 0 <= k < rows * cols -> read data k = Some e ->
               is_Some (encode16 (point_cloud_cutoff_ (config st)) e)) ->
  exists img,
    FillDepthImageHelper st msg rows cols data = Some img /\
    di_inv st data (rows * cols) (rows * cols) (rows * cols, im_data img).
Proof.
  intros Hok Hfit. pose proof Hok as (Hr & Hc & Hov & Hdata).
  unfold FillDepthImageHelper.
  rewrite (wrap32_small (rows * cols)) by lia.
  destruct (rows * cols =? 0) eqn:E0; [apply Z.eqb_eq in E0; lia |].
  set (dest0 := if negb _ then Raster32 _ else Raster16 _).
  destruct (for_loop_inv
              (fun j s => di_inv st data (rows * cols) (j * cols) s)
              (fun j => for_loop (Z.to_nat cols) 0 (di_pixel st cols data j))
              (Z.to_nat rows) 0 (0, dest0)) as (s' & Hl & Hs').
  - unfold di_inv, dest0. simpl. rewrite Z.sub_0_r.
    destruct (use_depth_image_16UC1_format_ (config st)); simpl.
    + split; [reflexivity |]. exists []. split; [constructor | reflexivity].
    + split; reflexivity.
  - intros j s1 Hj H1.
    destruct (for_loop_inv
                (fun i s => di_inv st data (rows * cols) (j * cols + i) s)
                (di_pixel st cols data j) (Z.to_nat cols) 0 s1)
      as (s2 & Hl2 & Hs2).
    + rewrite Z.add_0_r. exact H1.
    + intros i s3 Hi H3.
      destruct (di_pixel_step st rows cols data j i s3 Hok)
        as (s4 & Hb & H4); try lia; try assumption.
      * intros Hfmt e He. apply (Hfit Hfmt (j * cols + i)); [| exact He].
        apply flat_index_bound; lia.
      * exists s4. split; [exact Hb |]. rewrite Z.add_assoc. exact H4.
    + exists s2. split; [exact Hl2 |].
      replace ((j + 1) * cols)
        with (j * cols + (0 + Z.of_nat (Z.to_nat cols))) by lia.
      exact Hs2.
  - rewrite Hl. simpl. destruct s' as [idx dest]. simpl.
    eexists. split; [reflexivity |]. simpl.
    replace ((0 + Z.of_nat (Z.to_nat rows)) * cols) with (rows * cols) in Hs'
      by lia.
    destruct Hs' as [Hidx Hdest]. split; [reflexivity | exact Hdest].
Qed.

(** Reading back an encoded sample. *)
Lemma read_fmap_take {A B} (f : A -> B) (l : list A) (n k : Z) (x : A) :
  0 <= k < n -> read l k = Some x ->
  read (f <$> take (Z.to_nat n) l) k = Some (f x).
Proof.
  intros Hk Hr. apply read_lookup in Hr. destruct Hr as [_ Hl].
  unfold read. destruct (0 <=? k) eqn:E; [| apply Z.leb_gt in E; lia].
  rewrite list_lookup_fmap, lookup_take_lt by lia. rewrite Hl. reflexivity.
Qed.

Lemma read_Forall2_take {A B} (R : A -> B -> Prop) (l : list A)
  (l' : list B) (n k : Z) (x : A) :
  0 <= k < n -> read l k = Some x ->
  Forall2 R (take (Z.to_nat n) l) l' ->
  exists y, read l' k = Some y /\ R x y.
Proof.
  intros Hk Hr HF. apply read_lookup in Hr. destruct Hr as [_ Hl].
  assert (Ht : take (Z.to_nat n) l !! Z.to_nat k = Some x)
    by (rewrite lookup_take_lt by lia; exact Hl).
  destruct (Forall2_lookup_l _ _ _ _ _ HF Ht) as (y & Hy & HR).
  exists y. split; [| exact HR].
  unfold read. destruct (0 <=? k) eqn:E; [exact Hy | apply Z.leb_gt in E; lia].
Qed.

(** C5, as the code has it.  On a well-formed depth frame, for the sample
    [d] of the pixel at column i, row j: with the float encoding the
    raster holds [d] itself when [d > cutoff] and NaN otherwise; with the
    16-bit encoding (every sample above the cutoff being finite with
    -1 < 1000 d < 65536, so that the conversions are defined) it holds
    exactly 0 when [d] is not above the cutoff and otherwise the
    thousandfold of [d] truncated towards zero, an integer of 0 .. 65535
    that divided by 1000 is within 1 mm of [d]. *)
Theorem FillDepthImageHelper_sample (st : State) (msg : Image)
  (rows cols : Z) (data : list float) (j i : Z) (d : float) :
  let cutoff := point_cloud_cutoff_ (config st) in
  let fmt16 := use_depth_image_16UC1_format_ (config st) in
  raster_ok rows cols data ->
  0 <= j < rows -> 0 <= i < cols ->
  read data (j * cols + i) = Some d ->
  (fmt16 = true ->
   forall k e, 0 <= k < rows * cols -> read data k = Some e ->
               is_float e = true /\ fits_uint16 cutoff e) ->
  exists img,
    FillDepthImageHelper st msg rows cols data = Some img /\
    (fmt16 = false ->
     exists px,
       im_data img = Raster32 px /\
       read px (i + j * cols)
       = Some (if dgt (f2d d) cutoff then d else quiet_NaN)) /\
    (fmt16 = true ->
     exists px n,
       im_data img = Raster16 px /\
       read px (i + j * cols) = Some n /\
       (dgt (f2d d) cutoff = false -> n = 0) /\
       (dgt (f2d d) cutoff = true ->
        0 <= n <= 65535 /\
        (Qabs (inject_Z n) <= Qabs (SF2Q d * 1000))%Q /\
        (Qabs (inject_Z n / 1000 - SF2Q d) < 1 / 1000)%Q)).
Proof.
  intros cutoff fmt16 Hok Hj Hi Hd Hfit.
  pose proof Hok as (Hr & Hc & Hov & Hdata).
  pose proof (flat_index_bound rows cols j i Hj Hi) as Hk.
  assert (Hsome : fmt16 = true ->
                  forall k e, 0 <= k < rows * cols -> read data k = Some e ->
                              is_Some (encode16 cutoff e)).
  { intros Hfmt k e Hkr He.
    destruct (Hfit Hfmt k e Hkr He) as [Hfl Hu16].
    destruct (depth_sample_encoding cutoff e Hfl) as [Hlow Hhigh].
    destruct (dgt (f2d e) cutoff) eqn:Hgt.
    - destruct (Hu16 Hgt) as [Hfin Hb].
      destruct (Hhigh eq_refl) as (_ & Hex & _).
      destruct (Hex Hfin Hb) as (n & Hn). exists n. exact Hn.
    - destruct (Hlow eq_refl) as [Hz _]. exists 0. exact Hz. }
  destruct (FillDepthImageHelper_spec st msg rows cols data Hok Hsome)
    as (img & Hrun & _ & Hdata').
  exists img. split; [exact Hrun |].
  replace (i + j * cols) with (j * cols + i) by lia.
  simpl in Hdata'. fold fmt16 cutoff in Hdata'.
  rewrite Z.sub_diag in Hdata'. simpl in Hdata'.
  split.
  - intros Hfmt. rewrite Hfmt in Hdata'. simpl in Hdata'.
    eexists. split; [exact Hdata' |].
    rewrite app_nil_r.
    rewrite (read_fmap_take (encode32 cutoff) data _ _ d)
      by (try lia; exact Hd).
    reflexivity.
  - intros Hfmt. rewrite Hfmt in Hdata'. simpl in Hdata'.
    destruct Hdata' as (done & Hdone & Himg).
    destruct (read_Forall2_take
                (fun (d : float) (v : Z) => encode16 cutoff d = Some v)
                data done (rows * cols) (j * cols + i) d)
      as (n & Hn & Henc); [lia | exact Hd | exact Hdone |].
    exists done, n. rewrite app_nil_r in Himg.
    split; [exact Himg |]. split; [exact Hn |].
    destruct (Hfit Hfmt (j * cols + i) d Hk Hd) as [Hfl _].
    destruct (depth_sample_encoding cutoff d Hfl) as [Hlow Hhigh].
    split.
    + intros Hle. destruct (Hlow Hle) as [Hz _]. congruence.
    + intros Hgt. destruct (Hhigh Hgt) as (_ & _ & Hall). apply Hall.
      exact Henc.
Qed.

(** C5 as stated fails.  The sample 513/1024 = 0.5009765625 is stored as
    500, not as round (500.9765625) = 501, and 500 / 1000 is further than
    0.5 mm from it; the sample 70 is not clamped to 65535: the conversion
    of 70000.0 to [uint16_t] is undefined. *)
Lemma sixteen_bit_encoding_truncates :
  dgt (f2d f_513_1024) default_cutoff = true /\
  encode16 default_cutoff f_513_1024 = Some 500 /\
  claimed_encode16 default_cutoff f_513_1024 = Some 501 /\
  (exists img,
     FillDepthImageHelper scenario16_state example_image 1 1 [f_513_1024]
     = Some img /\ im_data img = Raster16 [500]) /\
  (1 # 2000 < Qabs (inject_Z 500 / 1000 - SF2Q f_513_1024))%Q /\
  dgt (f2d f_70) default_cutoff = true /\
  encode16 default_cutoff f_70 = None /\
  claimed_encode16 default_cutoff f_70 = Some 65535.
Proof.
  split; [reflexivity |]. split; [reflexivity |]. split; [reflexivity |].
  split; [eexists; split; [vm_compute; reflexivity | reflexivity] |].
  split; [vm_compute; reflexivity |].
  split; [reflexivity |]. split; reflexivity.
Qed.

Lemma scenario_fits_uint16 (k : Z) (e : float) :
  0 <= k < 2 * 2 -> read scenario_grid k = Some e ->
  is_float e = true /\ fits_uint16 default_cutoff e.
Proof.
  intros Hk He.
  assert (Hc : k = 0 \/ k = 1 \/ k = 2 \/ k = 3) by lia.
  destruct Hc as [-> | [-> | [-> | ->]]]; injection He as <-;
    (split; [reflexivity |]); intros _;
    (split; [reflexivity |]); split; vm_compute; reflexivity.
Defined.

Lemma FillDepthImageHelper_sample_witness :
  exists img,
    FillDepthImageHelper scenario16_state example_image 2 2 scenario_grid
    = Some img /\
    exists px n,
      im_data img = Raster16 px /\
      read px (0 + 0 * 2) = Some n /\
      0 <= n <= 65535 /\
      (Qabs (inject_Z n) <= Qabs (SF2Q f_0_5 * 1000))%Q /\
      (Qabs (inject_Z n / 1000 - SF2Q f_0_5) < 1 / 1000)%Q.
Proof.
  destruct (FillDepthImageHelper_sample scenario16_state example_image 2 2
              scenario_grid 0 0 f_0_5) as (img & Hrun & _ & H16).
  - unfold raster_ok. simpl. lia.
  - lia.
  - lia.
  - reflexivity.
  - intros _ k e. apply scenario_fits_uint16.
  - exists img. split; [exact Hrun |].
    destruct (H16 eq_refl) as (px & n & Hpx & Hn & _ & Hgt).
    exists px, n. split; [exact Hpx |]. split; [exact Hn |].
    apply Hgt. reflexivity.
Defined.

(** ** Subscriber counters and the frame callbacks *)

Section Activation.
Context {T : Type} {tfs : TfScalar T}.
Variable tan : double -> double.
Variable atan2 : double -> double -> double.
Variable doTransform : PointCloud2 -> PointCloud2.
Variable PutCameraData : list Z -> State -> State.

(** Setters and the readiness guard. *)
Lemma set_counters_id (st : State) : set_counters (counters st) st = st.
Proof. destruct st. reflexivity. Qed.

Lemma not_ready_iff (st : State) :
  not_ready st = true <->
  initialized_ (config st) = false \/ width_ (config st) <= 0
  \/ height_ (config st) <= 0.
Proof.
  unfold not_ready. rewrite !orb_true_iff, negb_true_iff, !Z.leb_le. tauto.
Qed.

(** Every unsubscribe handler takes back what its subscribe handler added
    to the counters. *)
Lemma onUnsubscribe_counters (k : OutputKind) (st : State) :
  counters (onUnsubscribe (T := T) k (onSubscribe (T := T) k st).1).1
  = counters st.
Proof.
  destruct st as [cf sn [pc nr di dn rf im] t1 t2 p img m1 m2 m3].
  destruct k;
    cbv [onUnsubscribe onSubscribe PointCloudConnect PointCloudDisconnect
         ReflectanceConnect ReflectanceDisconnect NormalsConnect
         NormalsDisconnect DepthImageConnect DepthImageDisconnect
         DepthInfoConnect DepthInfoDisconnect];
    simpl;
    repeat match goal with
           | |- context [if ?b then _ else _] => destruct b
           end; simpl; f_equal; lia.
Qed.

(** PointCloudDisconnect and ReflectanceDisconnect ask for deactivation
    exactly when their own counter has fallen to 0 or below; the depth
    image and depth info handlers never do. *)
Lemma PointCloudDisconnect_events (st : State) :
  (PointCloudDisconnect (T := T) st).2
  = if point_cloud_connect_count_ (counters st) - 1 <=? 0
    then [EvSetActive false] else [].
Proof.
  unfold PointCloudDisconnect. simpl.
  destruct (point_cloud_connect_count_ (counters st) - 1 <=? 0); reflexivity.
Qed.

Lemma ReflectanceDisconnect_events (st : State) :
  (ReflectanceDisconnect (T := T) st).2
  = if reflectance_connect_count_ (counters st) - 1 <=? 0
    then [EvSetActive false] else [].
Proof.
  unfold ReflectanceDisconnect. simpl.
  destruct (reflectance_connect_count_ (counters st) - 1 <=? 0); reflexivity.
Qed.

Lemma DepthDisconnect_events (st : State) :
  (DepthImageDisconnect (T := T) st).2 = []
  /\ (DepthInfoDisconnect (T := T) st).2 = [].
Proof. split; reflexivity. Qed.

(** C4, what the code does.  NormalsDisconnect decrements the normals
    counter and the shared image counter, and asks for deactivation
    exactly when the reflectance counter is 0 or below; the normals
    counter it has just decremented plays no part in the decision. *)
Theorem NormalsDisconnect_tests_reflectance_count (st : State) :
  normals_connect_count_ (counters (NormalsDisconnect (T := T) st).1)
  = normals_connect_count_ (counters st) - 1 /\
  image_connect_count_ (counters (NormalsDisconnect (T := T) st).1)
  = image_connect_count_ (counters st) - 1 /\
  (NormalsDisconnect (T := T) st).2
  = if reflectance_connect_count_ (counters st) <=? 0
    then [EvSetActive false] else [].
Proof.
  unfold NormalsDisconnect. simpl.
  destruct (reflectance_connect_count_ (counters st) <=? 0); simpl; auto.
Qed.

(** *** The depth callback *)

(** While the sensor is inactive the depth callback publishes nothing and
    issues at most one request. *)
Lemma OnNewDepthFrame_inactive (st : State) (image : list float) :
  not_ready st = false ->
  IsActive (parentSensor st) = false ->
  exists st',
    OnNewDepthFrame (T := T) tan atan2 doTransform st image
    = Some (st',
            if (0 <? point_cloud_connect_count_ (counters st))
               || (depth_image_connect_count_ (counters st) <=? 0)
            then [EvSetActive true] else []).
Proof.
  intros Hrdy Hact. unfold OnNewDepthFrame. rewrite Hrdy. simpl.
  rewrite Hact.
  destruct ((0 <? point_cloud_connect_count_ (counters st))
            || (depth_image_connect_count_ (counters st) <=? 0));
    eexists; reflexivity.
Qed.

(** While the sensor is active and the four counters the callback reads
    are 0 or below, the sensor is deactivated and nothing is converted. *)
Lemma OnNewDepthFrame_active_idle (st : State) (image : list float) :
  not_ready st = false ->
  IsActive (parentSensor st) = true ->
  point_cloud_connect_count_ (counters st) <= 0 ->
  depth_image_connect_count_ (counters st) <= 0 ->
  image_connect_count_ (counters st) <= 0 ->
  normals_connect_count_ (counters st) <= 0 ->
  exists st',
    OnNewDepthFrame (T := T) tan atan2 doTransform st image
    = Some (st', [EvSetActive false])
    /\ IsActive (parentSensor st') = false.
Proof.
  intros Hrdy Hact Hpc Hdi Him Hnr. unfold OnNewDepthFrame.
  rewrite Hrdy. simpl. rewrite Hact.
  apply Z.leb_le in Hpc, Hdi, Him, Hnr. rewrite Hpc, Hdi, Him, Hnr. simpl.
  eexists. split; reflexivity.
Qed.

(** The activation lag of the point cloud: with a point cloud subscriber,
    no depth image subscriber and the sensor inactive, a first frame
    only activates the sensor and the next one publishes the cloud. *)
Lemma OnNewDepthFrame_activation_lag (st : State) (image : list float) :
  not_ready st = false ->
  IsActive (parentSensor st) = false ->
  0 < point_cloud_connect_count_ (counters st) ->
  depth_image_connect_count_ (counters st) <= 0 ->
  frame_ok st (height (config st)) (width (config st)) image ->
  exists st1 st2 msg,
    OnNewDepthFrame (T := T) tan atan2 doTransform st image
    = Some (st1, [EvSetActive true]) /\
    OnNewDepthFrame (T := T) tan atan2 doTransform st1 image
    = Some (st2, [EvPublishPointCloud msg]).
Proof.
  intros Hrdy Hact Hpc Hdi Hok.
  apply Z.ltb_lt in Hpc. apply Z.leb_le in Hdi.
  assert (Hdi' : (0 <? depth_image_connect_count_ (counters st)) = false)
    by (apply Z.ltb_ge; apply Z.leb_le; exact Hdi).
  assert (Hpc' : (point_cloud_connect_count_ (counters st) <=? 0) = false)
    by (apply Z.leb_gt; apply Z.ltb_lt; exact Hpc).
  set (t := LastMeasurementTime (parentSensor st)).
  set (st1 := SetActive true (set_depth_sensor_update_time t st)).
  set (st1' := set_depth_sensor_update_time
                 (LastMeasurementTime (parentSensor st1)) st1).
  assert (Hok1 : frame_ok st1' (height (config st)) (width (config st)) image)
    by exact Hok.
  pose proof (FillPointCloudHelper_spec tan atan2 st1'
                {| pc_header := depth_header st1'; pc_is_dense := false;
                   pc_points := [] |} _ _ image Hok1) as Hrun.
  eexists st1, _, _. split.
  - unfold OnNewDepthFrame. rewrite Hrdy. simpl. rewrite Hact, Hpc.
    reflexivity.
  - unfold OnNewDepthFrame.
    change (not_ready st1) with (not_ready st). rewrite Hrdy.
    fold st1'. simpl. rewrite Hpc', Hpc, Hdi'. simpl.
    unfold FillPointdCloud.
    change (config st1') with (config st). rewrite Hrun. reflexivity.
Qed.

(** C3, what the code does.  On a depth frame delivered while the sensor
    is inactive, with a depth image subscriber and no point cloud
    subscriber, the callback issues no activation request: it records
    the measurement time and returns. *)
Theorem OnNewDepthFrame_inactive_depth_image_only (st : State)
  (image : list float) :
  not_ready st = false ->
  IsActive (parentSensor st) = false ->
  point_cloud_connect_count_ (counters st) <= 0 ->
  0 < depth_image_connect_count_ (counters st) ->
  OnNewDepthFrame (T := T) tan atan2 doTransform st image
  = Some (set_depth_sensor_update_time
            (LastMeasurementTime (parentSensor st)) st, []).
Proof.
  intros Hrdy Hact Hpc Hdi. unfold OnNewDepthFrame.
  rewrite Hrdy. simpl. rewrite Hact.
  destruct (0 <? point_cloud_connect_count_ (counters st)) eqn:E1;
    [apply Z.ltb_lt in E1; lia |].
  destruct (depth_image_connect_count_ (counters st) <=? 0) eqn:E2;
    [apply Z.leb_le in E2; lia |].
  reflexivity.
Qed.

(** C9.  When the plugin is not initialized, or the configured width or
    height is 0 or below, each of the depth, colour, normals and
    reflectance callbacks returns without an output, without a request to
    the sensor and with the state unchanged. *)
Theorem callbacks_skip_when_not_ready (st : State)
  (depth normals reflectance : list float) (color : list Z) (w h : Z) :
  initialized_ (config st) = false \/ width_ (config st) <= 0
  \/ height_ (config st) <= 0 ->
  OnNewDepthFrame (T := T) tan atan2 doTransform st depth = Some (st, []) /\
  OnNewImageFrame (T := T) PutCameraData st color = Some (st, []) /\
  OnNewNormalsFrame (T := T) st normals w h = Some (st, []) /\
  OnNewReflectanceFrame (T := T) st reflectance w h = Some (st, []).
Proof.
  intros Hnr. apply not_ready_iff in Hnr.
  unfold OnNewDepthFrame, OnNewImageFrame, OnNewNormalsFrame,
    OnNewReflectanceFrame.
  rewrite Hnr. auto.
Qed.

(** C10.  A normals frame that arrives while the sensor is active and the
    normals counter is positive, before any depth frame has allocated the
    cached point grid, still publishes a marker array, and the array is
    empty. *)
Theorem OnNewNormalsFrame_without_cached_grid (st : State)
  (normals : list float) (w h : Z) :
  not_ready st = false ->
  IsActive (parentSensor st) = true ->
  0 < normals_connect_count_ (counters st) ->
  pcd_ st = None ->
  OnNewNormalsFrame (T := T) st normals w h
  = Some (st, [EvPublishNormals []]).
Proof.
  intros Hrdy Hact Hcnt Hpcd. unfold OnNewNormalsFrame.
  rewrite Hrdy, Hact, Hpcd. simpl.
  apply Z.ltb_lt in Hcnt. rewrite Hcnt. reflexivity.
Qed.

End Activation.

(** The two example states are reached from the idle camera by
    subscriptions alone. *)
Lemma depth_only_state_reachable :
  (PointCloudDisconnect (T := double)
     (PointCloudConnect (T := double)
        (DepthImageConnect (T := double) idle_state).1).1).1
  = depth_only_state.
Proof. reflexivity. Qed.

Lemma normals_and_reflectance_state_reachable :
  (ReflectanceConnect (T := double)
     (NormalsConnect (T := double) idle_state).1).1
  = normals_and_reflectance_state.
Proof. reflexivity. Qed.

(** The last normals subscriber leaves while a reflectance subscriber
    stays: the normals counter falls to 0 and the sensor is not asked to
    stop. *)
Lemma NormalsDisconnect_last_normals_subscriber :
  normals_connect_count_
    (counters (NormalsDisconnect (T := double) normals_and_reflectance_state).1)
  = 0 /\
  (NormalsDisconnect (T := double) normals_and_reflectance_state).2 = [].
Proof. split; reflexivity. Qed.

Lemma OnNewDepthFrame_inactive_depth_image_only_witness :
  not_ready depth_only_state = false /\
  IsActive (parentSensor depth_only_state) = false /\
  point_cloud_connect_count_ (counters depth_only_state) <= 0 /\
  0 < depth_image_connect_count_ (counters depth_only_state) /\
  OnNewDepthFrame (T := double) tan_at_zero atan2_at_zero (fun m => m)
    depth_only_state scenario_grid
  = Some (set_depth_sensor_update_time
            (LastMeasurementTime (parentSensor depth_only_state))
            depth_only_state, []).
Proof.
  split; [reflexivity |]. split; [reflexivity |].
  split; [simpl; lia |]. split; [simpl; lia |].
  apply (OnNewDepthFrame_inactive_depth_image_only (T := double)
           tan_at_zero atan2_at_zero (fun m => m) depth_only_state
           scenario_grid).
  - reflexivity.
  - reflexivity.
  - simpl. lia.
  - simpl. lia.
Defined.

Lemma callbacks_skip_when_not_ready_witness :
  initialized_ (config uninitialized_state) = false /\
  OnNewDepthFrame (T := double) tan_at_zero atan2_at_zero (fun m => m)
    uninitialized_state scenario_grid = Some (uninitialized_state, []) /\
  OnNewImageFrame (T := double) (fun _ st => st) uninitialized_state
    scenario_rgb
  = Some (uninitialized_state, []) /\
  OnNewNormalsFrame (tfs := example_scalar) uninitialized_state [] 2 2
  = Some (uninitialized_state, []) /\
  OnNewReflectanceFrame (T := double) uninitialized_state scenario_grid 2 2
  = Some (uninitialized_state, []).
Proof.
  split; [reflexivity |].
  apply (callbacks_skip_when_not_ready (tfs := example_scalar)
           tan_at_zero atan2_at_zero
           (fun m => m) (fun _ st => st) uninitialized_state
           scenario_grid [] scenario_grid scenario_rgb 2 2).
  left. reflexivity.
Defined.

Lemma OnNewNormalsFrame_without_cached_grid_witness :
  not_ready normals_and_reflectance_state = false /\
  IsActive (parentSensor normals_and_reflectance_state) = true /\
  0 < normals_connect_count_ (counters normals_and_reflectance_state) /\
  pcd_ normals_and_reflectance_state = None /\
  OnNewNormalsFrame (tfs := example_scalar) normals_and_reflectance_state [] 2 2
  = Some (normals_and_reflectance_state, [EvPublishNormals []]).
Proof.
  split; [reflexivity |]. split; [reflexivity |].
  split; [simpl; lia |]. split; [reflexivity |].
  apply (OnNewNormalsFrame_without_cached_grid (tfs := example_scalar)
           normals_and_reflectance_state [] 2 2).
  - reflexivity.
  - reflexivity.
  - simpl. lia.
  - reflexivity.
Defined.

(** ** The normals visualizer *)

(** The visit reaches the flat indices below W * H, each of them once. *)
Lemma elem_of_visit_order (W H k : Z) :
  0 <= W -> 0 <= H ->
  k ∈ visit_order W H <-> 0 <= k < W * H.
Proof.
  intros HW HH. unfold visit_order, visit_column.
  rewrite list_elem_of_bind. split.
  - intros (i & Hk & Hi). apply elem_of_seqZ in Hi.
    apply list_elem_of_fmap in Hk. destruct Hk as (j & -> & Hj).
    apply elem_of_seqZ in Hj. nia.
  - intros Hk. assert (0 < W) by nia.
    exists (k mod W). split.
    + apply list_elem_of_fmap. exists (k / W). split.
      * rewrite Z.mul_comm. apply Z.div_mod. lia.
      * apply elem_of_seqZ. split; [apply Z.div_pos; lia |].
        rewrite Z.add_0_l. apply Z.div_lt_upper_bound; lia.
    + apply elem_of_seqZ. pose proof (Z.mod_pos_bound k W). lia.
Qed.

Lemma NoDup_visit_order (W H : Z) : 0 <= W -> NoDup (visit_order W H).
Proof.
  intros HW. unfold visit_order. apply NoDup_bind.
  - intros i1 i2 k Hi1 Hi2 Hk1 Hk2.
    apply elem_of_seqZ in Hi1, Hi2. unfold visit_column in Hk1, Hk2.
    apply list_elem_of_fmap in Hk1, Hk2.
    destruct Hk1 as (j1 & -> & Hj1), Hk2 as (j2 & E & Hj2).
    assert (E1 : (j1 * W + i1) mod W = i1)
      by (apply flat_index_mod; lia).
    rewrite E in E1. rewrite flat_index_mod in E1 by lia. congruence.
  - intros i Hi. apply elem_of_seqZ in Hi. unfold visit_column.
    apply NoDup_fmap_2; [| apply NoDup_seqZ].
    intros j1 j2 E. nia.
  - apply NoDup_seqZ.
Qed.

(** Column-major order visits every flat index once. *)
Lemma visit_order_Permutation (W H : Z) :
  0 <= W -> 0 <= H -> visit_order W H ≡ₚ seqZ 0 (W * H).
Proof.
  intros HW HH. apply NoDup_Permutation.
  - apply NoDup_visit_order. exact HW.
  - apply NoDup_seqZ.
  - intros k. rewrite elem_of_visit_order, elem_of_seqZ by assumption. lia.
Qed.

(** One column, one row more. *)
Lemma visit_order_S (W H i : Z) :
  0 <= i ->
  seqZ 0 (i + 1) ≫= visit_column W H
  = (seqZ 0 i ≫= visit_column W H) ++ visit_column W H i.
Proof.
  intros Hi. rewrite seqZ_snoc by lia. rewrite bind_app. simpl.
  rewrite app_nil_r. reflexivity.
Qed.

Lemma visit_column_S (W j i : Z) :
  0 <= j ->
  (fun j => j * W + i) <$> seqZ 0 (j + 1)
  = ((fun j => j * W + i) <$> seqZ 0 j) ++ [j * W + i].
Proof. intros Hj. rewrite seqZ_snoc by lia. rewrite fmap_app. reflexivity. Qed.

(** A flat index below 2^31 is its own [int32]. *)
Lemma to_int32_small (z : Z) : 0 <= z < 2 ^ 31 -> to_int32 z = z.
Proof.
  intros Hz. unfold to_int32.
  destruct (z <? 2 ^ 31) eqn:E; [reflexivity | apply Z.ltb_ge in E; lia].
Qed.

Section Normals.
Context {T : Type} {tfs : TfScalar T}.

(** On a grid with room for the pixel, [make_marker] returns a marker
    whose identifier is the flat index and whose position is the cached
    point. *)
Lemma make_marker_Some (st : State) (normals pcd : list float) (k : Z) :
  0 <= k -> 4 * k + 4 <= Z.of_nat (length normals) ->
  4 * k + 4 <= Z.of_nat (length pcd) -> 4 * k + 4 <= 2 ^ 32 ->
  exists (m : Marker T) px py pz,
    make_marker st normals pcd k = Some m /\
    m_id m = k /\
    read pcd (4 * k) = Some px /\ read pcd (4 * k + 1) = Some py /\
    read pcd (4 * k + 2) = Some pz /\
    m_position m = (f2d px, f2d py, f2d pz).
Proof.
  intros Hk Hn Hp Hov. unfold make_marker.
  rewrite !wrap32_small by lia.
  destruct (read_Some normals (4 * k)) as (x & Hx); [lia |].
  destruct (read_Some normals (4 * k + 1)) as (y & Hy); [lia |].
  destruct (read_Some normals (4 * k + 2)) as (z & Hz); [lia |].
  destruct (read_Some pcd (4 * k)) as (px & Hpx); [lia |].
  destruct (read_Some pcd (4 * k + 1)) as (py & Hpy); [lia |].
  destruct (read_Some pcd (4 * k + 2)) as (pz & Hpz); [lia |].
  rewrite Hx, Hy, Hz, Hpx, Hpy, Hpz. simpl.
  eexists _, px, py, pz. split; [reflexivity |]. simpl.
  rewrite to_int32_small by lia. auto.
Qed.

(** One pixel: the body of the inner loop returns and appends a marker
    exactly when the stride, converted to [unsigned int], divides the
    flat index. *)
Lemma normals_pixel_step (st : State) (normals pcd : list float)
  (W H i j : Z) (done : list Z) (ms : list (Marker T)) :
  0 <= W -> 0 <= H -> 4 * (W * H) < 2 ^ 32 ->
  4 * (W * H) <= Z.of_nat (length normals) ->
  4 * (W * H) <= Z.of_nat (length pcd) ->
  wrap32 (reduce_normals_ (config st)) <> 0 ->
  0 <= i < W -> 0 <= j < H ->
  Forall2 (marker_of st normals pcd)
    (filter (fun k => k mod wrap32 (reduce_normals_ (config st)) = 0) done)
    ms ->
  exists ms',
    normals_pixel st normals pcd W i j ms = Some ms' /\
    Forall2 (marker_of st normals pcd)
      (filter (fun k => k mod wrap32 (reduce_normals_ (config st)) = 0)
         (done ++ [j * W + i])) ms'.
Proof.
  intros HW HH Hov Hn Hp HN Hi Hj Hinv.
  assert (Hk : 0 <= j * W + i < W * H) by nia.
  unfold normals_pixel.
  rewrite (wrap32_small (j * W + i)) by lia.
  destruct (wrap32 (reduce_normals_ (config st)) =? 0) eqn:E0;
    [apply Z.eqb_eq in E0; lia |].
  rewrite filter_app.
  destruct ((j * W + i) mod wrap32 (reduce_normals_ (config st)) =? 0) eqn:E.
  - apply Z.eqb_eq in E.
    destruct (make_marker_Some st normals pcd (j * W + i))
      as (m & _ & _ & _ & Hm & _); try lia.
    rewrite Hm. simpl. exists (ms ++ [m]). split; [reflexivity |].
    apply Forall2_app; [exact Hinv |].
    rewrite filter_cons_True by exact E. rewrite filter_nil.
    constructor; [exact Hm | constructor].
  - apply Z.eqb_neq in E. exists ms. split; [reflexivity |].
    rewrite filter_cons_False by exact E. rewrite filter_nil, app_nil_r.
    exact Hinv.
Qed.

(** The two loops return, with one marker for each visited index that
    the unsigned stride divides, in the order of the visit. *)
Lemma normals_markers_unsigned (st : State) (normals pcd : list float)
  (W H : Z) :
  0 <= W -> 0 <= H -> 4 * (W * H) < 2 ^ 32 ->
  4 * (W * H) <= Z.of_nat (length normals) ->
  4 * (W * H) <= Z.of_nat (length pcd) ->
  wrap32 (reduce_normals_ (config st)) <> 0 ->
  exists ms,
    normals_markers st normals pcd W H = Some ms /\
    Forall2 (marker_of st normals pcd)
      (filter (fun k => k mod wrap32 (reduce_normals_ (config st)) = 0)
         (visit_order W H))
      ms.
Proof.
  intros HW HH Hov Hn Hp HN. unfold normals_markers, visit_order.
  set (N := wrap32 (reduce_normals_ (config st))) in *.
  destruct (for_loop_inv
              (fun i ms =>
                 Forall2 (marker_of st normals pcd)
                   (filter (fun k => k mod N = 0)
                      (seqZ 0 i ≫= visit_column W H)) ms)
              (fun i => for_loop (Z.to_nat H) 0
                          (normals_pixel st normals pcd W i))
              (Z.to_nat W) 0 []) as (ms & Hl & Hms).
  - simpl. constructor.
  - intros i ms1 Hi H1.
    destruct (for_loop_inv
                (fun j ms =>
                   Forall2 (marker_of st normals pcd)
                     (filter (fun k => k mod N = 0)
                        ((seqZ 0 i ≫= visit_column W H)
                         ++ ((fun j => j * W + i) <$> seqZ 0 j))) ms)
                (normals_pixel st normals pcd W i)
                (Z.to_nat H) 0 ms1) as (ms2 & Hl2 & Hms2).
    + simpl. rewrite app_nil_r. exact H1.
    + intros j ms3 Hj H3.
      destruct (normals_pixel_step st normals pcd W H i j _ ms3
                  HW HH Hov Hn Hp HN ltac:(lia) ltac:(lia) H3)
        as (ms4 & Hb & H4).
      exists ms4. split; [exact Hb |].
      rewrite visit_column_S by lia. rewrite app_assoc. exact H4.
    + exists ms2. split; [exact Hl2 |].
      rewrite visit_order_S by lia. unfold visit_column at 2.
      replace (0 + Z.of_nat (Z.to_nat H)) with H in Hms2 by lia.
      exact Hms2.
  - exists ms. split; [exact Hl |].
    replace (0 + Z.of_nat (Z.to_nat W)) with W in Hms by lia.
    exact Hms.
Qed.

(** A positive stride is its own unsigned value. *)
Lemma normals_markers_spec (st : State) (normals pcd : list float)
  (W H : Z) :
  0 <= W -> 0 <= H -> 4 * (W * H) < 2 ^ 32 ->
  4 * (W * H) <= Z.of_nat (length normals) ->
  4 * (W * H) <= Z.of_nat (length pcd) ->
  0 < reduce_normals_ (config st) < 2 ^ 32 ->
  exists ms,
    normals_markers st normals pcd W H = Some ms /\
    Forall2 (marker_of st normals pcd)
      (filter (fun k => k mod reduce_normals_ (config st) = 0)
         (visit_order W H))
      ms.
Proof.
  intros HW HH Hov Hn Hp HN.
  destruct (normals_markers_unsigned st normals pcd W H HW HH Hov Hn Hp)
    as (ms & Hrun & Hms).
  - rewrite wrap32_small by lia. lia.
  - exists ms. split; [exact Hrun |].
    rewrite (wrap32_small (reduce_normals_ (config st))) in Hms by lia.
    exact Hms.
Qed.

(** Markers built for a list of flat indices carry these indices and the
    cached points at them. *)
Lemma markers_of_ids (st : State) (normals pcd : list float) (n : Z)
  (ks : list Z) (ms : list (Marker T)) :
  4 * n < 2 ^ 32 ->
  4 * n <= Z.of_nat (length normals) ->
  4 * n <= Z.of_nat (length pcd) ->
  (forall k, k ∈ ks -> 0 <= k < n) ->
  Forall2 (marker_of st normals pcd) ks ms ->
  m_id <$> ms = ks /\
  Forall (fun m =>
            exists px py pz,
              read pcd (4 * m_id m) = Some px /\
              read pcd (4 * m_id m + 1) = Some py /\
              read pcd (4 * m_id m + 2) = Some pz /\
              m_position m = (f2d px, f2d py, f2d pz)) ms.
Proof.
  intros Hov Hn Hp Hin Hms.
  induction Hms as [| k m ks ms' Hkm Hrest IH].
  - split; [reflexivity | constructor].
  - assert (Hk : 0 <= k < n) by (apply Hin; left).
    destruct (make_marker_Some st normals pcd k)
      as (m' & px & py & pz & Hm' & Hid & Hx & Hy & Hz & Hpos); try lia.
    unfold marker_of in Hkm. rewrite Hm' in Hkm. inversion Hkm; subst m'.
    assert (Hin' : forall k' : Z, k' ∈ ks -> 0 <= k' < n)
      by (intros k' Hk'; apply Hin; right; exact Hk').
    destruct (IH Hin') as [IH1 IH2].
    split.
    + rewrite fmap_cons, Hid, IH1. reflexivity.
    + constructor; [| exact IH2]. rewrite Hid. eauto 10.
Qed.

(** The flat indices below [n] that a divisor above them divides. *)
Lemma filter_multiples_none (M : Z) (l : list Z) :
  (forall k, k ∈ l -> 0 < k < M) ->
  filter (fun k => k mod M = 0) l = [].
Proof.
  induction l as [| a l IH]; intros Hl; [reflexivity |].
  rewrite filter_cons_False.
  - apply IH. intros k Hk. apply Hl. now right.
  - assert (0 < a < M) by (apply Hl; left).
    rewrite Z.mod_small by lia. lia.
Qed.

Lemma filter_multiples_large (M n : Z) :
  0 < n <= M ->
  filter (fun k => k mod M = 0) (seqZ 0 n) = [0].
Proof.
  intros Hn. replace n with (Z.succ (n - 1)) by lia.
  rewrite seqZ_cons by lia. rewrite Z.pred_succ.
  rewrite filter_cons_True by (apply Z.mod_0_l; lia).
  f_equal. apply filter_multiples_none. intros k Hk.
  apply elem_of_seqZ in Hk. lia.
Qed.

(** C8, as the code has it.  For a W x H normal grid processed while the
    sensor is active, the normals counter is positive and the cached
    point grid is populated, the stride reduceNormals is converted to
    [unsigned int] before it divides the flat index: the markers
    published are as many as the flat indices of 0 .. W*H-1 that the
    converted stride divides, their identifiers are those flat indices,
    and the position of each marker is the cached (x, y, z) at its
    index.  A positive stride is its own conversion; a negative one
    becomes a number above every flat index, and the only marker is that
    of index 0.  The frame is taken to fit the 32-bit index arithmetic
    and both grids to hold four floats per pixel. *)
Theorem OnNewNormalsFrame_markers (st : State) (normals pcd : list float)
  (W H : Z) :
  not_ready st = false ->
  IsActive (parentSensor st) = true ->
  0 < normals_connect_count_ (counters st) ->
  pcd_ st = Some pcd ->
  0 <= W -> 0 <= H -> 4 * (W * H) < 2 ^ 32 ->
  4 * (W * H) <= Z.of_nat (length normals) ->
  4 * (W * H) <= Z.of_nat (length pcd) ->
  wrap32 (reduce_normals_ (config st)) <> 0 ->
  let N := reduce_normals_ (config st) in
  let hits := filter (fun k => k mod wrap32 N = 0) (seqZ 0 (W * H)) in
  exists ms : list (Marker T),
    OnNewNormalsFrame st normals W H = Some (st, [EvPublishNormals ms]) /\
    length ms = length hits /\
    m_id <$> ms ≡ₚ hits /\
    Forall (fun m =>
              exists px py pz,
                read pcd (4 * m_id m) = Some px /\
                read pcd (4 * m_id m + 1) = Some py /\
                read pcd (4 * m_id m + 2) = Some pz /\
                m_position m = (f2d px, f2d py, f2d pz)) ms /\
    (0 < N < 2 ^ 32 ->
     hits = filter (fun k => k mod N = 0) (seqZ 0 (W * H))) /\
    (- 2 ^ 31 <= N < 0 -> 0 < W * H -> m_id <$> ms = [0]).
Proof.
  intros Hrdy Hact Hcnt Hpcd HW HH Hov Hn Hp HN N hits.
  destruct (normals_markers_unsigned st normals pcd W H HW HH Hov Hn Hp HN)
    as (ms & Hrun & Hms).
  fold N in Hms, HN.
  exists ms.
  assert (Hperm : filter (fun k => k mod wrap32 N = 0) (visit_order W H)
                  ≡ₚ hits).
  { unfold hits. rewrite (visit_order_Permutation W H HW HH). reflexivity. }
  assert (Hin : forall k,
             k ∈ filter (fun k => k mod wrap32 N = 0) (visit_order W H) ->
             0 <= k < W * H).
  { intros k Hk. apply list_elem_of_filter in Hk. destruct Hk as [_ Hk].
    apply elem_of_visit_order in Hk; assumption. }
  destruct (markers_of_ids st normals pcd (W * H) _ ms Hov Hn Hp Hin Hms)
    as [Hids Hpos].
  split.
  { unfold OnNewNormalsFrame. rewrite Hrdy, Hact, Hpcd. simpl.
    apply Z.ltb_lt in Hcnt. rewrite Hcnt, Hrun. reflexivity. }
  split.
  { rewrite <- (length_fmap m_id ms), Hids. apply Permutation_length.
    exact Hperm. }
  split; [rewrite Hids; exact Hperm |].
  split; [exact Hpos |].
  split.
  - intros HNpos. unfold hits. rewrite (wrap32_small N) by lia.
    reflexivity.
  - intros HNneg Hpix.
    assert (HM : wrap32 N = N + 2 ^ 32).
    { unfold wrap32. symmetry. apply (Z.mod_unique N (2 ^ 32) (-1)); lia. }
    assert (Hone : hits = [0]).
    { unfold hits. apply filter_multiples_large. lia. }
    rewrite Hone in Hperm. rewrite Hids.
    apply Permutation_singleton_r in Hperm. exact Hperm.
Qed.

End Normals.

Lemma OnNewNormalsFrame_markers_witness :
  exists ms : list (Marker double),
    OnNewNormalsFrame (tfs := example_scalar) normals_state
      scenario_normals 2 2
    = Some (normals_state, [EvPublishNormals ms]) /\
    length ms = 2%nat /\
    m_id <$> ms ≡ₚ [0; 3] /\
    Forall (fun m =>
              exists px py pz,
                read scenario_pcd (4 * m_id m) = Some px /\
                read scenario_pcd (4 * m_id m + 1) = Some py /\
                read scenario_pcd (4 * m_id m + 2) = Some pz /\
                m_position m = (f2d px, f2d py, f2d pz)) ms.
Proof.
  destruct (OnNewNormalsFrame_markers (tfs := example_scalar) normals_state
              scenario_normals scenario_pcd 2 2)
    as (ms & Hrun & Hlen & Hids & Hpos & _ & _).
  - reflexivity.
  - reflexivity.
  - simpl. lia.
  - reflexivity.
  - lia.
  - lia.
  - simpl. lia.
  - simpl. lia.
  - simpl. lia.
  - vm_compute. discriminate.
  - exists ms. split; [exact Hrun |]. split; [exact Hlen |].
    split; [exact Hids | exact Hpos].
Defined.

(** C8 as stated fails for a negative stride: with reduceNormals = -2 on
    the 2 x 2 grid the flat indices 0 and 2 are exactly divisible by the
    stride, and the only marker published is that of index 0. *)
Lemma negative_stride_publishes_one_marker :
  filter (fun k => k mod reduce_normals_ (config negative_stride_state) = 0)
    (seqZ 0 (2 * 2)) = [0; 2] /\
  exists ms : list (Marker double),
    OnNewNormalsFrame (tfs := example_scalar) negative_stride_state
      scenario_normals 2 2
    = Some (negative_stride_state, [EvPublishNormals ms]) /\
    m_id <$> ms = [0].
Proof.
  split; [reflexivity |].
  eexists. split; [vm_compute; reflexivity | reflexivity].
Qed.

(** ** The orientation of a marker *)

(** For every scalar type: identity for the zero vector, otherwise the
    normalized rotation about normal x reference. *)
Lemma marker_orientation_unfold {T} {tfs : TfScalar T} (n : Vector3 T) :
  marker_orientation n
  = if v_isZero n then q_identity
    else q_normalize
           (q_setRotation (v_cross n reference_axis)
              (tf_mul tf_minus_one (tfAcos (v_dot n reference_axis)))).
Proof. reflexivity. Qed.

(** *** Doubles that come from finite floats *)













Section OrientationInDouble.
Variables sin cos acos : double -> double.

Local Abbreviation tfd := (TfScalar_double sin cos acos).
Local Abbreviation ref := (reference_axis (tfs := tfd)).





(** A finite normal along the reference axis has a zero cross product
    with it, [setRotation] divides by its zero length, and the four
    components come out as NaN whatever libm answers. *)
Lemma marker_orientation_along_reference (s sy sz : bool) (m : positive)
  (e : Z) :
  marker_orientation (tfs := tfd)
    {| vx := S754_finite s m e; vy := S754_zero sy; vz := S754_zero sz |}
  = q_nan.
Proof.
  rewrite marker_orientation_unfold.
  set (ang := tf_mul tf_minus_one _). clearbody ang.
  unfold q_normalize, q_scale, q_length, q_length2, q_setRotation,
    v_length, v_dot, v_cross, v_isZero, reference_axis.
  cbn [vx vy vz qx qy qz qw tf_zero tf_one tf_half tf_add tf_sub tf_mul
       tf_div tfSqrt tfSin tfCos tf_eqb TfScalar_double].
  generalize (sin (dmul ang d_half)) as X.
  generalize (cos (dmul ang d_half)) as C.
  intros C X. unfold q_nan.
  destruct X as [sX|sX| |sX mX eX], C as [sC|sC| |sC mC eC],
    s, sy, sz; reflexivity.
Qed.



End OrientationInDouble.



(** * Further properties of the code *)

(** ** The pose string of Load *)

(** Strings: the position of the first space and the two substrings the
    loop takes. *)
Lemma find_first_of_app (t r : string) :
  no_space t ->
  find_first_of Ascii.Space (t ++ String Ascii.Space r)
  = Some (String.length t).
Proof.
  unfold no_space. induction t as [|a t IH]; simpl; [reflexivity|].
  destruct (Ascii.eqb a Ascii.Space); [discriminate|].
  destruct (find_first_of Ascii.Space t); [discriminate|].
  intros _. rewrite IH by reflexivity. reflexivity.
Qed.

Lemma substring_all (s : string) : substring 0 (String.length s) s = s.
Proof. induction s as [|a s IH]; simpl; [reflexivity|]. now rewrite IH. Qed.

Lemma substring_prefix (t r : string) :
  substring 0 (String.length t) (t ++ r) = t.
Proof.
  induction t as [|a t IH]; simpl.
  - destruct r; reflexivity.
  - now rewrite IH.
Qed.

Lemma substring_suffix (t r : string) (n : nat) :
  substring (String.length t) n (t ++ r) = substring 0 n r.
Proof. induction t as [|a t IH]; simpl; [reflexivity|]. exact IH. Qed.

Lemma length_append (t r : string) :
  String.length (t ++ r) = (String.length t + String.length r)%nat.
Proof. induction t as [|a t IH]; simpl; [reflexivity|]. now rewrite IH. Qed.

Lemma substr_to_token (t r : string) :
  no_space t ->
  substr_to (t ++ String Ascii.Space r)
    (find_first_of Ascii.Space (t ++ String Ascii.Space r)) = t.
Proof.
  intros Ht. rewrite find_first_of_app by exact Ht.
  apply substring_prefix.
Qed.

Lemma substr_from_token (t r : string) :
  no_space t ->
  substr_from (t ++ String Ascii.Space r)
    (after_space (find_first_of Ascii.Space (t ++ String Ascii.Space r)))
  = r.
Proof.
  intros Ht. rewrite find_first_of_app by exact Ht.
  unfold substr_from, after_space.
  rewrite length_append. simpl String.length.
  replace (String.length t + S (String.length r) - S (String.length t))%nat
    with (String.length r) by lia.
  change (S (String.length t))
    with (String.length (String Ascii.Space t)).
  replace (t ++ String Ascii.Space r)%string
    with ((t ++ String Ascii.Space EmptyString) ++ r)%string.
  - replace (String.length (String Ascii.Space t))
      with (String.length (t ++ String Ascii.Space EmptyString)).
    + rewrite substring_suffix. apply substring_all.
    + rewrite length_append. simpl. lia.
  - induction t as [|a t IH]; simpl; [reflexivity|].
    rewrite IH; [reflexivity|].
    unfold no_space in *. simpl in Ht.
    destruct (Ascii.eqb a Ascii.Space); [discriminate|].
    destruct (find_first_of Ascii.Space t); [discriminate|reflexivity].
Qed.

Lemma substr_last_token (t : string) :
  no_space t ->
  substr_to t (find_first_of Ascii.Space t) = t /\
  substr_from t (after_space (find_first_of Ascii.Space t)) = t.
Proof.
  unfold no_space. intros ->. split; [reflexivity|].
  unfold substr_from, after_space. rewrite Nat.sub_0_r.
  apply substring_all.
Qed.

Lemma eqb_token_spaced (prev t r : string) :
  no_space prev -> no_space t ->
  String.eqb prev (t ++ String Ascii.Space r) = false.
Proof.
  intros Hp Ht. apply String.eqb_neq. intros ->.
  unfold no_space in Hp. rewrite find_first_of_app in Hp by exact Ht.
  discriminate.
Qed.

(** Splitting a string at its spaces and joining the tokens again. *)
Lemma split_spaces_cons (s : string) :
  exists t ts, split_spaces s = t :: ts.
Proof.
  destruct s as [|a s]; simpl; [eauto|].
  destruct (Ascii.eqb a Ascii.Space); [eauto|].
  destruct (split_spaces s); eauto.
Qed.

Lemma concat_cons (t t' : string) (ts : list string) :
  String.concat " " (t :: t' :: ts)
  = (t ++ String Ascii.Space (String.concat " " (t' :: ts)))%string.
Proof. reflexivity. Qed.

Lemma split_spaces_spec (s : string) :
  Forall no_space (split_spaces s) /\
  String.concat " " (split_spaces s) = s.
Proof.
  induction s as [|a s IH]; simpl.
  - split; [repeat constructor|reflexivity].
  - destruct IH as [IH1 IH2].
    destruct (split_spaces_cons s) as (t & ts & E).
    rewrite E in IH1, IH2. rewrite E.
    destruct (Ascii.eqb a Ascii.Space) eqn:Ha.
    + apply Ascii.eqb_eq in Ha. subst a. split.
      * constructor; [reflexivity|exact IH1].
      * rewrite concat_cons, IH2. reflexivity.
    + apply Forall_cons in IH1 as [Ht Hts]. split.
      * constructor; [|exact Hts].
        unfold no_space in *. simpl. rewrite Ha, Ht. reflexivity.
      * destruct ts as [|t' ts].
        -- simpl in *. now rewrite IH2.
        -- rewrite <- IH2. reflexivity.
Qed.

Lemma length_tokens (ts : list string) :
  (length ts <= S (String.length (String.concat " " ts)))%nat.
Proof.
  induction ts as [|t ts IH]; [simpl; lia|].
  destruct ts as [|t' ts]; [simpl; lia|].
  rewrite concat_cons, length_append.
  change (length (t :: t' :: ts)) with (S (length (t' :: ts))).
  change (String.length (String Ascii.Space (String.concat " " (t' :: ts))))
    with (S (String.length (String.concat " " (t' :: ts)))).
  lia.
Qed.

Section PoseLoop.
Variable stod : string -> option double.

(** The loop on a string of tokens: it stops at the first test that finds
    the token equal to what is left of the string, which can only be the
    last token. *)
Lemma pose_loop_tokens (ts : list string) :
  forall (prev : string) (pose : list double) (fuel : nat),
  ts <> [] -> Forall no_space ts -> no_space prev ->
  (length ts < fuel)%nat ->
  pose_loop stod fuel prev (String.concat " " ts) pose
  = Some (match mapM stod (pushed_tokens prev ts) with
          | Some vs => inr (pose ++ vs)
          | None => inl StodThrows
          end).
Proof.
  induction ts as [|t ts IH]; intros prev pose fuel Hne Hts Hp Hf;
    [congruence|].
  inversion Hts as [|? ? Ht Hts']; subst.
  destruct fuel as [|fuel]; [simpl in Hf; lia|].
  destruct ts as [|t' ts].
  - simpl. destruct (String.eqb prev t) eqn:E.
    + simpl. now rewrite app_nil_r.
    + destruct (substr_last_token t Ht) as [-> ->].
      simpl. destruct (stod t) as [v|]; [|reflexivity].
      destruct fuel as [|fuel]; [simpl in Hf; lia|].
      simpl. rewrite String.eqb_refl. reflexivity.
  - rewrite concat_cons.
    cbn [pose_loop]. rewrite eqb_token_spaced by assumption.
    rewrite substr_to_token, substr_from_token by assumption.
    change (pushed_tokens prev (t :: t' :: ts))
      with (t :: pushed_tokens t (t' :: ts)).
    change (mapM stod (t :: pushed_tokens t (t' :: ts)))
      with (v ← stod t; vs ← mapM stod (pushed_tokens t (t' :: ts));
            Some (v :: vs)).
    destruct (stod t) as [v|]; [|reflexivity].
    rewrite IH; [|discriminate|assumption|assumption|simpl in Hf |- *; lia].
    destruct (mapM stod (pushed_tokens t (t' :: ts))) as [vs|];
      [|reflexivity].
    cbn [mbind option_bind]. now rewrite <- app_assoc.
Qed.

(** The vector of a string of tokens. *)
Lemma pose_of_tokens (ts : list string) :
  ts <> [] -> Forall no_space ts ->
  pose_of stod (String.concat " " ts)
  = Some (match mapM stod (pushed_tokens EmptyString ts) with
          | Some vs => inr vs
          | None => inl StodThrows
          end).
Proof.
  intros Hne Hts. unfold pose_of. rewrite pose_loop_tokens.
  - reflexivity.
  - exact Hne.
  - exact Hts.
  - reflexivity.
  - pose proof (length_tokens ts). lia.
Qed.

(** X1.  The loop of Load ends on every string: it converts the tokens
    between the spaces in order, and leaves the last one out when it
    repeats the token before it. *)
Theorem pose_of_every_string (s : string) :
  pose_of stod s
  = Some (match mapM stod (pushed_tokens EmptyString (split_spaces s)) with
          | Some vs => inr vs
          | None => inl StodThrows
          end).
Proof.
  destruct (split_spaces_spec s) as [Hts Hs].
  destruct (split_spaces_cons s) as (t & ts & E).
  rewrite <- Hs at 1. apply pose_of_tokens; [|exact Hts].
  rewrite E. discriminate.
Qed.

Variable Get_double : string -> double.
Variable Get_int : string -> Z.
Variable Get_bool : string -> bool.
Variable EulerToQuaternion : double -> double -> double -> Quaternion double.
Variable DepthCameraPlugin_Load : Sdf -> Config * Topics -> Config * Topics.
Variable GazeboRosCameraUtils_Load :
  Sdf -> Config * Topics -> Config * Topics.

(** Six tokens whose last two differ: the transform is made of the six
    numbers. *)
Lemma pose_transform_six (t1 t2 t3 t4 t5 t6 : string)
  (x y z roll pitch yaw : double) :
  Forall no_space [t1; t2; t3; t4; t5; t6] ->
  stod t1 = Some x -> stod t2 = Some y -> stod t3 = Some z ->
  stod t4 = Some roll -> stod t5 = Some pitch -> stod t6 = Some yaw ->
  pose_transform stod EulerToQuaternion
    (String.concat " " [t1; t2; t3; t4; t5; t6])
  = Some (if String.eqb t5 t6 then inl PoseOutOfRange
          else inr {| translation := (x, y, z);
                      rotation := EulerToQuaternion roll pitch yaw |}).
Proof.
  intros Hts H1 H2 H3 H4 H5 H6. unfold pose_transform.
  rewrite pose_of_tokens by (discriminate || exact Hts).
  cbn [pushed_tokens]. destruct (String.eqb t5 t6);
    cbn [mapM]; rewrite H1, H2, H3, H4, H5, ?H6; reflexivity.
Qed.

(** X2.  Load of a pose of six numbers: the translation and the Euler angles
    are the numbers in order, provided the last two are written
    differently. *)
Theorem Load_pose_of_six_numbers (_sdf : Sdf) (s : Config * Topics)
  (t1 t2 t3 t4 t5 t6 : string) (x y z roll pitch yaw : double) :
  _sdf "cameraFrameToPointCloudFrame"%string
  = Some (String.concat " " [t1; t2; t3; t4; t5; t6]) ->
  Forall no_space [t1; t2; t3; t4; t5; t6] ->
  stod t1 = Some x -> stod t2 = Some y -> stod t3 = Some z ->
  stod t4 = Some roll -> stod t5 = Some pitch -> stod t6 = Some yaw ->
  t5 <> t6 ->
  exists c t,
    Load stod Get_double Get_int Get_bool EulerToQuaternion
      DepthCameraPlugin_Load GazeboRosCameraUtils_Load true _sdf s
    = Some (inr (GazeboRosCameraUtils_Load _sdf (c, t))) /\
    tf_ t = {| translation := (x, y, z);
               rotation := EulerToQuaternion roll pitch yaw |}.
Proof.
  intros Hsdf Hts H1 H2 H3 H4 H5 H6 Hne. unfold Load.
  destruct (DepthCameraPlugin_Load _sdf s) as [c t].
  unfold HasElement, Get_string. rewrite Hsdf.
  cbn [negb default from_option id Datatypes.id].
  rewrite (pose_transform_six _ _ _ _ _ _ _ _ _ _ _ _ Hts H1 H2 H3 H4 H5 H6).
  apply String.eqb_neq in Hne. rewrite Hne.
  eexists _, _. split; reflexivity.
Qed.

(** X3.  Load of a pose of six numbers whose last two are written alike, as in
    "0 0 0 0 0 0": the loop stops after five numbers and [pose[5]] is
    read past the end of the vector. *)
Theorem Load_pose_repeated_last_number (_sdf : Sdf) (s : Config * Topics)
  (t1 t2 t3 t4 t5 : string) (x y z roll pitch : double) :
  _sdf "cameraFrameToPointCloudFrame"%string
  = Some (String.concat " " [t1; t2; t3; t4; t5; t5]) ->
  Forall no_space [t1; t2; t3; t4; t5] ->
  stod t1 = Some x -> stod t2 = Some y -> stod t3 = Some z ->
  stod t4 = Some roll -> stod t5 = Some pitch ->
  pose_of stod (String.concat " " [t1; t2; t3; t4; t5; t5])
  = Some (inr [x; y; z; roll; pitch]) /\
  Load stod Get_double Get_int Get_bool EulerToQuaternion
    DepthCameraPlugin_Load GazeboRosCameraUtils_Load true _sdf s
  = Some (inl PoseOutOfRange).
Proof.
  intros Hsdf Hts H1 H2 H3 H4 H5.
  assert (Hts' : Forall no_space [t1; t2; t3; t4; t5; t5]).
  { repeat (apply Forall_cons in Hts as [? Hts]).
    repeat (constructor; [assumption|]). constructor. }
  split.
  - rewrite pose_of_tokens by (discriminate || exact Hts').
    cbn [pushed_tokens]. rewrite String.eqb_refl.
    cbn [mapM]. rewrite H1, H2, H3, H4, H5. reflexivity.
  - unfold Load. destruct (DepthCameraPlugin_Load _sdf s) as [c t].
    unfold HasElement, Get_string. rewrite Hsdf.
    cbn [negb default from_option id Datatypes.id].
    rewrite (pose_transform_six _ _ _ _ _ _ _ _ _ _ _ pitch
               Hts' H1 H2 H3 H4 H5 H5).
    rewrite String.eqb_refl. reflexivity.
Qed.

End PoseLoop.

Lemma Load_pose_of_six_numbers_witness :
  exists c t,
    Load stod_small (fun _ => d_zero) (fun _ => 0) (fun _ => false)
      keep_angles (fun _ s => s) (fun _ s => s) true
      (pose_sdf "1 2 0 0 1 2") (example_config 2 2, example_topics)
    = Some (inr (c, t)) /\
    tf_ t = {| translation := (Z2d 1, Z2d 2, d_zero);
               rotation := keep_angles d_zero (Z2d 1) (Z2d 2) |}.
Proof.
  destruct (Load_pose_of_six_numbers stod_small (fun _ => d_zero)
              (fun _ => 0) (fun _ => false) keep_angles
              (fun _ s => s) (fun _ s => s)
              (pose_sdf "1 2 0 0 1 2") (example_config 2 2, example_topics)
              "1" "2" "0" "0" "1" "2"
              (Z2d 1) (Z2d 2) d_zero d_zero (Z2d 1) (Z2d 2))
    as (c & t & E & Et);
    try reflexivity; [repeat constructor|discriminate|].
  exists c, t. split; [exact E|exact Et].
Defined.

Lemma Load_pose_repeated_last_number_witness :
  pose_of stod_small "0 0 0 0 0 0"
  = Some (inr [d_zero; d_zero; d_zero; d_zero; d_zero]) /\
  Load stod_small (fun _ => d_zero) (fun _ => 0) (fun _ => false)
    keep_angles (fun _ s => s) (fun _ s => s) true
    (pose_sdf "0 0 0 0 0 0") (example_config 2 2, example_topics)
  = Some (inl PoseOutOfRange).
Proof.
  apply (Load_pose_repeated_last_number stod_small (fun _ => d_zero)
           (fun _ => 0) (fun _ => false) keep_angles
           (fun _ s => s) (fun _ s => s)
           (pose_sdf "0 0 0 0 0 0") (example_config 2 2, example_topics)
           "0" "0" "0" "0" "0" d_zero d_zero d_zero d_zero d_zero);
    try reflexivity.
  repeat constructor.
Defined.

(** ** Sequences of callbacks *)

Section Sequences.
Context {T : Type} {tfs : TfScalar T}.
Variable tan : double -> double.
Variable atan2 : double -> double -> double.
Variable doTransform : PointCloud2 -> PointCloud2.
Variable doTransformRGB : RGBCloud -> PointCloud2.
Variable PutCameraData : list Z -> State -> State.

(** One callback moves the counter of its output by one and the shared
    image counter with the point cloud, reflectance and normals
    counters. *)
Lemma run_callback_counters (cb : Callback) (st : State) (k : OutputKind) :
  let c := counters st in
  let c' := counters (run_callback (T := T) cb st).1 in
  own_count k c' = own_count k c + subscription k cb /\
  image_connect_count_ c'
  = image_connect_count_ c + subscription KPointCloud cb
    + subscription KReflectance cb + subscription KNormals cb.
Proof.
  destruct cb as [k'|k']; destruct k'; destruct k;
    cbv [run_callback onSubscribe onUnsubscribe PointCloudConnect
         PointCloudDisconnect ReflectanceConnect ReflectanceDisconnect
         NormalsConnect NormalsDisconnect DepthImageConnect
         DepthImageDisconnect DepthInfoConnect DepthInfoDisconnect
         subscription kind_eqb own_count];
    repeat match goal with
           | |- context [if ?b then _ else _] => destruct b
           end;
    cbn; lia.
Qed.

Lemma run_callbacks_counters (cbs : list Callback) :
  forall (st : State) (k : OutputKind),
  let c := counters st in
  let c' := counters (run_callbacks (T := T) cbs st).1 in
  own_count k c' = own_count k c + subscribers k cbs /\
  image_connect_count_ c'
  = image_connect_count_ c + subscribers KPointCloud cbs
    + subscribers KReflectance cbs + subscribers KNormals cbs.
Proof.
  induction cbs as [|cb cbs IH]; intros st k; cbn zeta.
  - simpl. lia.
  - cbn [run_callbacks].
    pose proof (run_callback_counters cb st k) as Hcb. cbn zeta in Hcb.
    destruct (run_callback (T := T) cb st) as [st1 ev1].
    specialize (IH st1 k). cbn zeta in IH.
    destruct (run_callbacks (T := T) cbs st1) as [st2 ev2].
    cbn [fst] in *. unfold subscribers in *. cbn [foldr]. lia.
Qed.

(** X4.  Counters of a new object: after any sequence of subscriber
    callbacks every counter of the class is the number of subscribers of
    its output, those that came less those that went, and the shared
    image counter has moved by the subscribers of the point cloud, the
    reflectance image and the normals. *)
Theorem counters_count_subscribers (st : State) (cbs : list Callback)
  (k : OutputKind) :
  own_count k
    (counters (run_callbacks (T := T) cbs (GazeboRosDepthCamera st)).1)
  = subscribers k cbs /\
  image_connect_count_
    (counters (run_callbacks (T := T) cbs (GazeboRosDepthCamera st)).1)
  = image_connect_count_ (counters st) + subscribers KPointCloud cbs
    + subscribers KReflectance cbs + subscribers KNormals cbs.
Proof.
  destruct (run_callbacks_counters cbs (GazeboRosDepthCamera st) k)
    as [H1 H2].
  cbn zeta in H1, H2. rewrite H1, H2. destruct k; simpl; lia.
Qed.

(** A ready, inactive sensor with a depth image subscriber and no point
    cloud subscriber stays as it is under depth frames. *)
Lemma run_depth_frames_inactive (frames : list (list float)) :
  forall st : State,
  not_ready st = false ->
  IsActive (parentSensor st) = false ->
  point_cloud_connect_count_ (counters st) <= 0 ->
  0 < depth_image_connect_count_ (counters st) ->
  exists st',
    run_depth_frames (T := T) tan atan2 doTransform frames st
    = Some (st', []) /\
    IsActive (parentSensor st') = false.
Proof.
  induction frames as [|image frames IH]; intros st Hr Ha Hpc Hdi.
  - exists st. split; [reflexivity|exact Ha].
  - cbn [run_depth_frames]. unfold OnNewDepthFrame. rewrite Hr.
    cbn [set_depth_sensor_update_time parentSensor counters]. rewrite Ha.
    replace (0 <? point_cloud_connect_count_ (counters st)) with false
      by (symmetry; apply Z.ltb_ge; lia).
    replace (depth_image_connect_count_ (counters st) <=? 0) with false
      by (symmetry; apply Z.leb_gt; lia).
    cbn [orb mbind option_bind].
    destruct (IH (set_depth_sensor_update_time
                    (LastMeasurementTime (parentSensor st)) st))
      as (st' & E & Ha'); try assumption.
    rewrite E. exists st'. split; [reflexivity|exact Ha'].
Qed.

(** X5.  Starvation of the depth image: when the last point cloud subscriber
    leaves while depth image subscribers remain, the handler switches the
    sensor off, and no sequence of depth frames switches it on again or
    publishes anything. *)
Theorem depth_image_starved_after_point_cloud_leaves (st : State)
  (frames : list (list float)) :
  not_ready st = false ->
  point_cloud_connect_count_ (counters st) <= 1 ->
  0 < depth_image_connect_count_ (counters st) ->
  (PointCloudDisconnect (T := T) st).2 = [EvSetActive false] /\
  exists st',
    run_depth_frames (T := T) tan atan2 doTransform frames
      (PointCloudDisconnect (T := T) st).1
    = Some (st', []) /\
    IsActive (parentSensor st') = false.
Proof.
  intros Hr Hpc Hdi. unfold PointCloudDisconnect.
  cbn [point_cloud_connect_count_].
  replace (point_cloud_connect_count_ (counters st) - 1 <=? 0) with true
    by (symmetry; apply Z.leb_le; lia).
  split; [reflexivity|].
  apply run_depth_frames_inactive; cbn; try assumption; lia.
Qed.

(** X6.  The frame callbacks leave the subscriber counters and the
    configuration alone. *)
Theorem frame_callbacks_keep_counters (st st' : State) (ev : list (Event T))
  (depth pcd normals reflectance : list float) (w h : Z) :
  OnNewDepthFrame tan atan2 doTransform st depth = Some (st', ev)
  \/ OnNewRGBPointCloud doTransformRGB st pcd w h = Some (st', ev)
  \/ OnNewReflectanceFrame st reflectance w h = Some (st', ev)
  \/ OnNewNormalsFrame st normals w h = Some (st', ev) ->
  counters st' = counters st /\ config st' = config st.
Proof.
  intros [E|[E|[E|E]]].
  - unfold OnNewDepthFrame, FillPointdCloud, FillDepthImage,
      FillPointCloudHelper in E.
    repeat match type of E with
           | context [if ?b then _ else _] => destruct b
           | context [for_loop ?n ?k ?f ?s] => destruct (for_loop n k f s)
           | context [FillDepthImageHelper ?a ?b ?c ?d ?e] =>
               destruct (FillDepthImageHelper a b c d e)
           | _ => progress cbn [mbind option_bind] in E
           end;
      inversion E; subst; split; reflexivity.
  - unfold OnNewRGBPointCloud in E.
    repeat match type of E with
           | context [if ?b then _ else _] => destruct b
           | context [memcpy ?a ?b ?c] => destruct (memcpy a b c)
           | context [for_loop ?n ?k ?f ?s] =>
               destruct (for_loop n k f s) as [[? ?]|]
           | _ => progress cbn [mbind option_bind] in E
           end;
      inversion E; subst; split; reflexivity.
  - unfold OnNewReflectanceFrame in E.
    repeat match type of E with
           | context [if ?b then _ else _] => destruct b
           end;
      inversion E; subst; split; reflexivity.
  - unfold OnNewNormalsFrame in E.
    repeat match type of E with
           | context [if ?b then _ else _] => destruct b
           | context [pcd_ ?s] => destruct (pcd_ s)
           | context [normals_markers ?a ?b ?c ?d ?e] =>
               destruct (normals_markers a b c d e)
           | _ => progress cbn [mbind option_bind] in E
           end;
      inversion E; subst; split; reflexivity.
Qed.

(** X7.  While the sensor is inactive the depth, RGB point cloud, image and
    normals callbacks publish nothing: the most they do is to ask for the
    sensor to be switched on, and the cached grid and the messages stay
    as they are. *)
Theorem inactive_callbacks_publish_nothing (st st' : State)
  (ev : list (Event T)) (depth pcd normals : list float) (color : list Z)
  (w h : Z) :
  IsActive (parentSensor st) = false ->
  OnNewDepthFrame tan atan2 doTransform st depth = Some (st', ev)
  \/ OnNewRGBPointCloud doTransformRGB st pcd w h = Some (st', ev)
  \/ OnNewImageFrame PutCameraData st color = Some (st', ev)
  \/ OnNewNormalsFrame st normals w h = Some (st', ev) ->
  (ev = [] \/ ev = [EvSetActive true]) /\
  pcd_ st' = pcd_ st /\
  point_cloud_msg_ st' = point_cloud_msg_ st /\
  depth_image_msg_ st' = depth_image_msg_ st.
Proof.
  intros Ha [E|[E|[E|E]]].
  - unfold OnNewDepthFrame in E.
    cbn [set_depth_sensor_update_time parentSensor counters] in E.
    rewrite Ha in E.
    repeat match type of E with
           | context [if ?b then _ else _] => destruct b
           end;
      inversion E; subst; repeat split; auto.
  - unfold OnNewRGBPointCloud in E.
    cbn [set_depth_sensor_update_time parentSensor counters] in E.
    rewrite Ha in E. cbn [negb] in E.
    repeat match type of E with
           | context [if ?b then _ else _] => destruct b
           end;
      inversion E; subst; repeat split; auto.
  - unfold OnNewImageFrame in E.
    cbn [set_sensor_update_time parentSensor counters] in E.
    rewrite Ha in E. cbn [negb] in E.
    repeat match type of E with
           | context [if ?b then _ else _] => destruct b
           end;
      inversion E; subst; repeat split; auto.
  - unfold OnNewNormalsFrame in E. rewrite Ha in E. cbn [negb] in E.
    repeat match type of E with
           | context [if ?b then _ else _] => destruct b
           end;
      inversion E; subst; repeat split; auto.
Qed.

End Sequences.

Lemma depth_image_starved_after_point_cloud_leaves_witness :
  (PointCloudDisconnect (T := double) cloud_and_image_state).2
  = [EvSetActive false] /\
  exists st',
    run_depth_frames (T := double) tan_at_zero atan2_at_zero (fun m => m)
      [scenario_grid; scenario_grid]
      (PointCloudDisconnect (T := double) cloud_and_image_state).1
    = Some (st', []) /\
    IsActive (parentSensor st') = false.
Proof.
  apply (depth_image_starved_after_point_cloud_leaves (T := double)
           tan_at_zero atan2_at_zero (fun m => m) cloud_and_image_state
           [scenario_grid; scenario_grid]).
  - reflexivity.
  - simpl. lia.
  - simpl. lia.
Defined.

Lemma frame_callbacks_keep_counters_witness :
  exists st' ev,
    OnNewDepthFrame (T := double) tan_at_zero atan2_at_zero (fun m => m)
      cloud_and_image_state scenario_grid = Some (st', ev) /\
    counters st' = counters cloud_and_image_state /\
    config st' = config cloud_and_image_state.
Proof.
  destruct (OnNewDepthFrame (T := double) tan_at_zero atan2_at_zero
              (fun m => m) cloud_and_image_state scenario_grid)
    as [[st' ev]|] eqn:E.
  - exists st', ev. split; [reflexivity|].
    apply (frame_callbacks_keep_counters (tfs := example_scalar)
             tan_at_zero atan2_at_zero (fun m => m)
             (fun _ => example_cloud) cloud_and_image_state st' ev
             scenario_grid [] [] [] 2 2).
    left. exact E.
  - vm_compute in E. discriminate.
Defined.

Lemma inactive_callbacks_publish_nothing_witness :
  exists st' ev,
    OnNewNormalsFrame (tfs := example_scalar) depth_only_state
      scenario_normals 2 2 = Some (st', ev) /\
    (ev = [] \/ ev = [EvSetActive true]) /\
    pcd_ st' = pcd_ depth_only_state /\
    point_cloud_msg_ st' = point_cloud_msg_ depth_only_state /\
    depth_image_msg_ st' = depth_image_msg_ depth_only_state.
Proof.
  destruct (OnNewNormalsFrame (tfs := example_scalar) depth_only_state
              scenario_normals 2 2) as [[st' ev]|] eqn:E.
  - exists st', ev. split; [reflexivity|].
    apply (inactive_callbacks_publish_nothing (tfs := example_scalar)
             tan_at_zero atan2_at_zero (fun m => m)
             (fun _ => example_cloud) (fun _ st => st)
             depth_only_state st' ev [] [] scenario_normals [] 2 2);
      [reflexivity|].
    right. right. right. exact E.
  - vm_compute in E. discriminate.
Defined.

(** ** More on the point cloud helper *)

(** A loop that returns has kept every invariant its body keeps. *)
Lemma for_loop_post {St : Type} (P : Z -> St -> Prop)
  (body : Z -> St -> option St) (n : nat) :
  forall (k : Z) (s s' : St),
  for_loop n k body s = Some s' ->
  P k s ->
  (forall i t t', k <= i < k + Z.of_nat n ->
     body i t = Some t' -> P i t -> P (i + 1) t') ->
  P (k + Z.of_nat n) s'.
Proof.
  induction n as [|n IH]; intros k s s' E HP Hstep.
  - simpl in E. inversion E; subst. now rewrite Z.add_0_r.
  - cbn [for_loop] in E. destruct (body k s) as [t|] eqn:Eb;
      [|discriminate].
    cbn [mbind option_bind] in E.
    replace (k + Z.of_nat (S n)) with (k + 1 + Z.of_nat n) by lia.
    apply (IH (k + 1) t s' E).
    + apply (Hstep k s t); [lia|exact Eb|exact HP].
    + intros i u u' Hi. apply Hstep. lia.
Qed.

Lemma write_Some {A} (a a' : list A) (i : Z) (v : A) :
  write a i v = Some a' ->
  0 <= i < Z.of_nat (length a) /\ length a' = length a.
Proof.
  unfold write. destruct (0 <=? i) eqn:E1; [|discriminate].
  destruct (i <? Z.of_nat (length a)) eqn:E2; [|discriminate].
  cbn [andb]. intros E. inversion E; subst.
  rewrite length_insert. apply Z.leb_le in E1. apply Z.ltb_lt in E2.
  split; [lia|reflexivity].
Qed.

Lemma read_Some_lt {A} (a : list A) (i : Z) (x : A) :
  read a i = Some x -> 0 <= i < Z.of_nat (length a).
Proof.
  intros E. apply read_lookup in E as [Hi E].
  apply lookup_lt_Some in E. lia.
Qed.

Section PointCloudMore.
Variable tan : double -> double.
Variable atan2 : double -> double -> double.

(** What one pixel needs in order to return. *)
Lemma pc_pixel_needs st rows cols fl data j pAngle i s s' :
  0 <= j * cols + i -> 4 * (j * cols + i) + 4 <= 2 ^ 32 ->
  pc_pixel tan atan2 st rows cols fl data j pAngle i s = Some s' ->
  lp_index s < Z.of_nat (length data) /\
  4 * (j * cols + i) + 4 <= Z.of_nat (length (lp_pcd s)) /\
  lp_index s' = lp_index s + 1 /\
  length (lp_pcd s') = length (lp_pcd s) /\
  image_msg_data st <> [].
Proof.
  intros H0 H32 E. unfold pc_pixel in E.
  destruct (read data (lp_index s)) as [d|] eqn:Ed; [|discriminate].
  cbn [mbind option_bind] in E.
  destruct (int_succ (lp_index s)) as [nx|] eqn:En; [|discriminate].
  cbn [mbind option_bind] in E.
  apply int_succ_Some in En as [_ ->].
  rewrite (wrap32_small (j * cols + i)) in E by lia.
  rewrite !wrap32_small in E by lia.
  repeat match type of E with
         | context [write ?a ?k ?v] =>
             let W := fresh "W" in
             destruct (write a k v) eqn:W; [|discriminate];
             cbn [mbind option_bind] in E;
             apply write_Some in W
         end.
  destruct (fused_color _ _ _ _ _) as [[[r g] b]|] eqn:Ec; [|discriminate].
  assert (Himg : image_msg_data st <> []).
  { intros Eimg. rewrite Eimg, fused_color_empty in Ec. discriminate. }
  cbn [mbind option_bind] in E.
  destruct (write (lp_points s) _ _); [|discriminate].
  cbn [mbind option_bind] in E. inversion E; subst; cbn.
  apply read_Some_lt in Ed.
  repeat match goal with H : _ /\ _ |- _ => destruct H end.
  repeat split; try lia. exact Himg.
Qed.

Lemma FillPointCloudHelper_needs st msg rows cols data r :
  0 <= rows -> 0 <= cols -> 4 * (rows * cols) < 2 ^ 32 ->
  FillPointCloudHelper tan atan2 st msg rows cols data = Some r ->
  frame_ok st rows cols data.
Proof.
  intros Hr Hc H32 E. unfold FillPointCloudHelper in E.
  set (p0 := pcd_or_new st rows cols) in E.
  destruct (for_loop _ _ _ _) as [s|] eqn:El; [|discriminate].
  pose (P := fun (k : Z) (s : PcLoop) =>
               lp_index s = k /\ k <= Z.of_nat (length data) /\
               length (lp_pcd s) = length p0 /\
               (0 < k -> 4 * k <= Z.of_nat (length p0)) /\
               (0 < k -> image_msg_data st <> [])).
  assert (HP : P (0 + Z.of_nat (Z.to_nat rows) * cols) s).
  { apply (for_loop_post (fun j s => P (j * cols) s)
             (pc_row tan atan2 st rows cols (focal_length tan st) data)
             (Z.to_nat rows) 0 _ s El).
    - unfold P. cbn. repeat split; lia.
    - intros j t t' Hj Eb HPj. unfold pc_row in Eb.
      replace ((j + 1) * cols) with (j * cols + Z.of_nat (Z.to_nat cols))
        by lia.
      apply (for_loop_post (fun i s => P (j * cols + i) s)
               (pc_pixel tan atan2 st rows cols (focal_length tan st) data j
                  (pixel_angle atan2 (focal_length tan st) rows j))
               (Z.to_nat cols) 0 _ _ Eb).
      + now rewrite Z.add_0_r.
      + intros i u u' Hi Eu (Hu1 & Hu2 & Hu3 & Hu4 & Hu5).
        assert (j * cols + i < rows * cols) by nia.
        apply pc_pixel_needs in Eu as (Hn1 & Hn2 & Hn3 & Hn4 & Hn5);
          try nia.
        unfold P. rewrite Hn3, Hn4, Hu1. rewrite Hu3 in Hn2.
        repeat split; try lia. intros _. exact Hn5. }
  rewrite Z2Nat.id in HP by lia. destruct HP as (_ & HL & _ & Hp & Himg).
  unfold frame_ok.
  do 4 (split; [lia |]). split.
  - subst p0. unfold pcd_or_new in Hp.
    destruct (pcd_ st) as [p|]; [|exact I].
    destruct (Z.eq_dec (rows * cols) 0) as [->|]; [lia|].
    apply Hp. nia.
  - intros Hpix. apply Himg. lia.
Qed.

(** X8.  The projection of a pixel above the cutoff: x and y are the depth
    times the tangent of the angle of the column and of the row, computed
    in double precision and rounded to float; the cached grid holds the
    same two values and a zero in its fourth slot. *)
Theorem FillPointCloudHelper_projection st msg rows cols data j i d :
  frame_ok st rows cols data ->
  0 <= j < rows -> 0 <= i < cols ->
  read data (j * cols + i) = Some d ->
  dgt (f2d d) (point_cloud_cutoff_ (config st)) = true ->
  exists st' msg' p pcd',
    FillPointCloudHelper tan atan2 st msg rows cols data = Some (st', msg') /\
    read (pc_points msg') (j * cols + i) = Some p /\
    pt_x p = d2f (dmul (f2d d)
                    (tan (pixel_angle atan2 (focal_length tan st) cols i))) /\
    pt_y p = d2f (dmul (f2d d)
                    (tan (pixel_angle atan2 (focal_length tan st) rows j))) /\
    pcd_ st' = Some pcd' /\
    read pcd' (4 * (j * cols + i)) = Some (pt_x p) /\
    read pcd' (4 * (j * cols + i) + 1) = Some (pt_y p) /\
    read pcd' (4 * (j * cols + i) + 3) = Some float_zero.
Proof.
  intros Hok Hj Hi Hd Hv.
  destruct (FillPointCloudHelper_pixel tan atan2 st msg rows cols data j i d
              Hok Hj Hi Hd) as (st' & msg' & pcd' & E & Hp & _ & Hpt & Hq).
  exists st', msg', (pixel_point tan atan2 st rows cols j i d), pcd'.
  assert (Hvalid : pixel_valid st d = true) by exact Hv.
  pose proof (Hq 0 ltac:(lia)) as Hq0. rewrite Z.add_0_r in Hq0.
  pose proof (Hq 1 ltac:(lia)) as Hq1.
  pose proof (Hq 3 ltac:(lia)) as Hq3.
  unfold pixel_quad in Hq0, Hq1, Hq3.
  repeat split; try assumption.
  - unfold pixel_point. cbn [pt_x]. now rewrite Hvalid.
  - unfold pixel_point. cbn [pt_y]. now rewrite Hvalid.
Qed.

(** X9.  The dense flag and the size of the cloud: the cloud has a point per
    pixel, and it is dense exactly when every sample exceeds the
    cutoff. *)
Theorem FillPointCloudHelper_dense_iff st msg rows cols data :
  frame_ok st rows cols data ->
  exists st' msg',
    FillPointCloudHelper tan atan2 st msg rows cols data = Some (st', msg') /\
    Z.of_nat (length (pc_points msg')) = rows * cols /\
    pc_header msg' = pc_header msg /\
    (pc_is_dense msg' = true <->
     forall k e, 0 <= k < rows * cols -> read data k = Some e ->
       dgt (f2d e) (point_cloud_cutoff_ (config st)) = true).
Proof.
  intros Hok. pose proof Hok as (Hr & Hc & H32 & HL & _).
  rewrite (FillPointCloudHelper_spec tan atan2 st msg rows cols data Hok).
  eexists _, _. split; [reflexivity|]. cbn [pc_points pc_is_dense pc_header].
  rewrite length_frame_points. repeat split; [nia| |].
  - intros Hdense k e Hk He.
    destruct (dgt (f2d e) (point_cloud_cutoff_ (config st))) eqn:Hv;
      [reflexivity|].
    rewrite (frame_dense_false st data (rows * cols) k e Hk He Hv)
      in Hdense.
    discriminate.
  - intros Hall. apply frame_dense_true; [nia|exact Hall].
Qed.

(** X10.  The cached grid is allocated once: a grid cached earlier keeps its
    length and everything past the pixels of the frame, a new one holds
    four floats per pixel, and nothing else of the plugin changes. *)
Theorem FillPointCloudHelper_cache st msg rows cols data :
  frame_ok st rows cols data ->
  exists msg' pcd',
    FillPointCloudHelper tan atan2 st msg rows cols data
    = Some (set_pcd (Some pcd') st, msg') /\
    (pcd_ st = None -> Z.of_nat (length pcd') = 4 * (rows * cols)) /\
    (forall p, pcd_ st = Some p ->
       length pcd' = length p /\
       drop (Z.to_nat (4 * (rows * cols))) pcd'
       = drop (Z.to_nat (4 * (rows * cols))) p).
Proof.
  intros Hok. pose proof Hok as (Hr & Hc & H32 & HL & Hp).
  rewrite (FillPointCloudHelper_spec tan atan2 st msg rows cols data Hok).
  eexists _, _. split; [reflexivity|].
  assert (Hn : 0 <= rows * cols) by nia.
  pose proof (length_frame_pcd tan atan2 st rows cols data (rows * cols) Hn)
    as Hlen.
  split.
  - intros Hnone. unfold pcd_or_new. rewrite Hnone.
    rewrite length_app, length_drop, length_replicate.
    rewrite wrap32_small by lia. lia.
  - intros p Hsome. unfold pcd_or_new. rewrite Hsome in *. split.
    + rewrite length_app, length_drop. lia.
    + rewrite drop_app_length'; [reflexivity|lia].
Qed.

(** X11.  On a frame of at least one pixel, the helper returns exactly when
    the frame holds a sample for every pixel, a grid cached earlier has
    room for every pixel and the colour buffer is not empty; otherwise
    it reads or writes past the end of one of them. *)
Theorem FillPointCloudHelper_returns_iff st msg rows cols data :
  0 < rows -> 0 < cols -> 4 * (rows * cols) < 2 ^ 32 ->
  is_Some (FillPointCloudHelper tan atan2 st msg rows cols data) <->
  rows * cols <= Z.of_nat (length data) /\
  (forall p, pcd_ st = Some p -> 4 * (rows * cols) <= Z.of_nat (length p)) /\
  image_msg_data st <> [].
Proof.
  intros Hr Hc H32. split.
  - intros [r E].
    apply FillPointCloudHelper_needs in E as (_ & _ & _ & HL & Hp & Himg);
      try lia.
    split; [exact HL|]. split; [|apply Himg; nia].
    intros p Hsome. now rewrite Hsome in Hp.
  - intros (HL & Hp & Himg).
    assert (Hok : frame_ok st rows cols data).
    { unfold frame_ok. do 4 (split; [lia |]).
      split; [|intros _; exact Himg].
      destruct (pcd_ st) as [p|]; [now apply Hp|exact I]. }
    rewrite (FillPointCloudHelper_spec tan atan2 st msg rows cols data Hok).
    eexists. reflexivity.
Qed.

(** X12.  The helper is idempotent: run again on the same frame, it returns
    the same cloud and leaves the cached grid as the first run left
    it. *)
Theorem FillPointCloudHelper_idempotent st msg rows cols data :
  frame_ok st rows cols data ->
  exists st' msg',
    FillPointCloudHelper tan atan2 st msg rows cols data = Some (st', msg') /\
    FillPointCloudHelper tan atan2 st' msg rows cols data
    = Some (st', msg').
Proof.
  intros Hok. pose proof Hok as (Hr & Hc & H32 & HL & Hp & Himg).
  assert (Hn : 0 <= rows * cols) by nia.
  pose proof (length_frame_pcd tan atan2 st rows cols data (rows * cols) Hn)
    as Hlen.
  pose proof (length_pcd_or_new st rows cols data Hok) as Hnew.
  rewrite (FillPointCloudHelper_spec tan atan2 st msg rows cols data Hok).
  set (pcd' := frame_pcd tan atan2 st rows cols data (rows * cols) ++ _).
  set (st' := set_pcd (Some pcd') st).
  eexists _, _. split; [reflexivity|].
  assert (Hok' : frame_ok st' rows cols data).
  { unfold frame_ok. do 4 (split; [assumption |]).
    split; [| exact Himg].
    cbn [st' pcd_ set_pcd]. unfold pcd'.
    rewrite length_app, length_drop. lia. }
  rewrite (FillPointCloudHelper_spec tan atan2 st' msg rows cols data Hok').
  change (frame_pcd tan atan2 st' rows cols data (rows * cols))
    with (frame_pcd tan atan2 st rows cols data (rows * cols)).
  change (frame_points tan atan2 st' rows cols data (rows * cols))
    with (frame_points tan atan2 st rows cols data (rows * cols)).
  change (frame_dense st' data (rows * cols))
    with (frame_dense st data (rows * cols)).
  change (pcd_or_new st' rows cols) with pcd'.
  assert (Hd : drop (Z.to_nat (4 * (rows * cols))) pcd'
               = drop (Z.to_nat (4 * (rows * cols)))
                   (pcd_or_new st rows cols)).
  { unfold pcd'. rewrite drop_app_length'; [reflexivity|lia]. }
  rewrite Hd. reflexivity.
Qed.

End PointCloudMore.

Lemma FillPointCloudHelper_projection_witness :
  exists st' msg' p pcd',
    FillPointCloudHelper tan_at_zero atan2_at_zero scenario_state
      example_cloud 2 2 scenario_grid = Some (st', msg') /\
    read (pc_points msg') (1 * 2 + 0) = Some p /\
    pt_x p = d2f (dmul (f2d f_0_5)
                    (tan_at_zero
                       (pixel_angle atan2_at_zero
                          (focal_length tan_at_zero scenario_state) 2 0))) /\
    pt_y p = d2f (dmul (f2d f_0_5)
                    (tan_at_zero
                       (pixel_angle atan2_at_zero
                          (focal_length tan_at_zero scenario_state) 2 1))) /\
    pcd_ st' = Some pcd' /\
    read pcd' (4 * (1 * 2 + 0)) = Some (pt_x p) /\
    read pcd' (4 * (1 * 2 + 0) + 1) = Some (pt_y p) /\
    read pcd' (4 * (1 * 2 + 0) + 3) = Some float_zero.
Proof.
  apply (FillPointCloudHelper_projection tan_at_zero atan2_at_zero
           scenario_state example_cloud 2 2 scenario_grid 1 0 f_0_5
           scenario_frame_ok); [lia|lia|reflexivity|reflexivity].
Defined.

Lemma FillPointCloudHelper_dense_iff_witness :
  exists st' msg',
    FillPointCloudHelper tan_at_zero atan2_at_zero scenario_state
      example_cloud 2 2 scenario_grid = Some (st', msg') /\
    Z.of_nat (length (pc_points msg')) = 2 * 2 /\
    pc_header msg' = pc_header example_cloud /\
    (pc_is_dense msg' = true <->
     forall k e, 0 <= k < 2 * 2 -> read scenario_grid k = Some e ->
       dgt (f2d e) (point_cloud_cutoff_ (config scenario_state)) = true).
Proof.
  exact (FillPointCloudHelper_dense_iff tan_at_zero atan2_at_zero
           scenario_state example_cloud 2 2 scenario_grid scenario_frame_ok).
Defined.

Lemma FillPointCloudHelper_cache_witness :
  exists msg' pcd',
    FillPointCloudHelper tan_at_zero atan2_at_zero scenario_state
      example_cloud 2 2 scenario_grid
    = Some (set_pcd (Some pcd') scenario_state, msg') /\
    (pcd_ scenario_state = None -> Z.of_nat (length pcd') = 4 * (2 * 2)) /\
    (forall p, pcd_ scenario_state = Some p ->
       length pcd' = length p /\
       drop (Z.to_nat (4 * (2 * 2))) pcd' = drop (Z.to_nat (4 * (2 * 2))) p).
Proof.
  exact (FillPointCloudHelper_cache tan_at_zero atan2_at_zero
           scenario_state example_cloud 2 2 scenario_grid scenario_frame_ok).
Defined.

Lemma FillPointCloudHelper_returns_iff_witness :
  is_Some (FillPointCloudHelper tan_at_zero atan2_at_zero scenario_state
             example_cloud 2 2 [f_0_5; f_0_3; f_0_5]) <->
  2 * 2 <= Z.of_nat (length [f_0_5; f_0_3; f_0_5]) /\
  (forall p, pcd_ scenario_state = Some p ->
     4 * (2 * 2) <= Z.of_nat (length p)) /\
  image_msg_data scenario_state <> [].
Proof.
  apply (FillPointCloudHelper_returns_iff tan_at_zero atan2_at_zero
           scenario_state example_cloud 2 2 [f_0_5; f_0_3; f_0_5]); lia.
Defined.

Lemma FillPointCloudHelper_idempotent_witness :
  exists st' msg',
    FillPointCloudHelper tan_at_zero atan2_at_zero scenario_state
      example_cloud 2 2 scenario_grid = Some (st', msg') /\
    FillPointCloudHelper tan_at_zero atan2_at_zero st' example_cloud 2 2
      scenario_grid = Some (st', msg').
Proof.
  exact (FillPointCloudHelper_idempotent tan_at_zero atan2_at_zero
           scenario_state example_cloud 2 2 scenario_grid
           scenario_frame_ok).
Defined.

(** ** More on the depth raster *)

(** What one sample needs in order to be stored. *)
Lemma di_pixel_needs (st : State) (cols : Z) (data : list float)
  (j i idx : Z) (dest : Raster) (s' : Z * Raster) :
  di_pixel st cols data j i (idx, dest) = Some s' ->
  s'.1 = idx + 1 /\ idx < 2 ^ 31 - 1 /\
  exists depth,
    read data idx = Some depth /\
    (use_depth_image_16UC1_format_ (config st) = true ->
     is_Some (encode16 (point_cloud_cutoff_ (config st)) depth)).
Proof.
  unfold di_pixel. intros E.
  destruct (read data idx) as [depth|] eqn:Ed; [|discriminate].
  cbn [mbind option_bind] in E.
  destruct (int_succ idx) as [nx|] eqn:En; [|discriminate].
  cbn [mbind option_bind] in E.
  apply int_succ_Some in En as [Hmax ->].
  destruct (use_depth_image_16UC1_format_ (config st)); cbn [negb] in E.
  - destruct (encode16 _ depth) as [v|] eqn:Ev; [|discriminate].
    cbn [mbind option_bind] in E.
    destruct (raster_write16 _ _ _); [|discriminate].
    inversion E; subst. split; [reflexivity|]. split; [exact Hmax|].
    exists depth. split; [reflexivity|]. intros _. now exists v.
  - destruct (raster_write32 _ _ _); [|discriminate].
    inversion E; subst. split; [reflexivity|]. split; [exact Hmax|].
    exists depth. split; [reflexivity|]. discriminate.
Qed.

Lemma FillDepthImageHelper_needs (st : State) (msg : Image) (rows cols : Z)
  (data : list float) (img : Image) :
  0 <= rows -> 0 <= cols ->
  FillDepthImageHelper st msg rows cols data = Some img ->
  (rows * cols <= Z.of_nat (length data) /\
   (use_depth_image_16UC1_format_ (config st) = true ->
    forall k e, 0 <= k < rows * cols -> read data k = Some e ->
      is_Some (encode16 (point_cloud_cutoff_ (config st)) e))) /\
  wrap32 (rows * cols) <> 0 /\ rows * cols < 2 ^ 31.
Proof.
  intros Hr Hc E. unfold FillDepthImageHelper in E.
  destruct (wrap32 (rows * cols) =? 0) eqn:E0; [discriminate|].
  apply Z.eqb_neq in E0.
  destruct (for_loop _ _ _ _) as [s|] eqn:El; [|discriminate].
  pose (P := fun (k : Z) (s : Z * Raster) =>
               s.1 = k /\ k <= Z.of_nat (length data) /\
               (use_depth_image_16UC1_format_ (config st) = true ->
                forall k' e, 0 <= k' < k -> read data k' = Some e ->
                  is_Some (encode16 (point_cloud_cutoff_ (config st)) e)) /\
               k < 2 ^ 31).
  assert (HP : P (0 + Z.of_nat (Z.to_nat rows) * cols) s).
  { apply (for_loop_post (fun j s => P (j * cols) s) _
             (Z.to_nat rows) 0 _ s El).
    - unfold P. cbn. repeat split; lia.
    - intros j t t' Hj Eb HPj.
      replace ((j + 1) * cols) with (j * cols + Z.of_nat (Z.to_nat cols))
        by lia.
      apply (for_loop_post (fun i s => P (j * cols + i) s) _
               (Z.to_nat cols) 0 _ _ Eb).
      + now rewrite Z.add_0_r.
      + intros i [idx dest] u' Hi Eu (Hu1 & Hu2 & Hu3 & Hu4).
        cbn [fst] in Hu1. subst idx.
        apply di_pixel_needs in Eu as (Hn1 & Hmax & depth & Hn2 & Hn3).
        pose proof (read_Some_lt _ _ _ Hn2) as Hlt.
        unfold P. split; [lia|]. split; [lia|]. split; [|lia].
        intros H16 k' e Hk' He.
        destruct (Z.eq_dec k' (j * cols + i)) as [->|Hne].
        * rewrite Hn2 in He. inversion He; subst. now apply Hn3.
        * apply (Hu3 H16 k' e); [lia|exact He]. }
  rewrite Z2Nat.id in HP by lia. destruct HP as (_ & HL & H16 & Hmax).
  split; [|split; [exact E0|lia]].
  split; [lia|]. intros Hfmt k e Hk. apply H16; [exact Hfmt|lia].
Qed.

(** The 16-bit conversion of an infinite sample, or of a sample of
    65.536 and more, is undefined. *)
Lemma encode16_undefined (cutoff : double) (d : float) :
  is_float d = true ->
  dgt (f2d d) cutoff = true ->
  is_finite d = false \/ (65536 <= SF2Q d * 1000)%Q ->
  encode16 cutoff d = None.
Proof.
  intros Hfl Hgt Hbig. destruct d as [s|s| |s m e].
  - destruct Hbig as [Hbig|Hbig]; [discriminate|].
    unfold SF2Q, float_scaled, Qle in Hbig. simpl in Hbig. lia.
  - unfold encode16. rewrite Hgt. rewrite d_thousand_eq.
    destruct s; reflexivity.
  - unfold dgt, SFltb, f2d in Hgt. destruct cutoff; discriminate.
  - destruct Hbig as [Hbig|Hbig]; [discriminate|].
    destruct (f2d_finite s m e Hfl) as (_ & _ & _ & _ & He).
    destruct (shiftl_thousand_scaled m e ltac:(lia)) as [Hsc Htr].
    rewrite (encode16_above cutoff s m e Hfl Hgt). cbv zeta.
    unfold SF2Q, float_scaled in Hbig. rewrite Htr. rewrite Hsc in Hbig.
    set (X := Zpos m * 2 ^ (e + 149)) in *.
    assert (HX : 0 < X) by (unfold X; apply Z.mul_pos_pos; lia).
    set (P := (2 ^ 149)%positive) in *.
    assert (HP : Zpos P = 2 ^ 149) by reflexivity.
    rewrite <- HP.
    assert (Hb : 65536 * Zpos P <= 1000 * cond_Zopp s X).
    { revert Hbig. unfold Qle, Qmult. simpl. lia. }
    destruct s; simpl in Hb; [lia|]. simpl.
    assert (65536 <= 1000 * X / Zpos P)
      by (apply Z.div_le_lower_bound; lia).
    destruct (0 <=? 1000 * X / Zpos P); [|reflexivity].
    destruct (1000 * X / Zpos P <=? 65535) eqn:E2; [|reflexivity].
    apply Z.leb_le in E2. lia.
Qed.

(** X13.  The fields of the depth image: the helper sets the size, the byte
    order, the encoding and the row step of the selected format, keeps
    the header, and stores one element per pixel. *)
Theorem FillDepthImageHelper_layout (st : State) (msg : Image)
  (rows cols : Z) (data : list float) (img : Image) :
  0 <= rows -> 0 <= cols -> rows * cols < 2 ^ 32 ->
  FillDepthImageHelper st msg rows cols data = Some img ->
  im_header img = im_header msg /\
  im_height img = rows /\ im_width img = cols /\
  im_is_bigendian img = 0 /\
  (use_depth_image_16UC1_format_ (config st) = false ->
   im_encoding img = TYPE_32FC1 /\ im_step img = wrap32 (4 * cols) /\
   exists px, im_data img = Raster32 px /\
              Z.of_nat (length px) = rows * cols) /\
  (use_depth_image_16UC1_format_ (config st) = true ->
   im_encoding img = TYPE_16UC1 /\ im_step img = wrap32 (2 * cols) /\
   exists px, im_data img = Raster16 px /\
              Z.of_nat (length px) = rows * cols).
Proof.
  intros Hr Hc H32 E.
  destruct (FillDepthImageHelper_needs st msg rows cols data img Hr Hc E)
    as ([HL H16] & Hne & Hmax).
  assert (Hpix : 0 < rows * cols).
  { rewrite wrap32_small in Hne by nia. nia. }
  assert (Hok : raster_ok rows cols data)
    by (unfold raster_ok; repeat split; try assumption; lia).
  destruct (FillDepthImageHelper_spec st msg rows cols data Hok H16)
    as (img' & E' & _ & Hdata).
  rewrite E in E'. inversion E'; subst img'. clear E'.
  cbn [snd] in Hdata. rewrite Z.sub_diag in Hdata. cbn [Z.to_nat] in Hdata.
  unfold FillDepthImageHelper in E.
  destruct (wrap32 (rows * cols) =? 0); [discriminate|].
  destruct (for_loop _ _ _ _) as [[idx dest]|]; [|discriminate].
  cbn [mbind option_bind] in E. inversion E; subst img. clear E.
  cbn [im_header im_height im_width im_is_bigendian im_encoding im_step
       im_data] in *.
  assert (Hn : 0 <= rows * cols <= Z.of_nat (length data)) by nia.
  do 4 (split; [reflexivity|]).
  split; intros Hfmt; rewrite Hfmt in *; cbn [negb] in *.
  - repeat split. eexists. split; [exact Hdata|].
    rewrite length_app, length_fmap, length_take. simpl. lia.
  - destruct Hdata as (done & Hdone & Hdest).
    repeat split. eexists. split; [exact Hdest|].
    apply Forall2_length in Hdone.
    rewrite length_app, <- Hdone, length_take. simpl. lia.
Qed.

(** X14.  The float raster: every pixel holds its sample, or NaN where the
    sample does not exceed the cutoff; a frame whose samples all exceed
    the cutoff is copied as it is. *)
Theorem FillDepthImageHelper_float_raster (st : State) (msg : Image)
  (rows cols : Z) (data : list float) :
  raster_ok rows cols data ->
  use_depth_image_16UC1_format_ (config st) = false ->
  exists img,
    FillDepthImageHelper st msg rows cols data = Some img /\
    im_data img
    = Raster32 (encode32 (point_cloud_cutoff_ (config st))
                  <$> take (Z.to_nat (rows * cols)) data) /\
    ((forall k e, 0 <= k < rows * cols -> read data k = Some e ->
        dgt (f2d e) (point_cloud_cutoff_ (config st)) = true) ->
     im_data img = Raster32 (take (Z.to_nat (rows * cols)) data)).
Proof.
  intros Hok Hfmt. pose proof Hok as (Hr & Hc & H32 & HL).
  destruct (FillDepthImageHelper_spec st msg rows cols data Hok)
    as (img & E & _ & Hdata); [rewrite Hfmt; discriminate|].
  exists img. split; [exact E|].
  cbn [snd] in Hdata. rewrite Hfmt, Z.sub_diag in Hdata.
  cbn [negb Z.to_nat replicate] in Hdata. rewrite app_nil_r in Hdata.
  split; [exact Hdata|]. intros Hall. rewrite Hdata. f_equal.
  rewrite <- (list_fmap_id (take _ data)) at 2.
  apply Forall_fmap_ext, Forall_forall. intros e He.
  apply list_elem_of_lookup in He as [n He].
  pose proof (lookup_lt_Some _ _ _ He) as Hlt.
  rewrite length_take in Hlt. rewrite lookup_take_lt in He by lia.
  unfold encode32. rewrite (Hall (Z.of_nat n) e); [reflexivity|nia|].
  unfold read. rewrite Nat2Z.id.
  destruct (0 <=? Z.of_nat n) eqn:E0; [exact He|].
  apply Z.leb_gt in E0. lia.
Qed.

(** X15.  The helper returns exactly when the frame has a pixel, so that
    the raster is not empty, fewer than 2^31 of them, so that the [int]
    sample index does not overflow, a sample for every pixel and, in the
    16-bit format, a defined conversion for every sample. *)
Theorem FillDepthImageHelper_returns_iff (st : State) (msg : Image)
  (rows cols : Z) (data : list float) :
  0 <= rows -> 0 <= cols -> rows * cols < 2 ^ 32 ->
  is_Some (FillDepthImageHelper st msg rows cols data) <->
  0 < rows * cols < 2 ^ 31 /\
  rows * cols <= Z.of_nat (length data) /\
  (use_depth_image_16UC1_format_ (config st) = true ->
   forall k e, 0 <= k < rows * cols -> read data k = Some e ->
     is_Some (encode16 (point_cloud_cutoff_ (config st)) e)).
Proof.
  intros Hr Hc H32. split.
  - intros [img E].
    destruct (FillDepthImageHelper_needs st msg _ _ _ img Hr Hc E)
      as ([HL H16] & Hne & Hmax).
    rewrite wrap32_small in Hne by nia.
    split; [nia|]. split; [exact HL|exact H16].
  - intros (Hpix & HL & H16).
    assert (Hok : raster_ok rows cols data)
      by (unfold raster_ok; repeat split; try assumption; lia).
    destruct (FillDepthImageHelper_spec st msg rows cols data Hok H16)
      as (img & E & _).
    now exists img.
Qed.

(** X16.  The 16-bit format cannot hold an infinite sample or a depth of
    65.536 and more: with such a sample above the cutoff in the frame the
    conversion to [uint16_t] is undefined. *)
Theorem FillDepthImageHelper_16UC1_out_of_range (st : State) (msg : Image)
  (rows cols : Z) (data : list float) (k : Z) (d : float) :
  0 <= rows -> 0 <= cols ->
  use_depth_image_16UC1_format_ (config st) = true ->
  0 <= k < rows * cols -> read data k = Some d ->
  is_float d = true ->
  dgt (f2d d) (point_cloud_cutoff_ (config st)) = true ->
  is_finite d = false \/ (65536 <= SF2Q d * 1000)%Q ->
  FillDepthImageHelper st msg rows cols data = None.
Proof.
  intros Hr Hc Hfmt Hk Hd Hfl Hgt Hbig.
  destruct (FillDepthImageHelper st msg rows cols data) as [img|] eqn:E;
    [|reflexivity].
  destruct (FillDepthImageHelper_needs st msg rows cols data img Hr Hc E)
    as ([_ H16] & _).
  destruct (H16 Hfmt k d Hk Hd) as [v Hv].
  rewrite (encode16_undefined _ d Hfl Hgt Hbig) in Hv. discriminate.
Qed.

Lemma scenario_raster_ok : raster_ok 2 2 scenario_grid.
Proof. unfold raster_ok. simpl. lia. Defined.

Lemma FillDepthImageHelper_layout_witness :
  exists img,
    FillDepthImageHelper scenario16_state example_image 2 2 scenario_grid
    = Some img /\
    im_height img = 2 /\ im_width img = 2 /\
    im_encoding img = TYPE_16UC1 /\ im_step img = wrap32 (2 * 2) /\
    exists px, im_data img = Raster16 px /\ Z.of_nat (length px) = 2 * 2.
Proof.
  destruct (FillDepthImageHelper scenario16_state example_image 2 2
              scenario_grid) as [img|] eqn:E.
  - destruct (FillDepthImageHelper_layout scenario16_state example_image
                2 2 scenario_grid img) as (_ & Hh & Hw & _ & _ & H16);
      [lia|lia|lia|exact E|].
    destruct (H16 eq_refl) as (He & Hs & Hpx).
    exists img. repeat split; assumption.
  - vm_compute in E. discriminate.
Defined.

Lemma FillDepthImageHelper_float_raster_witness :
  exists img,
    FillDepthImageHelper scenario_state example_image 2 2 scenario_grid
    = Some img /\
    im_data img
    = Raster32 (encode32 (point_cloud_cutoff_ (config scenario_state))
                  <$> take (Z.to_nat (2 * 2)) scenario_grid) /\
    ((forall k e, 0 <= k < 2 * 2 -> read scenario_grid k = Some e ->
        dgt (f2d e) (point_cloud_cutoff_ (config scenario_state)) = true) ->
     im_data img = Raster32 (take (Z.to_nat (2 * 2)) scenario_grid)).
Proof.
  apply (FillDepthImageHelper_float_raster scenario_state example_image
           2 2 scenario_grid scenario_raster_ok).
  reflexivity.
Defined.

Lemma FillDepthImageHelper_returns_iff_witness :
  is_Some (FillDepthImageHelper scenario16_state example_image 2 2
             [f_0_5; f_70]) <->
  0 < 2 * 2 < 2 ^ 31 /\
  2 * 2 <= Z.of_nat (length [f_0_5; f_70]) /\
  (use_depth_image_16UC1_format_ (config scenario16_state) = true ->
   forall k e, 0 <= k < 2 * 2 -> read [f_0_5; f_70] k = Some e ->
     is_Some (encode16 (point_cloud_cutoff_ (config scenario16_state)) e)).
Proof.
  apply (FillDepthImageHelper_returns_iff scenario16_state example_image
           2 2 [f_0_5; f_70]); lia.
Defined.

Lemma FillDepthImageHelper_16UC1_out_of_range_witness :
  FillDepthImageHelper scenario16_state example_image 1 2
    [f_0_5; S754_infinity false] = None /\
  FillDepthImageHelper scenario16_state example_image 1 2
    [f_0_5; f_70] = None.
Proof.
  split.
  - apply (FillDepthImageHelper_16UC1_out_of_range scenario16_state
             example_image 1 2 [f_0_5; S754_infinity false] 1
             (S754_infinity false)); try reflexivity; try lia.
    left. reflexivity.
  - apply (FillDepthImageHelper_16UC1_out_of_range scenario16_state
             example_image 1 2 [f_0_5; f_70] 1 f_70);
      try reflexivity; try lia.
    right. vm_compute. discriminate.
Defined.

(** ** What a depth frame publishes *)

Lemma FillDepthImageHelper_header (st : State) (msg img : Image)
  (rows cols : Z) (data : list float) :
  FillDepthImageHelper st msg rows cols data = Some img ->
  im_header img = im_header msg /\ im_height img = rows /\
  im_width img = cols.
Proof.
  unfold FillDepthImageHelper. intros E.
  destruct (wrap32 (rows * cols) =? 0); [discriminate|].
  destruct (for_loop _ _ _ _) as [[idx dest]|]; [|discriminate].
  inversion E; subst. repeat split.
Qed.

Section DepthFrame.
Context {T : Type}.
Variable tan : double -> double.
Variable atan2 : double -> double -> double.
Variable doTransform : PointCloud2 -> PointCloud2.

(** X17.  A depth frame of at least one pixel on an active sensor with
    subscribers: the point cloud is published when the point cloud or
    the normals have subscribers, then the depth image when it has
    subscribers, in this order; both carry the frame name and the time
    of the sensor's last measurement, and the sensor stays active. *)
Theorem OnNewDepthFrame_active_outputs (st : State) (image : list float) :
  not_ready st = false ->
  IsActive (parentSensor st) = true ->
  0 < point_cloud_connect_count_ (counters st)
  \/ 0 < depth_image_connect_count_ (counters st)
  \/ 0 < image_connect_count_ (counters st)
  \/ 0 < normals_connect_count_ (counters st) ->
  frame_ok st (height (config st)) (width (config st)) image ->
  0 < height (config st) * width (config st) ->
  (use_depth_image_16UC1_format_ (config st) = true ->
   forall k e, 0 <= k < height (config st) * width (config st) ->
     read image k = Some e ->
     is_Some (encode16 (point_cloud_cutoff_ (config st)) e)) ->
  exists st' clouds images,
    OnNewDepthFrame (T := T) tan atan2 doTransform st image
    = Some (st',
            ((fun c => EvPublishPointCloud (doTransform c)) <$> clouds)
            ++ (EvPublishDepthImage <$> images)) /\
    length clouds
    = (if (0 <? point_cloud_connect_count_ (counters st))
          || (0 <? normals_connect_count_ (counters st))
       then 1%nat else 0%nat) /\
    length images
    = (if 0 <? depth_image_connect_count_ (counters st)
       then 1%nat else 0%nat) /\
    Forall (fun c =>
              pc_header c
              = {| frame_id := frame_name_ (config st);
                   stamp := LastMeasurementTime (parentSensor st) |} /\
              Z.of_nat (length (pc_points c))
              = height (config st) * width (config st)) clouds /\
    Forall (fun img =>
              im_header img
              = {| frame_id := frame_name_ (config st);
                   stamp := LastMeasurementTime (parentSensor st) |} /\
              im_height img = height (config st) /\
              im_width img = width (config st)) images /\
    IsActive (parentSensor st') = true.
Proof.
  intros Hrdy Hact Hsub Hok Hpix H16.
  pose proof Hok as (Hr & Hc & H32 & HL & _).
  set (t := LastMeasurementTime (parentSensor st)).
  set (st0 := set_depth_sensor_update_time t st).
  set (h := height (config st)) in *. set (w := width (config st)) in *.
  assert (Hok0 : frame_ok st0 h w image) by exact Hok.
  assert (Hrok : raster_ok h w image) by (unfold raster_ok; lia).
  set (cloud0 := {| pc_header := depth_header st0; pc_is_dense := false;
                    pc_points := [] |}).
  pose proof (FillPointCloudHelper_spec tan atan2 st0 cloud0 h w image Hok0)
    as Hcloud.
  set (pcd' := frame_pcd tan atan2 st0 h w image (h * w) ++ _) in Hcloud.
  set (cloud := {| pc_header := pc_header cloud0; pc_is_dense := _;
                   pc_points := _ |}) in Hcloud.
  assert (Hlen : Z.of_nat (length (pc_points cloud)) = h * w).
  { unfold cloud. cbn [pc_points]. rewrite length_frame_points. nia. }
  assert (Hall : (point_cloud_connect_count_ (counters st) <=? 0)
                 && (depth_image_connect_count_ (counters st) <=? 0)
                 && (image_connect_count_ (counters st) <=? 0)
                 && (normals_connect_count_ (counters st) <=? 0) = false).
  { rewrite !andb_false_iff, !Z.leb_gt. tauto. }
  unfold OnNewDepthFrame. rewrite Hrdy. fold t. fold st0.
  change (IsActive (parentSensor st0)) with (IsActive (parentSensor st)).
  change (counters st0) with (counters st).
  rewrite Hact, Hall.
  destruct ((0 <? point_cloud_connect_count_ (counters st))
            || (0 <? normals_connect_count_ (counters st))) eqn:Hpc.
  - unfold FillPointdCloud. fold cloud0.
    change (height (config st0)) with h. change (width (config st0)) with w.
    rewrite Hcloud. cbn [mbind option_bind].
    set (st2 := set_point_cloud_msg (doTransform cloud) _).
    destruct (0 <? depth_image_connect_count_ (counters st)) eqn:Hdi.
    + unfold FillDepthImage.
      change (height (config st2)) with h.
      change (width (config st2)) with w.
      destruct (FillDepthImageHelper_spec st2
                  (with_header (depth_header st2) (depth_image_msg_ st2))
                  h w image Hrok H16) as (img & E & _).
      rewrite E. cbn [mbind option_bind].
      apply FillDepthImageHelper_header in E as (Eh & Eh' & Ew).
      exists (set_depth_image_msg img st2), [cloud], [img].
      split; [reflexivity|].
      repeat split; try assumption; repeat constructor; assumption.
    + exists st2, [cloud], []. split; [reflexivity|].
      repeat split; try assumption; repeat constructor; assumption.
  - destruct (0 <? depth_image_connect_count_ (counters st)) eqn:Hdi.
    + unfold FillDepthImage. cbn [mbind option_bind].
      change (height (config st0)) with h.
      change (width (config st0)) with w.
      destruct (FillDepthImageHelper_spec st0
                  (with_header (depth_header st0) (depth_image_msg_ st0))
                  h w image Hrok H16) as (img & E & _).
      rewrite E. cbn [mbind option_bind].
      apply FillDepthImageHelper_header in E as (Eh & Eh' & Ew).
      exists (set_depth_image_msg img st0), [], [img].
      split; [reflexivity|].
      repeat split; try assumption; repeat constructor; assumption.
    + exists st0, [], []. split; [reflexivity|].
      repeat split; try assumption; repeat constructor.
Qed.

End DepthFrame.

Lemma cloud_and_image_frame_ok :
  frame_ok cloud_and_image_state 2 2 scenario_grid.
Proof.
  unfold frame_ok. simpl. repeat (split; [lia |]). discriminate.
Defined.

Lemma OnNewDepthFrame_active_outputs_witness :
  exists st' clouds images,
    OnNewDepthFrame (T := double) tan_at_zero atan2_at_zero (fun m => m)
      cloud_and_image_state scenario_grid
    = Some (st',
            ((fun c => EvPublishPointCloud c) <$> clouds)
            ++ (EvPublishDepthImage <$> images)) /\
    length clouds = 1%nat /\ length images = 1%nat /\
    Forall (fun c =>
              pc_header c = example_header /\
              Z.of_nat (length (pc_points c)) = 2 * 2) clouds /\
    Forall (fun img =>
              im_header img = example_header /\
              im_height img = 2 /\ im_width img = 2) images /\
    IsActive (parentSensor st') = true.
Proof.
  apply (OnNewDepthFrame_active_outputs (T := double) tan_at_zero
           atan2_at_zero (fun m => m) cloud_and_image_state scenario_grid).
  - reflexivity.
  - reflexivity.
  - left. simpl. lia.
  - exact cloud_and_image_frame_ok.
  - simpl. lia.
  - discriminate.
Defined.

(** ** The RGB point cloud callback *)

(** The column-major visit, by position. *)
Lemma length_visit_column (W H i : Z) :
  0 <= H -> Z.of_nat (length (visit_column W H i)) = H.
Proof.
  intros HH. unfold visit_column. rewrite length_fmap, length_seqZ. lia.
Qed.

Lemma length_visit_prefix (W H : Z) (n : nat) :
  0 <= H ->
  Z.of_nat (length (seqZ 0 (Z.of_nat n) ≫= visit_column W H))
  = Z.of_nat n * H.
Proof.
  intros HH. induction n as [|n IH]; [reflexivity|].
  rewrite Nat2Z.inj_succ. unfold Z.succ.
  rewrite visit_order_S by lia.
  rewrite length_app, Nat2Z.inj_add, IH, length_visit_column by lia. lia.
Qed.

Lemma length_visit_order (W H : Z) :
  0 <= W -> 0 <= H -> Z.of_nat (length (visit_order W H)) = W * H.
Proof.
  intros HW HH. unfold visit_order.
  pose proof (length_visit_prefix W H (Z.to_nat W) HH) as Hlen.
  rewrite Z2Nat.id in Hlen by lia. exact Hlen.
Qed.



(** One pixel of the RGB frame. *)
Lemma rgb_pixel_step (_pcd : list float) (W H i j : Z) (visited : list Z)
  (s : Z * list PointXYZRGB) :
  0 <= W -> 0 <= H -> 4 * (W * H) < 2 ^ 32 ->
  4 * (W * H) <= Z.of_nat (length _pcd) ->
  0 <= i < W -> 0 <= j < H ->
  Z.of_nat (length visited) = i * H + j ->
  rgb_inv _pcd (W * H) visited s ->
  exists s', rgb_pixel _pcd W i j s = Some s' /\
             rgb_inv _pcd (W * H) (visited ++ [j * W + i]) s'.
Proof.
  intros HW HH H32 HL Hi Hj Hlen [Hit Hpts].
  destruct s as [iter points]. cbn [fst snd] in Hit, Hpts. subst iter.
  assert (Hk : 0 <= j * W + i < W * H) by nia.
  unfold rgb_pixel.
  rewrite (wrap32_small (j * W + i)) by lia.
  rewrite !wrap32_small by lia.
  set (k := j * W + i) in *.
  destruct (read_Some _pcd (4 * k)) as [x Hx]; [lia|].
  destruct (read_Some _pcd (4 * k + 1)) as [y Hy]; [lia|].
  destruct (read_Some _pcd (4 * k + 2)) as [z Hz]; [lia|].
  destruct (read_Some _pcd (4 * k + 3)) as [c Hc]; [lia|].
  rewrite Hx, Hy, Hz, Hc. cbn [mbind option_bind].
  assert (Hrest : Z.to_nat (W * H - Z.of_nat (length visited))
                  = S (Z.to_nat (W * H
                                 - Z.of_nat (length (visited ++ [k])))))
    by (rewrite length_app; simpl; nia).
  rewrite Hpts, Hrest. cbn [replicate].
  rewrite write_middle by (now rewrite length_fmap).
  cbn [mbind option_bind]. eexists. split; [reflexivity|].
  split; cbn [fst snd].
  - rewrite length_app. simpl. lia.
  - rewrite fmap_app, <- app_assoc. cbn [fmap list_fmap app].
    do 2 f_equal. unfold rgb_point_at, sample.
    now rewrite Hx, Hy, Hz, Hc.
Qed.

Lemma rgb_loops_spec (_pcd : list float) (W H : Z) :
  0 <= W -> 0 <= H -> 4 * (W * H) < 2 ^ 32 ->
  4 * (W * H) <= Z.of_nat (length _pcd) ->
  exists iter,
    for_loop (Z.to_nat W) 0
      (fun i => for_loop (Z.to_nat H) 0 (rgb_pixel _pcd W i))
      (0, replicate (Z.to_nat (wrap32 (W * H))) zero_rgb_point)
    = Some (iter, rgb_point_at _pcd <$> visit_order W H).
Proof.
  intros HW HH H32 HL.
  destruct (for_loop_inv
              (fun i s => rgb_inv _pcd (W * H)
                            (seqZ 0 i ≫= visit_column W H) s)
              (fun i => for_loop (Z.to_nat H) 0 (rgb_pixel _pcd W i))
              (Z.to_nat W) 0
              (0, replicate (Z.to_nat (wrap32 (W * H))) zero_rgb_point))
    as ([iter points] & Hl & Hit & Hpts).
  - split; cbn; [reflexivity|]. rewrite wrap32_small by nia.
    now rewrite Z.sub_0_r.
  - intros i s Hi Hinv.
    pose proof (length_visit_prefix W H (Z.to_nat i) ltac:(lia)) as Hlen.
    rewrite Z2Nat.id in Hlen by lia.
    destruct (for_loop_inv
                (fun j s => rgb_inv _pcd (W * H)
                              ((seqZ 0 i ≫= visit_column W H)
                               ++ ((fun j => j * W + i) <$> seqZ 0 j)) s)
                (rgb_pixel _pcd W i) (Z.to_nat H) 0 s) as (s' & Hl' & Hs').
    + simpl. now rewrite app_nil_r.
    + intros j t Hj Ht.
      destruct (rgb_pixel_step _pcd W H i j
                  ((seqZ 0 i ≫= visit_column W H)
                   ++ ((fun j => j * W + i) <$> seqZ 0 j))
                  t HW HH H32 HL ltac:(lia) ltac:(lia))
        as (t' & Hb & Ht').
      * rewrite length_app, length_fmap, length_seqZ. lia.
      * exact Ht.
      * exists t'. split; [exact Hb|].
        rewrite visit_column_S by lia. now rewrite app_assoc.
    + exists s'. split; [exact Hl'|].
      rewrite visit_order_S by lia. unfold visit_column at 2.
      now replace (0 + Z.of_nat (Z.to_nat H)) with H in Hs' by lia.
  - exists iter. rewrite Hl. cbn [fst snd] in Hit, Hpts.
    replace (0 + Z.of_nat (Z.to_nat W)) with W in Hpts by lia.
    fold (visit_order W H) in Hpts.
    rewrite length_visit_order, Z.sub_diag in Hpts by lia.
    cbn [Z.to_nat replicate] in Hpts. rewrite app_nil_r in Hpts.
    now rewrite Hpts.
Qed.

Lemma memcpy_frame (dst src : list float) (W H : Z) :
  0 <= W -> 0 <= H -> 4 * (W * H) < 2 ^ 32 ->
  4 * (W * H) <= Z.of_nat (length src) ->
  4 * (W * H) <= Z.of_nat (length dst) ->
  memcpy dst src (wrap64 (4 * W * H * 4) / 4)
  = Some (take (Z.to_nat (4 * (W * H))) src
          ++ drop (Z.to_nat (4 * (W * H))) dst).
Proof.
  intros HW HH H32 Hs Hd.
  assert (Hn : wrap64 (4 * W * H * 4) / 4 = 4 * (W * H)).
  { unfold wrap64. rewrite Z.mod_small by nia.
    replace (4 * W * H * 4) with (4 * (W * H) * 4) by ring.
    apply Z.div_mul. lia. }
  rewrite Hn. unfold memcpy.
  destruct (4 * (W * H) <=? Z.of_nat (length dst)) eqn:E1;
    [|apply Z.leb_gt in E1; lia].
  destruct (4 * (W * H) <=? Z.of_nat (length src)) eqn:E2;
    [|apply Z.leb_gt in E2; lia].
  reflexivity.
Qed.

Section RGBCallback.
Context {T : Type} {tfs : TfScalar T}.
Variable doTransformRGB : RGBCloud -> PointCloud2.

(** The callback on an active sensor with a subscriber, step by step. *)
Lemma OnNewRGBPointCloud_run (st : State) (_pcd : list float) (W H : Z) :
  not_ready st = false ->
  IsActive (parentSensor st) = true ->
  0 < point_cloud_connect_count_ (counters st)
  \/ 0 < normals_connect_count_ (counters st) ->
  0 <= W -> 0 <= H -> 4 * (W * H) < 2 ^ 32 ->
  4 * (W * H) <= Z.of_nat (length _pcd) ->
  (forall p, pcd_ st = Some p -> 4 * (W * H) <= Z.of_nat (length p)) ->
  let st0 := set_depth_sensor_update_time
               (LastMeasurementTime (parentSensor st)) st in
  let cloud := {| rc_header := depth_header st0; rc_is_dense := true;
                  rc_points := rgb_point_at _pcd <$> visit_order W H |} in
  let pcd' := take (Z.to_nat (4 * (W * H))) _pcd
              ++ drop (Z.to_nat (4 * (W * H))) (pcd_or_new st W H) in
  OnNewRGBPointCloud (T := T) doTransformRGB st _pcd W H
  = Some (set_point_cloud_msg (doTransformRGB cloud)
            (set_pcd (Some pcd') st0),
          [EvPublishPointCloud (doTransformRGB cloud)]) /\
  4 * (W * H) <= Z.of_nat (length (pcd_or_new st W H)).
Proof.
  intros Hrdy Hact Hsub HW HH H32 HL Hp. cbn zeta.
  pose proof (length_pcd_or_new_room st W H HW HH H32 Hp) as Hlen.
  split; [|exact Hlen].
  unfold OnNewRGBPointCloud. rewrite Hrdy.
  cbn [set_depth_sensor_update_time parentSensor counters].
  rewrite Hact. cbn [negb].
  replace ((0 <? point_cloud_connect_count_ (counters st))
           || (0 <? normals_connect_count_ (counters st))) with true
    by (symmetry; rewrite orb_true_iff, !Z.ltb_lt; exact Hsub).
  change (pcd_or_new (set_depth_sensor_update_time _ st) W H)
    with (pcd_or_new st W H).
  rewrite (memcpy_frame _ _pcd W H HW HH H32 HL Hlen).
  cbn [mbind option_bind].
  destruct (rgb_loops_spec _pcd W H HW HH H32 HL) as (iter & ->).
  reflexivity.
Qed.


(** X19.  The normals after an RGB point cloud frame: every marker stands at
    the point the frame holds for the pixel of its identifier. *)
Theorem normals_follow_rgb_cloud (st : State) (_pcd normals : list float)
  (W H : Z) :
  not_ready st = false ->
  IsActive (parentSensor st) = true ->
  0 < normals_connect_count_ (counters st) ->
  0 <= W -> 0 <= H -> 4 * (W * H) < 2 ^ 32 ->
  4 * (W * H) <= Z.of_nat (length _pcd) ->
  4 * (W * H) <= Z.of_nat (length normals) ->
  (forall p, pcd_ st = Some p -> 4 * (W * H) <= Z.of_nat (length p)) ->
  0 < reduce_normals_ (config st) < 2 ^ 32 ->
  exists st' ev (ms : list (Marker T)),
    OnNewRGBPointCloud (T := T) doTransformRGB st _pcd W H = Some (st', ev) /\
    OnNewNormalsFrame st' normals W H = Some (st', [EvPublishNormals ms]) /\
    Forall (fun m =>
              0 <= m_id m < W * H /\
              m_position m
              = (f2d (sample _pcd (4 * m_id m)),
                 f2d (sample _pcd (4 * m_id m + 1)),
                 f2d (sample _pcd (4 * m_id m + 2)))) ms.
Proof.
  intros Hrdy Hact Hsub HW HH H32 HL HLn Hp HN.
  destruct (OnNewRGBPointCloud_run st _pcd W H Hrdy Hact (or_intror Hsub)
              HW HH H32 HL Hp) as [E Hlen].
  cbn zeta in E.
  set (pcd' := take (Z.to_nat (4 * (W * H))) _pcd ++ _) in E.
  set (st' := set_point_cloud_msg _ _) in E.
  assert (Hlen' : 4 * (W * H) <= Z.of_nat (length pcd')).
  { unfold pcd'. rewrite length_app, length_take, length_drop. lia. }
  destruct (normals_markers_spec (T := T) st' normals pcd' W H HW HH H32
              HLn Hlen' HN) as (ms & Hms & Hall).
  eexists st', _, ms. split; [exact E|]. split.
  - unfold OnNewNormalsFrame.
    change (not_ready st') with (not_ready st).
    change (IsActive (parentSensor st')) with (IsActive (parentSensor st)).
    change (counters st') with (counters st).
    change (pcd_ st') with (Some pcd').
    rewrite Hrdy, Hact. cbn [negb].
    replace (0 <? normals_connect_count_ (counters st)) with true
      by (symmetry; apply Z.ltb_lt; exact Hsub).
    rewrite Hms. reflexivity.
  - assert (Hin : forall k,
              k ∈ filter (fun k => k mod reduce_normals_ (config st') = 0)
                    (visit_order W H) -> 0 <= k < W * H).
    { intros k Hk. apply list_elem_of_filter in Hk as [_ Hk].
      now apply elem_of_visit_order in Hk. }
    destruct (markers_of_ids st' normals pcd' (W * H) _ ms H32 HLn Hlen'
                Hin Hall) as [Hids Hpos].
    apply Forall_forall. intros m Hm.
    assert (Hid : 0 <= m_id m < W * H).
    { apply Hin. rewrite <- Hids. now apply list_elem_of_fmap_2. }
    split; [exact Hid|].
    rewrite Forall_forall in Hpos.
    destruct (Hpos m Hm) as (px & py & pz & Hx & Hy & Hz & ->).
    unfold pcd' in Hx, Hy, Hz.
    rewrite read_app_l in Hx, Hy, Hz by (rewrite length_take; lia).
    assert (Htake : forall i v,
              0 <= i < 4 * (W * H) ->
              read (take (Z.to_nat (4 * (W * H))) _pcd) i = Some v ->
              sample _pcd i = v).
    { intros i v Hi Hv. apply read_lookup in Hv as [_ Hv].
      apply lookup_take_Some in Hv as [Hv _].
      unfold sample, read. destruct (0 <=? i) eqn:E0;
        [|apply Z.leb_gt in E0; lia].
      now rewrite Hv. }
    rewrite (Htake (4 * m_id m) px ltac:(lia) Hx).
    rewrite (Htake (4 * m_id m + 1) py ltac:(lia) Hy).
    rewrite (Htake (4 * m_id m + 2) pz ltac:(lia) Hz).
    reflexivity.
Qed.

End RGBCallback.


Lemma normals_follow_rgb_cloud_witness :
  exists st' ev (ms : list (Marker double)),
    OnNewRGBPointCloud (T := double) (fun _ => example_cloud)
      cloud_and_normals_state scenario_pcd 2 2 = Some (st', ev) /\
    OnNewNormalsFrame (tfs := example_scalar) st' scenario_normals 2 2
    = Some (st', [EvPublishNormals ms]) /\
    Forall (fun m =>
              0 <= m_id m < 2 * 2 /\
              m_position m
              = (f2d (sample scenario_pcd (4 * m_id m)),
                 f2d (sample scenario_pcd (4 * m_id m + 1)),
                 f2d (sample scenario_pcd (4 * m_id m + 2)))) ms.
Proof.
  apply (normals_follow_rgb_cloud (tfs := example_scalar)
           (fun _ => example_cloud) cloud_and_normals_state scenario_pcd
           scenario_normals 2 2); try reflexivity; try (simpl; lia).
  discriminate.
Defined.

(** ** More on the normals visualizer *)

(** The multiples of [N] below [M]. *)
Lemma div_ceil_succ (N k : Z) :
  0 < N -> 0 <= k ->
  (k + 1 + N - 1) / N
  = (k + N - 1) / N + (if decide (k mod N = 0) then 1 else 0).
Proof.
  intros HN Hk.
  pose proof (Z.div_mod k N ltac:(lia)) as Hdm.
  pose proof (Z.mod_pos_bound k N HN) as Hb.
  set (q := k / N) in *. set (r := k mod N) in *.
  destruct (decide (r = 0)) as [Hr|Hr].
  - rewrite <- (Z.div_unique (k + 1 + N - 1) N (q + 1) 0) by lia.
    rewrite <- (Z.div_unique (k + N - 1) N q (N - 1)) by lia. lia.
  - rewrite <- (Z.div_unique (k + 1 + N - 1) N (q + 1) r) by lia.
    rewrite <- (Z.div_unique (k + N - 1) N (q + 1) (r - 1)) by lia. lia.
Qed.

Lemma count_multiples (N : Z) (n : nat) :
  0 < N ->
  Z.of_nat (length (filter (fun k => k mod N = 0) (seqZ 0 (Z.of_nat n))))
  = (Z.of_nat n + N - 1) / N.
Proof.
  intros HN. induction n as [|n IH].
  - simpl. symmetry. apply Z.div_small. lia.
  - rewrite Nat2Z.inj_succ. unfold Z.succ.
    rewrite seqZ_snoc by lia. rewrite filter_app, length_app.
    rewrite Nat2Z.inj_add, IH, div_ceil_succ by lia.
    f_equal. rewrite filter_cons, filter_nil.
    destruct (decide (Z.of_nat n mod N = 0)); reflexivity.
Qed.

Section NormalsMore.
Context {T : Type} {tfs : TfScalar T}.

(** X20.  The number of markers: one for every multiple of the stride among
    the flat indices, that is the number of pixels divided by the stride
    and rounded up. *)
Theorem OnNewNormalsFrame_marker_count (st : State)
  (normals pcd : list float) (W H : Z) :
  not_ready st = false ->
  IsActive (parentSensor st) = true ->
  0 < normals_connect_count_ (counters st) ->
  pcd_ st = Some pcd ->
  0 <= W -> 0 <= H -> 4 * (W * H) < 2 ^ 32 ->
  4 * (W * H) <= Z.of_nat (length normals) ->
  4 * (W * H) <= Z.of_nat (length pcd) ->
  0 < reduce_normals_ (config st) < 2 ^ 32 ->
  exists ms : list (Marker T),
    OnNewNormalsFrame st normals W H = Some (st, [EvPublishNormals ms]) /\
    Z.of_nat (length ms)
    = (W * H + reduce_normals_ (config st) - 1) / reduce_normals_ (config st).
Proof.
  intros Hrdy Hact Hcnt Hpcd HW HH Hov Hn Hp HN.
  destruct (normals_markers_spec st normals pcd W H HW HH Hov Hn Hp HN)
    as (ms & Hrun & Hms).
  exists ms. split.
  - unfold OnNewNormalsFrame. rewrite Hrdy, Hact, Hpcd. simpl.
    apply Z.ltb_lt in Hcnt. rewrite Hcnt, Hrun. reflexivity.
  - apply Forall2_length in Hms. rewrite <- Hms.
    rewrite (Permutation_length
               (filter_Permutation _ _ _ (visit_order_Permutation W H HW HH))).
    pose proof (count_multiples (reduce_normals_ (config st))
                  (Z.to_nat (W * H)) ltac:(lia)) as Hc.
    rewrite Z2Nat.id in Hc by nia. exact Hc.
Qed.

(** X21.  A stride of zero: the remainder [index % reduce_normals_] is
    undefined as soon as a pixel is visited. *)
Theorem OnNewNormalsFrame_zero_stride (st : State)
  (normals pcd : list float) (W H : Z) :
  not_ready st = false ->
  IsActive (parentSensor st) = true ->
  0 < normals_connect_count_ (counters st) ->
  pcd_ st = Some pcd ->
  0 < W -> 0 < H ->
  reduce_normals_ (config st) = 0 ->
  OnNewNormalsFrame st normals W H = None.
Proof.
  intros Hrdy Hact Hcnt Hpcd HW HH HN.
  unfold OnNewNormalsFrame. rewrite Hrdy, Hact, Hpcd. cbn [negb].
  apply Z.ltb_lt in Hcnt. rewrite Hcnt.
  unfold normals_markers.
  destruct (Z.to_nat W) as [|w] eqn:Ew; [lia|].
  destruct (Z.to_nat H) as [|h] eqn:Eh; [lia|].
  assert (Hpix : forall i j (ms : list (Marker T)),
            normals_pixel st normals pcd W i j ms = None)
    by (intros; unfold normals_pixel; rewrite HN; reflexivity).
  cbn [for_loop]. rewrite Hpix. reflexivity.
Qed.

End NormalsMore.

Section Markers.
Context {T : Type} {tfs : TfScalar T}.

(** A marker that was built, field by field. *)
Lemma make_marker_fields (st : State) (normals pcd : list float) (k : Z)
  (m : Marker T) :
  0 <= k -> 4 * k + 4 <= 2 ^ 32 ->
  make_marker st normals pcd k = Some m ->
  exists x y z px py pz,
    read normals (4 * k) = Some x /\ read normals (4 * k + 1) = Some y /\
    read normals (4 * k + 2) = Some z /\
    read pcd (4 * k) = Some px /\ read pcd (4 * k + 1) = Some py /\
    read pcd (4 * k + 2) = Some pz /\
    m_header m = depth_header st /\
    m_position m = (f2d px, f2d py, f2d pz) /\
    m_orientation m
    = marker_orientation {| vx := tf_of_float x; vy := tf_of_float y;
                            vz := tf_of_float z |}.
Proof.
  intros Hk Hov. unfold make_marker. rewrite !wrap32_small by lia.
  destruct (read normals (4 * k)) as [x|]; [|discriminate].
  destruct (read normals (4 * k + 1)) as [y|]; [|discriminate].
  destruct (read normals (4 * k + 2)) as [z|]; [|discriminate].
  destruct (read pcd (4 * k)) as [px|]; [|discriminate].
  destruct (read pcd (4 * k + 1)) as [py|]; [|discriminate].
  destruct (read pcd (4 * k + 2)) as [pz|]; [|discriminate].
  cbn [mbind option_bind]. intros E. inversion E; subst.
  exists x, y, z, px, py, pz. repeat split.
Qed.

(** The markers of a list of flat indices, one by one. *)
Lemma markers_built (st : State) (normals pcd : list float) (n : Z)
  (ks : list Z) (ms : list (Marker T)) :
  4 * n < 2 ^ 32 ->
  4 * n <= Z.of_nat (length normals) ->
  4 * n <= Z.of_nat (length pcd) ->
  (forall k, k ∈ ks -> 0 <= k < n) ->
  Forall2 (marker_of st normals pcd) ks ms ->
  Forall (fun m => 0 <= m_id m < n /\
                   make_marker st normals pcd (m_id m) = Some m) ms.
Proof.
  intros Hov Hn Hp Hin Hms.
  induction Hms as [|k m ks ms' Hkm Hrest IH]; [constructor|].
  assert (Hk : 0 <= k < n) by (apply Hin; left).
  destruct (make_marker_Some st normals pcd k)
    as (m' & px & py & pz & Hm' & Hid & _); try lia.
  unfold marker_of in Hkm. rewrite Hm' in Hkm. inversion Hkm; subst m'.
  constructor.
  - rewrite Hid. split; [exact Hk|exact Hm'].
  - apply IH. intros k' Hk'. apply Hin. now right.
Qed.

End Markers.

Section DoubleOrientation.
Variables sin cos acos : double -> double.

(** X22.  Normals along the reference axis, with [tfScalar = double]: a marker
    whose normal is (x, 0, 0) with x finite and not zero is published
    with an orientation of four NaN. *)
Theorem normals_along_reference_axis (st : State)
  (normals pcd : list float) (W H : Z) :
  not_ready st = false ->
  IsActive (parentSensor st) = true ->
  0 < normals_connect_count_ (counters st) ->
  pcd_ st = Some pcd ->
  0 <= W -> 0 <= H -> 4 * (W * H) < 2 ^ 32 ->
  4 * (W * H) <= Z.of_nat (length normals) ->
  4 * (W * H) <= Z.of_nat (length pcd) ->
  0 < reduce_normals_ (config st) < 2 ^ 32 ->
  exists ms : list (Marker double),
    OnNewNormalsFrame (tfs := TfScalar_double sin cos acos) st normals W H
    = Some (st, [EvPublishNormals ms]) /\
    Forall (fun m =>
              forall (s sy sz : bool) (mx : positive) (ex : Z),
                read normals (4 * m_id m) = Some (S754_finite s mx ex) ->
                is_float (S754_finite s mx ex) = true ->
                read normals (4 * m_id m + 1) = Some (S754_zero sy) ->
                read normals (4 * m_id m + 2) = Some (S754_zero sz) ->
                m_orientation m = q_nan) ms.
Proof.
  intros Hrdy Hact Hcnt Hpcd HW HH Hov Hn Hp HN.
  destruct (normals_markers_spec (tfs := TfScalar_double sin cos acos)
              st normals pcd W H HW HH Hov Hn Hp HN) as (ms & Hrun & Hms).
  exists ms. split.
  - unfold OnNewNormalsFrame. rewrite Hrdy, Hact, Hpcd. simpl.
    apply Z.ltb_lt in Hcnt. rewrite Hcnt, Hrun. reflexivity.
  - assert (Hin : forall k,
              k ∈ filter (fun k => k mod reduce_normals_ (config st) = 0)
                    (visit_order W H) -> 0 <= k < W * H).
    { intros k Hk. apply list_elem_of_filter in Hk as [_ Hk].
      now apply elem_of_visit_order in Hk. }
    pose proof (markers_built st normals pcd (W * H) _ ms Hov Hn Hp Hin Hms)
      as Hall.
    eapply Forall_impl; [exact Hall|].
    intros m [Hid Hm] s sy sz mx ex Hx Hfl Hy Hz.
    destruct (make_marker_fields st normals pcd (m_id m) m
                ltac:(lia) ltac:(lia) Hm)
      as (x & y & z & px & py & pz & Hx' & Hy' & Hz' & _ & _ & _ & _ & _
          & Ho).
    rewrite Hx in Hx'. rewrite Hy in Hy'. rewrite Hz in Hz'.
    inversion Hx'; inversion Hy'; inversion Hz'; subst x y z.
    rewrite Ho. cbn [tf_of_float TfScalar_double].
    destruct (f2d_finite s mx ex Hfl) as (k & -> & _).
    apply marker_orientation_along_reference.
Qed.

End DoubleOrientation.

Section DepthThenNormals.
Context {T : Type} {tfs : TfScalar T}.
Variable tan : double -> double.
Variable atan2 : double -> double -> double.
Variable doTransform : PointCloud2 -> PointCloud2.

(** What a depth frame leaves behind when it fills the point cloud. *)
Lemma OnNewDepthFrame_leaves (st : State) (image : list float) :
  not_ready st = false ->
  IsActive (parentSensor st) = true ->
  0 < point_cloud_connect_count_ (counters st)
  \/ 0 < normals_connect_count_ (counters st) ->
  frame_ok st (height (config st)) (width (config st)) image ->
  0 < height (config st) * width (config st) ->
  (use_depth_image_16UC1_format_ (config st) = true ->
   forall k e, 0 <= k < height (config st) * width (config st) ->
     read image k = Some e ->
     is_Some (encode16 (point_cloud_cutoff_ (config st)) e)) ->
  exists st' ev,
    OnNewDepthFrame (T := T) tan atan2 doTransform st image
    = Some (st', ev) /\
    config st' = config st /\ counters st' = counters st /\
    parentSensor st' = parentSensor st /\
    depth_sensor_update_time_ st' = LastMeasurementTime (parentSensor st) /\
    pcd_ st'
    = Some (frame_pcd tan atan2 st (height (config st)) (width (config st))
              image (height (config st) * width (config st))
            ++ drop (Z.to_nat (4 * (height (config st) * width (config st))))
                 (pcd_or_new st (height (config st)) (width (config st)))).
Proof.
  intros Hrdy Hact Hsub Hok Hpix H16.
  pose proof Hok as (Hr & Hc & H32 & HL & _).
  set (t := LastMeasurementTime (parentSensor st)).
  set (st0 := set_depth_sensor_update_time t st).
  set (h := height (config st)) in *. set (w := width (config st)) in *.
  assert (Hok0 : frame_ok st0 h w image) by exact Hok.
  assert (Hrok : raster_ok h w image) by (unfold raster_ok; lia).
  set (cloud0 := {| pc_header := depth_header st0; pc_is_dense := false;
                    pc_points := [] |}).
  pose proof (FillPointCloudHelper_spec tan atan2 st0 cloud0 h w image Hok0)
    as Hcloud.
  assert (Hall : (point_cloud_connect_count_ (counters st) <=? 0)
                 && (depth_image_connect_count_ (counters st) <=? 0)
                 && (image_connect_count_ (counters st) <=? 0)
                 && (normals_connect_count_ (counters st) <=? 0) = false).
  { rewrite !andb_false_iff, !Z.leb_gt. tauto. }
  assert (Hpc : (0 <? point_cloud_connect_count_ (counters st))
                || (0 <? normals_connect_count_ (counters st)) = true).
  { rewrite orb_true_iff, !Z.ltb_lt. exact Hsub. }
  unfold OnNewDepthFrame. rewrite Hrdy. fold t. fold st0.
  change (IsActive (parentSensor st0)) with (IsActive (parentSensor st)).
  change (counters st0) with (counters st).
  rewrite Hact, Hall, Hpc.
  unfold FillPointdCloud. fold cloud0.
  change (height (config st0)) with h. change (width (config st0)) with w.
  rewrite Hcloud. cbn [mbind option_bind].
  set (st2 := set_point_cloud_msg _ _).
  destruct (0 <? depth_image_connect_count_ (counters st)).
  - unfold FillDepthImage.
    change (height (config st2)) with h. change (width (config st2)) with w.
    destruct (FillDepthImageHelper_spec st2
                (with_header (depth_header st2) (depth_image_msg_ st2))
                h w image Hrok H16) as (img & E & _).
    rewrite E. cbn [mbind option_bind].
    eexists _, _. split; [reflexivity|]. repeat split.
  - eexists _, _. split; [reflexivity|]. repeat split.
Qed.

(** X23.  The normals after a depth frame of at least one pixel: every
    marker is stamped with the time of the depth frame and stands at the
    cached point of the pixel of its identifier, which is the point of
    the cloud where the sample exceeds the cutoff and (NaN, NaN, 0)
    where it does not. *)
Theorem normals_follow_depth_frame (st : State) (image normals : list float) :
  not_ready st = false ->
  IsActive (parentSensor st) = true ->
  0 < normals_connect_count_ (counters st) ->
  frame_ok st (height (config st)) (width (config st)) image ->
  0 < height (config st) * width (config st) ->
  (use_depth_image_16UC1_format_ (config st) = true ->
   forall k e, 0 <= k < height (config st) * width (config st) ->
     read image k = Some e ->
     is_Some (encode16 (point_cloud_cutoff_ (config st)) e)) ->
  4 * (height (config st) * width (config st))
  <= Z.of_nat (length normals) ->
  0 < reduce_normals_ (config st) < 2 ^ 32 ->
  exists st' ev (ms : list (Marker T)),
    OnNewDepthFrame (T := T) tan atan2 doTransform st image
    = Some (st', ev) /\
    OnNewNormalsFrame st' normals (width (config st)) (height (config st))
    = Some (st', [EvPublishNormals ms]) /\
    Forall (fun m =>
              let k := m_id m in
              let p := frame_point tan atan2 st (height (config st))
                         (width (config st)) image k in
              0 <= k < height (config st) * width (config st) /\
              m_header m
              = {| frame_id := frame_name_ (config st);
                   stamp := LastMeasurementTime (parentSensor st) |} /\
              (pixel_valid st (sample image k) = true ->
               m_position m = (f2d (pt_x p), f2d (pt_y p), f2d (pt_z p))) /\
              (pixel_valid st (sample image k) = false ->
               pt_x p = quiet_NaN /\ pt_y p = quiet_NaN /\
               pt_z p = quiet_NaN /\
               m_position m = (S754_nan, S754_nan, d_zero))) ms.
Proof.
  intros Hrdy Hact Hsub Hok Hpix H16 HLn HN.
  pose proof Hok as (Hr & Hc & H32 & HL & _).
  destruct (OnNewDepthFrame_leaves st image Hrdy Hact (or_intror Hsub)
              Hok Hpix H16)
    as (st' & ev & E & Hcfg & Hcnt & Hsens & Htime & Hpcd).
  set (h := height (config st)) in *. set (w := width (config st)) in *.
  set (pcd' := frame_pcd tan atan2 st h w image (h * w) ++ _) in Hpcd.
  assert (Hn : 0 <= h * w) by nia.
  assert (Hlen : 4 * (w * h) <= Z.of_nat (length pcd')).
  { unfold pcd'. rewrite length_app.
    pose proof (length_frame_pcd tan atan2 st h w image (h * w) Hn). lia. }
  assert (HN' : 0 < reduce_normals_ (config st') < 2 ^ 32)
    by (rewrite Hcfg; exact HN).
  destruct (normals_markers_spec st' normals pcd' w h Hc Hr
              ltac:(lia) ltac:(lia) Hlen HN') as (ms & Hms & Hall).
  exists st', ev, ms. split; [exact E|]. split.
  - unfold OnNewNormalsFrame, not_ready. rewrite Hcfg, Hcnt, Hsens, Hpcd.
    fold (not_ready st). rewrite Hrdy, Hact. cbn [negb].
    replace (0 <? normals_connect_count_ (counters st)) with true
      by (symmetry; apply Z.ltb_lt; exact Hsub).
    rewrite Hms. reflexivity.
  - assert (Hin : forall k,
              k ∈ filter (fun k => k mod reduce_normals_ (config st') = 0)
                    (visit_order w h) -> 0 <= k < w * h).
    { intros k Hk. apply list_elem_of_filter in Hk as [_ Hk].
      now apply elem_of_visit_order in Hk. }
    pose proof (markers_built st' normals pcd' (w * h) _ ms ltac:(lia)
                  ltac:(lia) Hlen Hin Hall) as Hbuilt.
    eapply Forall_impl; [exact Hbuilt|].
    intros m [Hid Hm]. cbn zeta.
    destruct (make_marker_fields st' normals pcd' (m_id m) m
                ltac:(lia) ltac:(lia) Hm)
      as (x & y & z & px & py & pz & _ & _ & _ & Hx & Hy & Hz & Hh & Hpos
          & _).
    split; [lia|]. split.
    { rewrite Hh. unfold depth_header. now rewrite Hcfg, Htime. }
    unfold pcd' in Hx, Hy, Hz.
    pose proof (read_frame_pcd tan atan2 st h w image (h * w) Hn
                  (drop (Z.to_nat (4 * (h * w))) (pcd_or_new st h w))
                  (m_id m)) as Hq.
    pose proof (Hq 0 ltac:(lia) ltac:(lia)) as Hq0.
    rewrite Z.add_0_r in Hq0.
    pose proof (Hq 1 ltac:(lia) ltac:(lia)) as Hq1.
    pose proof (Hq 2 ltac:(lia) ltac:(lia)) as Hq2.
    rewrite Hx in Hq0. rewrite Hy in Hq1. rewrite Hz in Hq2.
    unfold frame_quad, pixel_quad in Hq0, Hq1, Hq2.
    fold (frame_point tan atan2 st h w image (m_id m)) in Hq0, Hq1, Hq2.
    set (p := frame_point tan atan2 st h w image (m_id m)) in *.
    change (Some px = Some (pt_x p)) in Hq0.
    change (Some py = Some (pt_y p)) in Hq1.
    inversion Hq0; inversion Hq1; subst px py.
    unfold p, frame_point, pixel_point in *. cbn [pt_x pt_y pt_z] in *.
    destruct (pixel_valid st (sample image (m_id m))).
    + change (Some pz = Some (d2f (f2d (sample image (m_id m))))) in Hq2.
      inversion Hq2; subst pz. split; [intros _; exact Hpos|discriminate].
    + change (Some pz = Some float_zero) in Hq2.
      inversion Hq2; subst pz. split; [discriminate|]. intros _.
      repeat split. exact Hpos.
Qed.

End DepthThenNormals.

Lemma OnNewNormalsFrame_marker_count_witness :
  exists ms : list (Marker double),
    OnNewNormalsFrame (tfs := example_scalar) normals_state
      scenario_normals 2 2
    = Some (normals_state, [EvPublishNormals ms]) /\
    Z.of_nat (length ms) = (2 * 2 + 3 - 1) / 3.
Proof.
  apply (OnNewNormalsFrame_marker_count (tfs := example_scalar)
           normals_state scenario_normals scenario_pcd 2 2);
    try reflexivity; simpl; lia.
Defined.

Lemma OnNewNormalsFrame_zero_stride_witness :
  OnNewNormalsFrame (tfs := example_scalar) zero_stride_state
    scenario_normals 2 2 = None.
Proof.
  apply (OnNewNormalsFrame_zero_stride (tfs := example_scalar)
           zero_stride_state scenario_normals scenario_pcd 2 2);
    try reflexivity; simpl; lia.
Defined.

Lemma normals_along_reference_axis_witness :
  exists ms : list (Marker double),
    OnNewNormalsFrame
      (tfs := TfScalar_double sin_at_zero cos_at_zero acos_at_one)
      normals_state axis_normals 2 2
    = Some (normals_state, [EvPublishNormals ms]) /\
    Forall (fun m =>
              forall (s sy sz : bool) (mx : positive) (ex : Z),
                read axis_normals (4 * m_id m) = Some (S754_finite s mx ex) ->
                is_float (S754_finite s mx ex) = true ->
                read axis_normals (4 * m_id m + 1) = Some (S754_zero sy) ->
                read axis_normals (4 * m_id m + 2) = Some (S754_zero sz) ->
                m_orientation m = q_nan) ms.
Proof.
  apply (normals_along_reference_axis sin_at_zero cos_at_zero acos_at_one
           normals_state axis_normals scenario_pcd 2 2);
    try reflexivity; simpl; lia.
Defined.

Lemma normals_only_frame_ok : frame_ok normals_only_state 2 2 scenario_grid.
Proof.
  unfold frame_ok. simpl. repeat (split; [lia |]). discriminate.
Defined.

Lemma normals_follow_depth_frame_witness :
  exists st' ev (ms : list (Marker double)),
    OnNewDepthFrame (T := double) tan_at_zero atan2_at_zero (fun m => m)
      normals_only_state scenario_grid = Some (st', ev) /\
    OnNewNormalsFrame (tfs := example_scalar) st' scenario_normals 2 2
    = Some (st', [EvPublishNormals ms]) /\
    Forall (fun m =>
              let k := m_id m in
              let p := frame_point tan_at_zero atan2_at_zero
                         normals_only_state 2 2 scenario_grid k in
              0 <= k < 2 * 2 /\
              m_header m = example_header /\
              (pixel_valid normals_only_state (sample scenario_grid k) = true
               -> m_position m
                  = (f2d (pt_x p), f2d (pt_y p), f2d (pt_z p))) /\
              (pixel_valid normals_only_state (sample scenario_grid k)
               = false ->
               pt_x p = quiet_NaN /\ pt_y p = quiet_NaN /\
               pt_z p = quiet_NaN /\
               m_position m = (S754_nan, S754_nan, d_zero))) ms.
Proof.
  apply (normals_follow_depth_frame (tfs := example_scalar) tan_at_zero
           atan2_at_zero (fun m => m) normals_only_state scenario_grid
           scenario_normals).
  - reflexivity.
  - reflexivity.
  - simpl. lia.
  - exact normals_only_frame_ok.
  - simpl. lia.
  - discriminate.
  - simpl. lia.
  - simpl. lia.
Defined.
